(** * Personal Data Visualization Expert: the action pipeline

    A shallow embedding of the decision logic of the repository
    ([llm_handler.py], [data_processor.py], [visualizer.py] and the query
    branch of [app.py]) together with the properties its specification
    states about it.

    Conventions of the embedding.
    - Text is a [string] of 8-bit characters, read as the code points
      0..255 of a Python [str].
    - A Python object that the code handles as data (the decoded JSON, an
      action dictionary, a filter condition) is a [value]; Python's [None]
      is [VNone].
    - A call that may raise returns a [py A]: [Ret a] or [Raise e].
    - The libraries the program calls (json, pandas, plotly, streamlit) are
      interfaces: type classes whose fields are the calls the code makes.
      Nothing is assumed about them except where a theorem says so.
    - Dataframes are objects: they live in a store and are passed around by
      reference, so that assignment into a column is visible through every
      alias. *)

From Stdlib Require Import ZArith String Ascii List Bool Lia.
From stdpp Require Import base option list strings pretty gmap.

Set Warnings "-register-all".
Open Scope string_scope.
Open Scope list_scope.

(** ** Python values and exceptions *)

Inductive value : Type :=
| VNone
| VBool (b : bool)
| VInt (n : Z)
| VFloat (lit : string)
| VStr (s : string)
| VList (xs : list value)
| VDict (kvs : list (string * value)).

Inductive exn_class : Type :=
| AttributeError
| TypeError
| KeyError
| JSONDecodeError
| OtherException.

(** An exception object: its class and [str(e)]. *)
Record exn : Type := Exn { exn_cls : exn_class; exn_str : string }.

Inductive py (A : Type) : Type :=
| Ret (a : A)
| Raise (e : exn).
Arguments Ret {A} a.
Arguments Raise {A} e.

(** Sequencing: [x ← m; k] runs [k] unless [m] raised. *)
#[global] Instance py_ret : MRet py := fun A a => Ret a.
#[global] Instance py_bind : MBind py := fun A B k m =>
  match m with
  | Ret a => k a
  | Raise e => Raise e
  end.

(** [try: m except Exception as e: h e] *)
Definition try_except {A : Type} (m : py A) (h : exn -> A) : A :=
  match m with
  | Ret a => a
  | Raise e => h e
  end.

Definition exn_class_eqb (c d : exn_class) : bool :=
  match c, d with
  | AttributeError, AttributeError
  | TypeError, TypeError
  | KeyError, KeyError
  | JSONDecodeError, JSONDecodeError
  | OtherException, OtherException => true
  | _, _ => false
  end.

(** [type(v).__name__] *)
Definition type_name (v : value) : string :=
  match v with
  | VNone => "NoneType"
  | VBool _ => "bool"
  | VInt _ => "int"
  | VFloat _ => "float"
  | VStr _ => "str"
  | VList _ => "list"
  | VDict _ => "dict"
  end.

(** The exception of [v.attr] when [v] has no such attribute. *)
Definition no_attribute (v : value) (attr : string) : exn :=
  Exn AttributeError
      ("'" +:+ type_name v +:+ "' object has no attribute '" +:+ attr +:+ "'").

(** The exception of hashing a list or a dict. *)
Definition unhashable (v : value) : exn :=
  Exn TypeError ("unhashable type: '" +:+ type_name v +:+ "'").

(** The exception of [for x in v] when [v] is not iterable. *)
Definition not_iterable (v : value) : exn :=
  Exn TypeError ("'" +:+ type_name v +:+ "' object is not iterable").

(** The parts of the Python runtime and standard library that the program
    calls and that this development does not define: the JSON decoder, and
    the text and truth value of a float (given by its literal), the text
    of a list or dict, and [str.capitalize]. *)
Class Python : Type := {
  json_loads : string -> py value;
  float_nonzero : string -> bool;
  str_container : value -> string;
  str_float : string -> string;
  capitalize : string -> string
}.

Section PythonBuiltins.
Context `{Python}.

(** [bool(v)] *)
Definition truthy (v : value) : bool :=
  match v with
  | VNone => false
  | VBool b => b
  | VInt n => negb (n =? 0)%Z
  | VFloat lit => float_nonzero lit
  | VStr s => negb (String.eqb s "")
  | VList xs => match xs with [] => false | _ => true end
  | VDict kvs => match kvs with [] => false | _ => true end
  end.

(** [str(v)], as an f-string formats [v] *)
Definition py_str (v : value) : string :=
  match v with
  | VNone => "None"
  | VBool true => "True"
  | VBool false => "False"
  | VInt n => pretty n
  | VFloat lit => str_float lit
  | VStr s => s
  | VList _ | VDict _ => str_container v
  end.
End PythonBuiltins.

(** [k in d] and [d.get(k, default)] on the items of a dict *)
Fixpoint dict_lookup (k : string) (kvs : list (string * value)) : option value :=
  match kvs with
  | [] => None
  | (k', v) :: rest => if String.eqb k k' then Some v else dict_lookup k rest
  end.

Definition dict_contains (k : string) (kvs : list (string * value)) : bool :=
  match dict_lookup k kvs with Some _ => true | None => false end.

Definition dict_get (k : string) (kvs : list (string * value)) (default : value) : value :=
  match dict_lookup k kvs with Some v => v | None => default end.

(** [d[k] = v]: the key keeps its place when it is there, and is appended
    otherwise. *)
Fixpoint dict_set (k : string) (v : value) (kvs : list (string * value))
  : list (string * value) :=
  match kvs with
  | [] => [(k, v)]
  | (k', v') :: rest =>
      if String.eqb k k' then (k, v) :: rest else (k', v') :: dict_set k v rest
  end.

(** [v.get(k, default)] on an arbitrary value *)
Definition value_get (v : value) (k : string) (default : value) : py value :=
  match v with
  | VDict kvs => Ret (dict_get k kvs default)
  | _ => Raise (no_attribute v "get")
  end.

(** [a == b] where [b] is a [str] *)
Definition eq_str (a : value) (b : string) : bool :=
  match a with
  | VStr s => String.eqb s b
  | _ => false
  end.

(** [c.lower()] on a code point below 256: the ASCII capitals and the
    Latin-1 capitals other than the multiplication sign. *)
Definition lower_ascii (c : ascii) : ascii :=
  let n := nat_of_ascii c in
  if ((65 <=? n)%nat && (n <=? 90)%nat) || ((192 <=? n)%nat && (n <=? 222)%nat && negb (n =? 215)%nat)
  then ascii_of_nat (n + 32)
  else c.

Fixpoint str_lower (s : string) : string :=
  match s with
  | EmptyString => EmptyString
  | String c s' => String (lower_ascii c) (str_lower s')
  end.

(** [v.lower()] *)
Definition value_lower (v : value) : py string :=
  match v with
  | VStr s => Ret (str_lower s)
  | _ => Raise (no_attribute v "lower")
  end.

(** [v[k]] for a string [k] *)
Definition value_getitem (v : value) (k : string) : py value :=
  match v with
  | VDict kvs =>
      match dict_lookup k kvs with
      | Some x => Ret x
      | None => Raise (Exn KeyError ("'" +:+ k +:+ "'"))
      end
  | VStr _ => Raise (Exn TypeError "string indices must be integers, not 'str'")
  | VList _ => Raise (Exn TypeError "list indices must be integers or slices, not str")
  | _ => Raise (Exn TypeError ("'" +:+ type_name v +:+ "' object is not subscriptable"))
  end.

(** ** Text search as [str.find], [str.rfind] and slicing do it *)

(** The text after [pre], when the text starts with it. *)
Fixpoint strip_prefix (pre s : string) : option string :=
  match pre with
  | EmptyString => Some s
  | String c pre' =>
      match s with
      | String d s' => if Ascii.eqb c d then strip_prefix pre' s' else None
      | EmptyString => None
      end
  end.

Fixpoint find_char (c : ascii) (s : string) : option nat :=
  match s with
  | EmptyString => None
  | String d s' =>
      if Ascii.eqb c d then Some 0 else option_map S (find_char c s')
  end.

Fixpoint rfind_char (c : ascii) (s : string) : option nat :=
  match s with
  | EmptyString => None
  | String d s' =>
      match rfind_char c s' with
      | Some i => Some (S i)
      | None => if Ascii.eqb c d then Some 0 else None
      end
  end.

(** [text[i:j]] for [0 <= i <= j] *)
Definition slice (i j : nat) (text : string) : string :=
  String.substring i (j - i) text.

(** ** A backtracking matcher for the regular expressions of the program

    The fragment of Python's [re] that the pattern of [safe_json_parse]
    uses: literals, greedy and lazy repetition of a character class,
    concatenation, ordered alternation and one capturing group.  Matching
    backtracks the way [re] does: alternatives left to right, a greedy star
    from the longest repetition down, a lazy star from the shortest up. *)
Module Re.

Inductive regex : Type :=
| Lit (s : string)
| Star (greedy : bool) (cls : ascii -> bool)
| Cat (r1 r2 : regex)
| Alt (r1 r2 : regex)
| Group (r : regex).

(** The span of group 1, when it took part in the match. *)
Definition capture : Type := option (nat * nat).

Section Matcher.
Context {R : Type}.

(** The continuation gets the rest of the text, the position and the
    capture. *)
Definition cont : Type := string -> nat -> capture -> option R.

Fixpoint lit (l : string) (s : string) (p : nat) (g : capture) (k : cont)
  : option R :=
  match l with
  | EmptyString => k s p g
  | String c l' =>
      match s with
      | String d s' => if Ascii.eqb c d then lit l' s' (S p) g k else None
      | EmptyString => None
      end
  end.

Fixpoint star_greedy (cls : ascii -> bool) (s : string) (p : nat)
         (g : capture) (k : cont) : option R :=
  match s with
  | String c s' =>
      if cls c then
        match star_greedy cls s' (S p) g k with
        | Some r => Some r
        | None => k s p g
        end
      else k s p g
  | EmptyString => k s p g
  end.

Fixpoint star_lazy (cls : ascii -> bool) (s : string) (p : nat)
         (g : capture) (k : cont) : option R :=
  match k s p g with
  | Some r => Some r
  | None =>
      match s with
      | String c s' => if cls c then star_lazy cls s' (S p) g k else None
      | EmptyString => None
      end
  end.

Fixpoint run (r : regex) (s : string) (p : nat) (g : capture) (k : cont)
  : option R :=
  match r with
  | Lit l => lit l s p g k
  | Star true cls => star_greedy cls s p g k
  | Star false cls => star_lazy cls s p g k
  | Cat r1 r2 => run r1 s p g (fun s' p' g' => run r2 s' p' g' k)
  | Alt r1 r2 =>
      match run r1 s p g k with
      | Some x => Some x
      | None => run r2 s p g k
      end
  | Group r1 => run r1 s p g (fun s' p' _ => k s' p' (Some (p, p')))
  end.
End Matcher.

(** A match object: [m.start()], [m.end()] and the span of group 1. *)
Record match_object : Type := Match {
  m_start : nat;
  m_end : nat;
  m_group1 : capture
}.

(** [re.match] at position [p], where [s] is the text from [p] on *)
Definition match_at (r : regex) (s : string) (p : nat) : option match_object :=
  run r s p None (fun _ e g => Some (Match p e g)).

(** [re.search]: the match at the leftmost position that has one *)
Fixpoint search_from (r : regex) (s : string) (p : nat) : option match_object :=
  match match_at r s p with
  | Some m => Some m
  | None =>
      match s with
      | String _ s' => search_from r s' (S p)
      | EmptyString => None
      end
  end.

Definition search (r : regex) (text : string) : option match_object :=
  search_from r text 0.

(** [m.group(0)] *)
Definition group0 (text : string) (m : match_object) : string :=
  slice (m_start m) (m_end m) text.

(** [m.group(1)], [None] when the group took no part *)
Definition group1 (text : string) (m : match_object) : option string :=
  match m_group1 m with
  | Some (i, j) => Some (slice i j text)
  | None => None
  end.

(** [\s] on code points below 256 *)
Definition space (c : ascii) : bool :=
  let n := nat_of_ascii c in
  ((9 <=? n)%nat && (n <=? 13)%nat) || ((28 <=? n)%nat && (n <=? 32)%nat)
  || (n =? 133)%nat || (n =? 160)%nat.

(** [[\s\S]] *)
Definition any (c : ascii) : bool := true.

End Re.

(** ** llm_handler.py *)

(** The pattern of [safe_json_parse]:
    [```json\s*([\s\S]*?)\s*```|{[\s\S]*}], and its two alternatives. *)
Definition fence_pattern : Re.regex :=
  Re.Cat (Re.Lit "```json")
    (Re.Cat (Re.Star true Re.space)
       (Re.Cat (Re.Group (Re.Star false Re.any))
          (Re.Cat (Re.Star true Re.space) (Re.Lit "```")))).

Definition brace_pattern : Re.regex :=
  Re.Cat (Re.Lit "{") (Re.Cat (Re.Star true Re.any) (Re.Lit "}")).

Definition json_pattern : Re.regex := Re.Alt fence_pattern brace_pattern.

Section LlmHandler.
Context `{Python}.

(** [try: return json.loads(s) except json.JSONDecodeError: pass], then
    [rest].  Another exception leaves the function. *)
Definition loads_or (s : string) (rest : py value) : py value :=
  match json_loads s with
  | Ret v => Ret v
  | Raise e => if exn_class_eqb (exn_cls e) JSONDecodeError then rest else Raise e
  end.

(** The second attempt of [safe_json_parse]: from the first [{] to the
    last [}]. *)
Definition brace_fallback (text : string) : py value :=
  match find_char "{" text, rfind_char "}" text with
  | Some start, Some end_ =>
      if (start <? end_)%nat then loads_or (slice start (S end_) text) (Ret VNone)
      else Ret VNone
  | _, _ => Ret VNone
  end.

(** The string the first attempt decodes: group 1 when it is a non-empty
    string, the whole match otherwise. *)
Definition json_str (text : string) (m : Re.match_object) : string :=
  match Re.group1 text m with
  | Some s => if String.eqb s "" then Re.group0 text m else s
  | None => Re.group0 text m
  end.

Definition safe_json_parse (text : string) : py value :=
  match Re.search json_pattern text with
  | Some json_match => loads_or (json_str text json_match) (brace_fallback text)
  | None => brace_fallback text
  end.

(** What [parse_llm_response] returns:
    [(action, description, filter_conditions, error)]. *)
Definition parse_result : Type := value * value * value * option string.

Definition parse_failure (message : string) : parse_result :=
  (VNone, VNone, VNone, Some message).

Definition operators : list string := ["=="; ">="; "<="; ">"; "<"].

(** [operator in ["==", ">=", "<=", ">", "<"]] *)
Definition operator_listed (operator : value) : bool :=
  existsb (eq_str operator) operators.

(** The loop over the filter conditions: the message of the first check
    that fails, [None] when the loop runs to its end. *)
Fixpoint check_conditions (conditions : list value) : option string :=
  match conditions with
  | [] => None
  | condition :: rest =>
      match condition with
      | VDict c =>
          if negb (dict_contains "column" c) || negb (dict_contains "value" c)
          then Some "Filter condition missing 'column' or 'value' parameter."
          else
            let operator := dict_get "operator" c (VStr "==") in
            if negb (operator_listed operator)
            then Some ("Invalid filter operator: " +:+ py_str operator)
            else check_conditions rest
      | _ => Some "Each filter condition must be a dictionary."
      end
  end.

(** [if filter_conditions: ...] *)
Definition check_filter (filter_conditions : value) : option string :=
  if truthy filter_conditions then
    match filter_conditions with
    | VList conditions => check_conditions conditions
    | _ => Some "Filter must be a list of condition dictionaries."
    end
  else None.

(** The chain of [if]/[elif]/[else] on the action type: the message it
    returns with, [None] when control reaches the final [return]. *)
Definition check_type (action_type : string) (action : list (string * value))
  : option string :=
  if String.eqb action_type "histogram" && negb (dict_contains "column" action)
  then Some "Histogram action missing 'column' parameter."
  else if String.eqb action_type "bar" && negb (dict_contains "x" action)
  then Some "Bar chart action missing 'x' parameter."
  else if String.eqb action_type "scatter"
          && (negb (dict_contains "x" action) || negb (dict_contains "y" action))
  then Some "Scatter plot action missing 'x' or 'y' parameter."
  else if String.eqb action_type "line"
          && (negb (dict_contains "x" action) || negb (dict_contains "y" action))
  then Some "Line chart action missing 'x' or 'y' parameter."
  else if String.eqb action_type "summarize"
  then None
  else Some ("Unknown action type: " +:+ action_type).

(** The body of the [try] of [parse_llm_response]. *)
Definition parse_body (response_text : string) : py parse_result :=
  parsed ← safe_json_parse response_text;
  if negb (truthy parsed)
  then Ret (parse_failure "Could not parse LLM response as JSON.")
  else
    action ← value_get parsed "action" (VDict []);
    description ← value_get parsed "description" (VStr "No description provided.");
    match action with
    | VDict a =>
        if negb (dict_contains "type" a)
        then Ret (parse_failure "Invalid action structure in LLM response.")
        else
          action_type ← value_lower (dict_get "type" a (VStr ""));
          let filter_conditions := dict_get "filter" a VNone in
          match check_filter filter_conditions with
          | Some message => Ret (parse_failure message)
          | None =>
              match check_type action_type a with
              | Some message => Ret (parse_failure message)
              | None => Ret (action, description, filter_conditions, None)
              end
          end
    | _ => Ret (parse_failure "Invalid action structure in LLM response.")
    end.

(** [response_text] is [None] or a [str]. *)
Definition parse_llm_response (response_text : option string) : parse_result :=
  match response_text with
  | None => parse_failure "No response received from the LLM."
  | Some text =>
      if String.eqb text ""
      then parse_failure "No response received from the LLM."
      else
        try_except (parse_body text)
          (fun e => parse_failure ("Error parsing LLM response: " +:+ exn_str e))
  end.
End LlmHandler.

(** ** Dataframes and the pandas interface *)

(** The comparison operators of a filter condition. *)
Inductive comparison : Type := CmpEq | CmpGe | CmpLe | CmpGt | CmpLt.

(** The types pandas computes with: the content of a cell, the dtype of a
    column and the number a statistic returns. *)
Class PandasData : Type := {
  cell : Type;
  dtype : Type;
  scalar : Type
}.

Section Frames.
Context `{PandasData}.

(** A column: its dtype and its cells, one per row. *)
Record Series : Type := MkSeries {
  s_dtype : dtype;
  s_values : list cell
}.

(** A dataframe: the length of its index and its labelled columns, in
    order.  The labels of a frame read from CSV are strings. *)
Record DataFrame : Type := MkFrame {
  df_len : nat;
  df_data : list (string * Series)
}.

(** [df.columns] *)
Definition columns (df : DataFrame) : list string := (df_data df).*1.

(** [df.columns.tolist()] as a Python list *)
Definition columns_tolist (df : DataFrame) : value :=
  VList (VStr <$> columns df).

(** [df[col]] for a label that is there *)
Fixpoint lookup_column (col : string) (data : list (string * Series))
  : option Series :=
  match data with
  | [] => None
  | (c, s) :: rest => if String.eqb col c then Some s else lookup_column col rest
  end.

(** [df[col] = s]: an existing column is replaced where it stands, a new
    one is added at the end. *)
Fixpoint assign_column (col : string) (s : Series) (data : list (string * Series))
  : list (string * Series) :=
  match data with
  | [] => [(col, s)]
  | (c, s') :: rest =>
      if String.eqb col c then (c, s) :: rest
      else (c, s') :: assign_column col s rest
  end.

Definition set_column (col : string) (s : Series) (df : DataFrame) : DataFrame :=
  MkFrame (df_len df) (assign_column col s (df_data df)).

(** [key in df.columns]: the key is hashed first, then looked up among
    the labels; no value other than an equal string is a label. *)
Definition in_columns (key : value) (df : DataFrame) : py bool :=
  match key with
  | VList _ | VDict _ => Raise (unhashable key)
  | VStr col => Ret (existsb (String.eqb col) (columns df))
  | _ => Ret false
  end.

(** [df[key]] once [key in df.columns] holds *)
Definition get_column (key : value) (df : DataFrame) : py Series :=
  match key with
  | VStr col =>
      match lookup_column col (df_data df) with
      | Some s => Ret s
      | None => Raise (Exn KeyError ("'" +:+ col +:+ "'"))
      end
  | _ => Raise (Exn KeyError "key")
  end.

(** Selection by a boolean mask, on a list, a column and a frame:
    [df[mask]]. *)
Fixpoint select {A : Type} (mask : list bool) (xs : list A) : list A :=
  match mask, xs with
  | b :: mask', x :: xs' => if b then x :: select mask' xs' else select mask' xs'
  | _, _ => []
  end.

Definition select_series (mask : list bool) (s : Series) : Series :=
  MkSeries (s_dtype s) (select mask (s_values s)).

Definition select_rows (mask : list bool) (df : DataFrame) : DataFrame :=
  MkFrame (length (select mask (seq 0 (df_len df))))
          (prod_map id (select_series mask) <$> df_data df).

(** [df.empty]: some axis has length zero. *)
Definition df_empty (df : DataFrame) : bool :=
  (df_len df =? 0)%nat || (length (df_data df) =? 0)%nat.

(** Every column has one cell per row and no label occurs twice. *)
Definition frame_ok (df : DataFrame) : Prop :=
  Forall (fun cs => length (s_values cs.2) = df_len df) (df_data df)
  /\ NoDup (columns df).
End Frames.

(** The calls into pandas.  A call that the code wraps in [try] may raise. *)
Class Pandas `{PandasData} : Type := {
  dtype_str : dtype -> string;
  is_numeric_dtype : dtype -> bool;
  is_datetime64_dtype : dtype -> bool;
  is_object_dtype : dtype -> bool;
  is_string_dtype : dtype -> bool;
  isna : cell -> bool;
  to_numeric_coerce : Series -> py Series;
  to_datetime_coerce : Series -> py Series;
  to_datetime_raise : list cell -> py unit;
  compare : comparison -> Series -> value -> py (list bool);
  sort_values : DataFrame -> value -> py DataFrame;
  value_counts_frame : Series -> value -> DataFrame;
  nunique : Series -> nat;
  mean : Series -> scalar;
  median : Series -> scalar;
  minimum : Series -> scalar;
  maximum : Series -> scalar;
  std : Series -> scalar;
  most_frequent : Series -> option (string * nat);
  percentage : nat -> nat -> string
}.

(** The call into plotly: [px.histogram], [px.bar], [px.scatter] and
    [px.line] with the arguments the code passes. *)
Inductive chart_kind : Type := Histogram | Bar | Scatter | Line.

Record chart_call `{PandasData} : Type := MkChart {
  ch_kind : chart_kind;
  ch_data : DataFrame;
  ch_x : value;
  ch_y : option value;
  ch_title : string;
  ch_labels : list (value * string);
  ch_template : string
}.
Arguments MkChart {_} _ _ _ _ _ _ _.

Class Plotly `{PandasData} : Type := {
  figure : Type;
  px : chart_call -> py figure
}.

(** The widgets of streamlit: what the user picks in each. *)
Class Streamlit : Type := {
  selectbox : string -> list string -> value;
  checkbox : string -> bool -> bool;
  multiselect : string -> list string -> list string -> list string
}.

(** ** The world of a run: the dataframe objects and the page *)

Definition loc : Type := nat.

Section World.
Context `{Python} `{Pandas} `{!Plotly}.

(** One row of the summary table. *)
Inductive stat : Type :=
| SStr (s : string)
| SNat (n : nat)
| SNum (x : scalar).

Definition stats_row : Type := list (string * stat).

(** What the program puts on the page. *)
Inductive event : Type :=
| StError (message : string)
| StWarning (message : string)
| StMarkdown (text : string)
| StInfo (text : string)
| RenderSummary (summary_df : option (list stats_row)) (description : value)
| RenderVisualization (fig : option figure) (description : value).

Record world : Type := MkWorld {
  frames : gmap loc DataFrame;
  page : list event
}.

(** A computation on the world that may raise. *)
Definition M (A : Type) : Type := world -> world * py A.

#[global] Instance M_ret : MRet M := fun A a w => (w, Ret a).
#[global] Instance M_bind : MBind M := fun A B k m w =>
  match m w with
  | (w', Ret a) => k a w'
  | (w', Raise e) => (w', Raise e)
  end.

Definition lift {A : Type} (m : py A) : M A := fun w => (w, m).

(** [try: m except: h e] *)
Definition catch {A : Type} (m : M A) (h : exn -> M A) : M A := fun w =>
  match m w with
  | (w', Ret a) => (w', Ret a)
  | (w', Raise e) => h e w'
  end.

Definition dangling : exn := Exn OtherException "no such object".

(** The state of the object [df]. *)
Definition read (df : loc) : M DataFrame := fun w =>
  match frames w !! df with
  | Some d => (w, Ret d)
  | None => (w, Raise dangling)
  end.

Definition write (df : loc) (d : DataFrame) : M unit := fun w =>
  (MkWorld (<[df := d]> (frames w)) (page w), Ret ()).

(** A new object. *)
Definition alloc (d : DataFrame) : M loc := fun w =>
  let l := fresh (dom (frames w)) in
  (MkWorld (<[l := d]> (frames w)) (page w), Ret l).

Definition show (e : event) : M unit := fun w =>
  (MkWorld (frames w) (page w ++ [e]), Ret ()).

(** [key in df.columns] *)
Definition contains (key : value) (df : loc) : M bool :=
  d ← read df; lift (in_columns key d).

(** [df[key]] *)
Definition getitem (key : value) (df : loc) : M Series :=
  d ← read df; lift (get_column key d).

(** [df[key] = s].  The labels of a frame of this model are strings; the
    code assigns only under a key for which [key in df.columns] holds. *)
Definition setitem (key : value) (s : Series) (df : loc) : M unit :=
  d ← read df;
  match key with
  | VStr col => write df (set_column col s d)
  | _ => lift (Raise (Exn KeyError (py_str key)))
  end.

(** [df.copy()] *)
Definition copy (df : loc) : M loc :=
  d ← read df; alloc d.

(** [df[mask]]: a new frame *)
Definition getitem_mask (mask : list bool) (df : loc) : M loc :=
  d ← read df; alloc (select_rows mask d).
End World.

(** [for x in v]: the items of a list, the keys of a dict, the characters
    of a string. *)
Fixpoint characters (s : string) : list value :=
  match s with
  | EmptyString => []
  | String c s' => VStr (String c EmptyString) :: characters s'
  end.

Definition iterate (v : value) : py (list value) :=
  match v with
  | VList xs => Ret xs
  | VDict kvs => Ret (VStr <$> kvs.*1)
  | VStr s => Ret (characters s)
  | _ => Raise (not_iterable v)
  end.

(** ** data_processor.py *)

Section DataProcessor.
Context `{Python} `{Pandas} `{!Plotly}.

(** [df] is [None] when loading failed. *)
Definition validate_data (df : option DataFrame) : bool * string :=
  match df with
  | None => (false, "No data loaded.")
  | Some df =>
      if df_empty df then (false, "The uploaded file contains no data.")
      else if (length (df_data df) <? 1)%nat
      then (false, "The uploaded file contains no columns.")
      else (true, "Data validation successful.")
  end.

(** [df[col].dropna().head(10)] *)
Definition sample_of (s : Series) : list cell :=
  take 10 (List.filter (fun c => negb (isna c)) (s_values s)).

Fixpoint detect_time_loop (data : list (string * Series)) : list string :=
  match data with
  | [] => []
  | (col, s) :: rest =>
      if negb (is_object_dtype (s_dtype s)) && negb (is_string_dtype (s_dtype s))
      then detect_time_loop rest
      else
        let sample := sample_of s in
        if (length sample =? 0)%nat then detect_time_loop rest
        else
          match to_datetime_raise sample with
          | Ret _ => col :: detect_time_loop rest
          | Raise _ => detect_time_loop rest
          end
  end.

Definition detect_time_columns (df : DataFrame) : list string :=
  detect_time_loop (df_data df).

(** What [prepare_data_for_visualization] returns: [(df, None)] or
    [(None, message)]. *)
Definition prepared : Type := option loc * option string.

Definition not_found (column : value) : string :=
  "Column '" +:+ py_str column +:+ "' not found in the dataset.".

(** The message of the scatter and line branches: the entries of
    [missing] that are not empty, joined by [' and ']. *)
Definition columns_not_found (x y : value) (x_missing y_missing : bool) : string :=
  let missing :=
    [ if x_missing then "'" +:+ py_str x +:+ "'" else "";
      if (y_missing : bool) then "'" +:+ py_str y +:+ "'" else "" ] in
  "Columns "
    +:+ String.concat " and " (List.filter (fun m => negb (String.eqb m "")) missing)
    +:+ " not found in the dataset.".

Definition not_numeric (column : value) : string :=
  "Column '" +:+ py_str column +:+ "' is not numeric and could not be converted.".

Definition axis_not_numeric (name : string) (col : value) : string :=
  name +:+ "-axis column '" +:+ py_str col
       +:+ "' is not numeric and could not be converted.".

Definition not_datetime (x : value) : string :=
  "Column '" +:+ py_str x +:+ "' could not be converted to datetime for time series.".

(** [try: df[col] = convert(df[col]) except: ...]: whether the [try] ran
    to its end. *)
Definition try_convert (convert : Series -> py Series) (col : value) (df : loc)
  : M bool :=
  catch (s ← getitem col df;
         s' ← lift (convert s);
         _ ← setitem col s' df;
         mret true)
        (fun _ => mret false).

(** [if x not in df.columns or y not in df.columns] *)
Definition some_missing (x y : value) (df : loc) : M bool :=
  x_there ← contains x df;
  if negb x_there then mret true
  else y_there ← contains y df; mret (negb y_there).

(** The return of the scatter and line branches when a column is
    missing. *)
Definition report_missing (x y : value) (df : loc) : M prepared :=
  x_there ← contains x df;
  y_there ← contains y df;
  mret (None, Some (columns_not_found x y (negb x_there) (negb y_there))).

Definition prepare_histogram (action : list (string * value)) (df : loc)
  : M prepared :=
  let column := dict_get "column" action VNone in
  there ← contains column df;
  if negb there then mret (None, Some (not_found column))
  else
    s ← getitem column df;
    if negb (is_numeric_dtype (s_dtype s)) then
      ok ← try_convert to_numeric_coerce column df;
      if (ok : bool) then mret (Some df, None)
      else mret (None, Some (not_numeric column))
    else mret (Some df, None).

Definition prepare_bar (action : list (string * value)) (df : loc) : M prepared :=
  let x := dict_get "x" action VNone in
  let y := dict_get "y" action VNone in
  x_there ← contains x df;
  if negb x_there then mret (None, Some (not_found x))
  else
    y_missing ← (if truthy y
                 then y_there ← contains y df; mret (negb y_there)
                 else mret false);
    if (y_missing : bool) then mret (None, Some (not_found y))
    else
      convert ← (if truthy y
                 then s ← getitem y df; mret (negb (is_numeric_dtype (s_dtype s)))
                 else mret false);
      if (convert : bool) then
        ok ← try_convert to_numeric_coerce y df;
        if (ok : bool) then mret (Some df, None)
        else mret (None, Some (not_numeric y))
      else mret (Some df, None).

(** The loop of the scatter branch over [(x, "x")] and [(y, "y")]. *)
Fixpoint scatter_loop (axes : list (value * string)) (df : loc) : M prepared :=
  match axes with
  | [] => mret (Some df, None)
  | (col, name) :: rest =>
      s ← getitem col df;
      if negb (is_numeric_dtype (s_dtype s)) then
        ok ← try_convert to_numeric_coerce col df;
        if (ok : bool) then scatter_loop rest df
        else mret (None, Some (axis_not_numeric name col))
      else scatter_loop rest df
  end.

Definition prepare_scatter (action : list (string * value)) (df : loc)
  : M prepared :=
  let x := dict_get "x" action VNone in
  let y := dict_get "y" action VNone in
  missing ← some_missing x y df;
  if (missing : bool) then report_missing x y df
  else scatter_loop [(x, "x"); (y, "y")] df.

Definition prepare_line (action : list (string * value)) (df : loc) : M prepared :=
  let x := dict_get "x" action VNone in
  let y := dict_get "y" action VNone in
  missing ← some_missing x y df;
  if (missing : bool) then report_missing x y df
  else
    sx ← getitem x df;
    x_ok ← (if negb (is_datetime64_dtype (s_dtype sx))
              then try_convert to_datetime_coerce x df else mret true);
    if negb x_ok then mret (None, Some (not_datetime x))
    else
      sy ← getitem y df;
      y_ok ← (if negb (is_numeric_dtype (s_dtype sy))
                then try_convert to_numeric_coerce y df else mret true);
      if negb y_ok then mret (None, Some (not_numeric y))
      else mret (Some df, None).

(** The loop of the summarize branch. *)
Fixpoint summarize_loop (cols : list value) (df : loc) : M prepared :=
  match cols with
  | [] => mret (Some df, None)
  | col :: rest =>
      there ← contains col df;
      if negb there
      then mret (None, Some ("Column '" +:+ py_str col
                               +:+ "' specified for summary not found in the dataset."))
      else summarize_loop rest df
  end.

Definition prepare_summarize (action : list (string * value)) (df : loc)
  : M prepared :=
  d ← read df;
  cols ← lift (iterate (dict_get "columns" action (columns_tolist d)));
  summarize_loop cols df.

(** The body of the [try]. *)
Definition prepare_body (action_type : string) (action : list (string * value))
           (df : loc) : M prepared :=
  if String.eqb action_type "histogram" then prepare_histogram action df
  else if String.eqb action_type "bar" then prepare_bar action df
  else if String.eqb action_type "scatter" then prepare_scatter action df
  else if String.eqb action_type "line" then prepare_line action df
  else if String.eqb action_type "summarize" then prepare_summarize action df
  else mret (None, Some ("Unknown action type: " +:+ action_type)).

Definition prepare_data_for_visualization (df : loc) (action : list (string * value))
  : M prepared :=
  action_type ← lift (value_lower (dict_get "type" action (VStr "")));
  catch (prepare_body action_type action df)
        (fun e => mret (None, Some ("Error preparing data: " +:+ exn_str e))).
End DataProcessor.

(** ** visualizer.py *)

Section Visualizer.
Context `{Python} `{Pandas} `{!Plotly} `{Streamlit}.

(** [v.capitalize()] *)
Definition value_capitalize (v : value) : py string :=
  match v with
  | VStr s => Ret (capitalize s)
  | _ => Raise (no_attribute v "capitalize")
  end.

(** [labels={x: x.capitalize(), y: y.capitalize()}] *)
Definition axis_labels (x y : value) : py (list (value * string)) :=
  lx ← value_capitalize x;
  ly ← value_capitalize y;
  Ret [(x, lx); (y, ly)].

Definition template : string := "plotly_white".

(** The body of the [try] of [generate_visualization]: the figure, or
    the message of the final [return]. *)
Definition visualization_body (action_type : string) (df : DataFrame)
           (action : list (string * value)) : py (option figure * option string) :=
  if String.eqb action_type "histogram" then
    let column := dict_get "column" action VNone in
    label ← value_capitalize column;
    fig ← px (MkChart Histogram df column None
                ("Histogram of " +:+ py_str column) [(column, label)] template);
    Ret (Some fig, None)
  else if String.eqb action_type "bar" then
    let x := dict_get "x" action VNone in
    let y := dict_get "y" action VNone in
    if truthy y then
      labels ← axis_labels x y;
      fig ← px (MkChart Bar df x (Some y)
                  ("Bar Chart of " +:+ py_str x +:+ " vs " +:+ py_str y)
                  labels template);
      Ret (Some fig, None)
    else
      s ← get_column x df;
      let value_counts := value_counts_frame s x in
      label ← value_capitalize x;
      fig ← px (MkChart Bar value_counts x (Some (VStr "count"))
                  ("Count of " +:+ py_str x)
                  [(x, label); (VStr "count", "Count")] template);
      Ret (Some fig, None)
  else if String.eqb action_type "scatter" then
    let x := dict_get "x" action VNone in
    let y := dict_get "y" action VNone in
    labels ← axis_labels x y;
    fig ← px (MkChart Scatter df x (Some y)
                ("Scatter Plot of " +:+ py_str x +:+ " vs " +:+ py_str y)
                labels template);
    Ret (Some fig, None)
  else if String.eqb action_type "line" then
    let x := dict_get "x" action VNone in
    let y := dict_get "y" action VNone in
    sx ← get_column x df;
    df_sorted ← (if is_datetime64_dtype (s_dtype sx) then sort_values df x
                 else Ret df);
    sx' ← get_column x df;
    let word := if is_datetime64_dtype (s_dtype sx') then "over" else "vs" in
    labels ← axis_labels x y;
    fig ← px (MkChart Line df_sorted x (Some y)
                ("Line Chart of " +:+ py_str y +:+ " " +:+ word +:+ " " +:+ py_str x)
                labels template);
    Ret (Some fig, None)
  else
    Ret (None, Some ("Visualization type '" +:+ action_type +:+ "' not supported.")).

Definition generate_visualization (df : DataFrame) (action : list (string * value))
           (description : value) : py (option figure * option string) :=
  action_type ← value_lower (dict_get "type" action (VStr ""));
  Ret (try_except (visualization_body action_type df action)
         (fun e => (None, Some ("Error generating visualization: " +:+ exn_str e)))).

(** [df[col].count()] and [df[col].isna().sum()] *)
Definition count (s : Series) : nat :=
  length (List.filter (fun c => negb (isna c)) (s_values s)).

Definition missing_count (s : Series) : nat :=
  length (List.filter isna (s_values s)).

(** The dict [stats] of one column. *)
Definition column_stats (col : string) (s : Series) : stats_row :=
  let stats := [("Column", SStr col); ("Type", SStr (dtype_str (s_dtype s)))] in
  if is_numeric_dtype (s_dtype s) then
    stats ++ [("Count", SNat (count s)); ("Missing", SNat (missing_count s));
              ("Mean", SNum (mean s)); ("Median", SNum (median s));
              ("Min", SNum (minimum s)); ("Max", SNum (maximum s));
              ("Std Dev", SNum (std s))]
  else
    let stats := stats ++ [("Count", SNat (count s));
                           ("Missing", SNat (missing_count s));
                           ("Unique Values", SNat (nunique s))] in
    if (nunique s <? 50)%nat then
      let top_value := match most_frequent s with Some (v, _) => v | None => "None" end in
      let top_count := match most_frequent s with Some (_, n) => n | None => 0 end in
      let top_pct := if (0 <? count s)%nat then percentage top_count (count s)
                     else "0.00%" in
      stats ++ [("Most Frequent", SStr top_value); ("Frequency", SNat top_count);
                ("Percentage", SStr top_pct)]
    else stats.

(** The loop over the requested columns; [summary_data] is the list
    built so far. *)
Fixpoint summary_loop (df : DataFrame) (cols : list value)
         (summary_data : list stats_row) : py (list stats_row) :=
  match cols with
  | [] => Ret summary_data
  | col :: rest =>
      there ← in_columns col df;
      if negb there then summary_loop df rest summary_data
      else
        s ← get_column col df;
        summary_loop df rest (summary_data ++ [column_stats (py_str col) s])
  end.

Definition generate_summary_statistics (df : DataFrame) (action : list (string * value))
  : option (list stats_row) * option string :=
  try_except
    (cols ← iterate (dict_get "columns" action (columns_tolist df));
     summary_data ← summary_loop df cols [];
     Ret (Some summary_data, None))
    (fun e => (None, Some ("Error generating summary statistics: " +:+ exn_str e))).

Definition viz_types : list string :=
  ["histogram"; "bar"; "scatter"; "line"; "summarize"].

(** [[col for col in df.columns if is_numeric_dtype(df[col])]] *)
Definition numeric_columns (df : DataFrame) : list string :=
  (List.filter (fun cs => is_numeric_dtype (s_dtype cs.2)) (df_data df)).*1.

(** A list of labels as a Python list *)
Definition str_list (xs : list string) : value := VList (VStr <$> xs).

Definition create_action_from_ui (df : loc) : M (value * value) :=
  _ ← show (StMarkdown "### Select Visualization Type");
  let viz_type := selectbox "Visualization Type" viz_types in
  d ← read df;
  let numeric_cols := numeric_columns d in
  let all_cols := columns d in
  let action := [("type", viz_type)] in
  if eq_str viz_type "histogram" then
    let column :=
      match numeric_cols with
      | _ :: _ => selectbox "Select Column" numeric_cols
      | [] => selectbox "Select Column" all_cols
      end in
    mret (VDict (dict_set "column" column action),
          VStr ("Distribution of " +:+ py_str column))
  else if eq_str viz_type "bar" then
    let x := selectbox "Select X (Category) Column" all_cols in
    let action := dict_set "x" x action in
    let use_y := checkbox "Use Y Value (instead of count)" false in
    if use_y && match numeric_cols with [] => false | _ => true end then
      let y := selectbox "Select Y (Value) Column" numeric_cols in
      mret (VDict (dict_set "y" y action),
            VStr ("Bar chart showing " +:+ py_str y +:+ " by " +:+ py_str x))
    else
      mret (VDict action, VStr ("Bar chart showing count of " +:+ py_str x))
  else if eq_str viz_type "scatter" then
    if (2 <=? length numeric_cols)%nat then
      let x := selectbox "Select X Column" numeric_cols in
      let remaining_cols := List.filter (fun col => negb (eq_str x col)) numeric_cols in
      let y := selectbox "Select Y Column" remaining_cols in
      mret (VDict (dict_set "y" y (dict_set "x" x action)),
            VStr ("Scatter plot showing relationship between "
                    +:+ py_str x +:+ " and " +:+ py_str y))
    else
      _ ← show (StWarning "You need at least 2 numeric columns for a scatter plot");
      mret (VNone, VNone)
  else if eq_str viz_type "line" then
    let time_cols := detect_time_columns d in
    let x_options := match time_cols with [] => all_cols | _ => time_cols end in
    let x := selectbox "Select X (Time) Column" x_options in
    match numeric_cols with
    | _ :: _ =>
        let y := selectbox "Select Y (Value) Column" numeric_cols in
        mret (VDict (dict_set "y" y (dict_set "x" x action)),
              VStr ("Line chart showing " +:+ py_str y +:+ " over " +:+ py_str x))
    | [] =>
        _ ← show (StWarning "You need at least 1 numeric column for the Y axis");
        mret (VNone, VNone)
    end
  else if eq_str viz_type "summarize" then
    let use_all_cols := checkbox "Summarize all columns" true in
    if negb use_all_cols then
      let selected_cols :=
        multiselect "Select columns to summarize" all_cols
                    (take (Nat.min 5 (length all_cols)) all_cols) in
      mret (VDict (dict_set "columns" (str_list selected_cols) action),
            VStr ("Summary statistics for columns: "
                    +:+ String.concat ", " selected_cols))
    else
      mret (VDict (dict_set "columns" (str_list all_cols) action),
            VStr "Summary statistics for all columns")
  else mret (VDict action, VStr "").
End Visualizer.

(** ** app.py

    The part of [main] that runs once the dataset is loaded and shown.  The
    dataset of the session is the object [df]; [response_text] is what
    [query_llm] returned for the prompt. *)

Section App.
Context `{Python} `{Pandas} `{!Plotly} `{Streamlit}.

(** [if error:] *)
Definition error_set (error : option string) : bool :=
  match error with
  | Some message => negb (String.eqb message "")
  | None => false
  end.

Definition error_text (error : option string) : string := default "None" error.

(** [filtered_df[filtered_df[filter_col] <op> filter_val]] *)
Definition narrow (op : comparison) (filter_col filter_val : value) (filtered_df : loc)
  : M loc :=
  s ← getitem filter_col filtered_df;
  mask ← lift (compare op s filter_val);
  getitem_mask mask filtered_df.

(** The body of the [try] of the filter loop: the frame [filtered_df]
    names afterwards. *)
Definition apply_condition (filter_col filter_val operator : value) (filtered_df : loc)
  : M loc :=
  next ← (if eq_str operator "==" then narrow CmpEq filter_col filter_val filtered_df
          else if eq_str operator ">=" then narrow CmpGe filter_col filter_val filtered_df
          else if eq_str operator "<=" then narrow CmpLe filter_col filter_val filtered_df
          else if eq_str operator ">" then narrow CmpGt filter_col filter_val filtered_df
          else if eq_str operator "<" then narrow CmpLt filter_col filter_val filtered_df
          else mret filtered_df);
  _ ← show (StMarkdown ("**Applied Filter:** " +:+ py_str filter_col +:+ " "
                          +:+ py_str operator +:+ " " +:+ py_str filter_val));
  mret next.

(** The loop over the filter conditions.  [None] stands for the [return]
    that leaves [main]; otherwise the result is the frame [filtered_df]
    names when the loop ends. *)
Fixpoint filter_loop (conditions : list value) (filtered_df : loc) : M (option loc) :=
  match conditions with
  | [] => mret (Some filtered_df)
  | condition :: rest =>
      filter_col ← lift (value_getitem condition "column");
      filter_val ← lift (value_getitem condition "value");
      operator ← lift (value_get condition "operator" (VStr "=="));
      there ← contains filter_col filtered_df;
      if negb there then
        _ ← show (StError ("Filter column '" +:+ py_str filter_col
                             +:+ "' not found in dataset."));
        mret None
      else
        next ← catch (l ← apply_condition filter_col filter_val operator filtered_df;
                      mret (Some l))
                     (fun e =>
                        _ ← show (StError ("Error applying filter: " +:+ exn_str e));
                        mret None);
        match next with
        | Some l => filter_loop rest l
        | None => mret None
        end
  end.

(** [if filter_conditions: for condition in filter_conditions: ...] *)
Definition apply_filters (filter_conditions : value) (filtered_df : loc)
  : M (option loc) :=
  if truthy filter_conditions then
    conditions ← lift (iterate filter_conditions);
    filter_loop conditions filtered_df
  else mret (Some filtered_df).

(** The two producers an action can be routed to. *)
Inductive route : Type := ToSummary | ToChart.

(** [if action["type"] == "summarize"] *)
Definition route_of (action : list (string * value)) : py route :=
  ty ← value_getitem (VDict action) "type";
  Ret (if eq_str ty "summarize" then ToSummary else ToChart).

(** The summary branch and the chart branch of the dispatch. *)
Definition run_summary (filtered_df : loc) (action : list (string * value))
           (description : value) : M unit :=
  d ← read filtered_df;
  let '(summary_df, error) := generate_summary_statistics d action in
  if error_set error then show (StError (error_text error))
  else show (RenderSummary summary_df description).

Definition run_chart (filtered_df : loc) (action : list (string * value))
           (description : value) : M unit :=
  r ← prepare_data_for_visualization filtered_df action;
  let '(prepared_df, error) := r in
  if error_set error then show (StError (error_text error))
  else
    r' ← match prepared_df with
         | Some prepared => d ← read prepared;
                            lift (generate_visualization d action description)
         | None => lift (Raise (Exn TypeError "'NoneType' object is not subscriptable"))
         end;
    let '(fig, error') := r' in
    if error_set error' then show (StError (error_text error'))
    else show (RenderVisualization fig description).

Definition dispatch (filtered_df : loc) (action : list (string * value))
           (description : value) : M unit :=
  r ← lift (route_of action);
  match r with
  | ToSummary => run_summary filtered_df action description
  | ToChart => run_chart filtered_df action description
  end.

(** An action as [main] holds it: the functions it is passed to call
    [action.get]. *)
Definition dispatch_value (filtered_df : loc) (action description : value) : M unit :=
  match action with
  | VDict a => dispatch filtered_df a description
  | _ => lift (Raise (Exn TypeError
                        ("'" +:+ type_name action +:+ "' object is not subscriptable")))
  end.

(** The branch [if response_text:] of a query. *)
Definition answer (df : loc) (response_text : string) : M unit :=
  let '(action, description, filter_conditions, error) :=
    parse_llm_response (Some response_text) in
  chosen ← (if error_set error then
              _ ← show (StError ("Error: " +:+ error_text error));
              _ ← show (StMarkdown "### Fallback to manual mode");
              _ ← show (StInfo "The LLM couldn't process your query. Please use the manual visualization builder instead.");
              built ← create_action_from_ui df;
              if negb (truthy built.1) then mret None else mret (Some built)
            else mret (Some (action, description)));
  match chosen with
  | None => mret ()
  | Some (action, description) =>
      filtered_df ← copy df;
      narrowed ← apply_filters filter_conditions filtered_df;
      match narrowed with
      | None => mret ()
      | Some filtered_df => dispatch_value filtered_df action description
      end
  end.

(** The manual builder followed by the dispatch. *)
Definition manual (df : loc) : M unit :=
  built ← create_action_from_ui df;
  if negb (truthy built.1) then mret ()
  else
    filtered_df ← copy df;
    dispatch_value filtered_df built.1 built.2.

Definition main_loaded (df : loc) (llm_provider query : string)
           (response_text : option string) : M unit :=
  if negb (String.eqb query "") then
    match response_text with
    | Some text =>
        if negb (String.eqb text "") then answer df text
        else
          _ ← show (StError "Could not connect to LLM. Falling back to manual mode.");
          _ ← show (StMarkdown "### Manual Visualization Builder");
          manual df
    | None =>
        _ ← show (StError "Could not connect to LLM. Falling back to manual mode.");
        _ ← show (StMarkdown "### Manual Visualization Builder");
        manual df
    end
  else if String.eqb llm_provider "manual" then
    _ ← show (StMarkdown "## Manual Visualization Builder");
    _ ← show (StMarkdown "Select the type of visualization and parameters below:");
    manual df
  else mret ().
End App.

(** ** llm_handler.py: the queries *)

(** The services the program reaches over the network, and what the
    [re] library says about a value that is no text.
    - [openai_content api_key prompt] is
      [openai.OpenAI(api_key=api_key).chat.completions.create(...)
       .choices[0].message.content] for the model, the single user message
      [prompt] and the settings of [query_openai];
    - [requests_post url model prompt] is
      [requests.post(url, headers=..., json={"model": model, "prompt":
      prompt, "stream": False})]: the status code of the response and its
      [.json()];
    - [requests_get url] is the status code of [requests.get(url,
      timeout=2)];
    - [search_type_error v] is the text of the [TypeError] that
      [re.search] raises on [v]. *)
Class Remote : Type := {
  openai_content : value -> string -> py value;
  requests_post : string -> value -> string -> py (nat * py value);
  requests_get : string -> py nat;
  search_type_error : value -> string
}.

(** [s.lstrip()], [s.rstrip()] and [s.strip()] *)
Fixpoint str_lstrip (s : string) : string :=
  match s with
  | String c s' => if Re.space c then str_lstrip s' else s
  | EmptyString => EmptyString
  end.

Fixpoint str_rstrip (s : string) : string :=
  match s with
  | String c s' =>
      match str_rstrip s' with
      | EmptyString => if Re.space c then EmptyString else String c EmptyString
      | rest => String c rest
      end
  | EmptyString => EmptyString
  end.

Definition str_strip (s : string) : string := str_rstrip (str_lstrip s).

(** [v.strip()] *)
Definition value_strip (v : value) : py string :=
  match v with
  | VStr s => Ret (str_strip s)
  | _ => Raise (no_attribute v "strip")
  end.

Section Queries.
Context `{Python} `{Pandas} `{!Plotly} `{Streamlit} `{Remote}.

(** What the query functions return: a text or [None]. *)
Definition query_openai (prompt : string) (api_key : value) : M value :=
  if negb (truthy api_key) then
    _ ← show (StError "Please enter an OpenAI API key in the sidebar.");
    mret VNone
  else
    catch (content ← lift (openai_content api_key prompt);
           text ← lift (value_strip content);
           mret (VStr text))
          (fun e =>
             _ ← show (StError ("Error communicating with OpenAI: " +:+ exn_str e));
             mret VNone).

Definition query_ollama (prompt : string) (model host : value) : M value :=
  catch (response ← lift (requests_post (py_str host +:+ "/api/generate") model prompt);
         if (response.1 =? 200)%nat then
           body ← lift response.2;
           lift (value_get body "response" (VStr ""))
         else
           _ ← show (StError ("Ollama API error: Status " +:+ pretty response.1));
           mret VNone)
        (fun e =>
           _ ← show (StError ("Error communicating with Ollama: " +:+ exn_str e));
           mret VNone).

Definition query_llm (prompt llm_provider : string)
           (ollama_model ollama_host openai_api_key : value) : M value :=
  if String.eqb llm_provider "openai" then query_openai prompt openai_api_key
  else if String.eqb llm_provider "ollama"
  then query_ollama prompt ollama_model ollama_host
  else
    _ ← show (StError ("Unknown LLM provider: " +:+ llm_provider));
    mret VNone.

Definition check_ollama_connection (host : value) : bool :=
  match requests_get (py_str host +:+ "/api/tags") with
  | Ret status_code => (status_code =? 200)%nat
  | Raise _ => false
  end.

(** ** app.py: a query and its answer

    [main] from the query on: [prompt] is what [construct_prompt]
    returned.  A response that is a text goes the way [main_loaded]
    describes; [parse_llm_response] answers any other truthy value with
    the error of [re.search], caught by its own [try]. *)
Definition main_query (df : loc) (prompt llm_provider : string)
           (ollama_model ollama_host openai_api_key : value) (query : string)
  : M unit :=
  if negb (String.eqb query "") then
    response_text ← query_llm prompt llm_provider ollama_model ollama_host
                              openai_api_key;
    match response_text with
    | VStr text => main_loaded df llm_provider query (Some text)
    | VNone => main_loaded df llm_provider query None
    | other =>
        if truthy other then
          let error := "Error parsing LLM response: " +:+ search_type_error other in
          _ ← show (StError ("Error: " +:+ error));
          _ ← show (StMarkdown "### Fallback to manual mode");
          _ ← show (StInfo "The LLM couldn't process your query. Please use the manual visualization builder instead.");
          manual df
        else main_loaded df llm_provider query None
    end
  else main_loaded df llm_provider query None.
End Queries.

(** ** data_processor.py and app.py: loading the file *)

(** [pd.read_csv] on an uploaded file. *)
Class Files `{PandasData} : Type := {
  upload : Type;
  read_csv : upload -> py DataFrame
}.

Section Loading.
Context `{Python} `{Pandas} `{!Plotly} `{!Files}.

(** The dataframe read from the file, a new object, or [None]. *)
Definition load_data (uploaded_file : upload) : M (option loc) :=
  catch (d ← lift (read_csv uploaded_file);
         df ← alloc d;
         mret (Some df))
        (fun e =>
           _ ← show (StError ("Error loading data: " +:+ exn_str e));
           mret None).

(** [main] from [load_data] to the test of [is_valid]: [None] stands for
    the [return] that leaves [main], otherwise the dataset goes on to the
    preview. *)
Definition main_upload (uploaded_file : upload) : M (option loc) :=
  df ← load_data uploaded_file;
  d ← match df with
      | Some l => d ← read l; mret (Some d)
      | None => mret None
      end;
  let '(is_valid, message) := validate_data d in
  if negb is_valid then
    _ ← show (StError message);
    mret None
  else mret df.
End Loading.

(** ** A JSON decoder

    An instance of [json_loads] for the examples: the grammar that
    [json.loads] accepts (objects, arrays, strings with their escapes,
    numbers, [true], [false], [null], [NaN] and the infinities, blank space
    around tokens, nothing after the value), on text whose decoded strings
    stay below code point 256.  A repeated key keeps its first place and
    its last value, as in a Python dict. *)
Module JsonDecoder.

Definition quote_char : ascii := ascii_of_nat 34.

Definition blank (c : ascii) : bool :=
  let n := nat_of_ascii c in (n =? 32)%nat || (n =? 9)%nat || (n =? 10)%nat || (n =? 13)%nat.

Fixpoint skip_blank (s : string) : string :=
  match s with
  | String c s' => if blank c then skip_blank s' else s
  | EmptyString => s
  end.

Definition digit (c : ascii) : option nat :=
  let n := nat_of_ascii c in
  if (48 <=? n)%nat && (n <=? 57)%nat then Some (n - 48) else None.

Definition hex_digit (c : ascii) : option nat :=
  let n := nat_of_ascii c in
  if (48 <=? n)%nat && (n <=? 57)%nat then Some (n - 48)
  else if (65 <=? n)%nat && (n <=? 70)%nat then Some (n - 55)
  else if (97 <=? n)%nat && (n <=? 102)%nat then Some (n - 87)
  else None.

(** The characters of a string literal after its opening quote, and the
    text after its closing quote. *)
Fixpoint scan_string (s : string) : option (string * string) :=
  match s with
  | EmptyString => None
  | String c s1 =>
      if Ascii.eqb c quote_char then Some (EmptyString, s1)
      else if Ascii.eqb c "\" then
        match s1 with
        | EmptyString => None
        | String e s2 =>
            let simple (d : ascii) :=
              match scan_string s2 with
              | Some (str, rest) => Some (String d str, rest)
              | None => None
              end in
            if Ascii.eqb e quote_char then simple quote_char
            else if Ascii.eqb e "\" then simple "\"%char
            else if Ascii.eqb e "/" then simple "/"%char
            else if Ascii.eqb e "b" then simple (ascii_of_nat 8)
            else if Ascii.eqb e "f" then simple (ascii_of_nat 12)
            else if Ascii.eqb e "n" then simple (ascii_of_nat 10)
            else if Ascii.eqb e "r" then simple (ascii_of_nat 13)
            else if Ascii.eqb e "t" then simple (ascii_of_nat 9)
            else if Ascii.eqb e "u" then
              match s2 with
              | String h1 (String h2 (String h3 (String h4 s3))) =>
                  match hex_digit h1, hex_digit h2, hex_digit h3, hex_digit h4 with
                  | Some 0, Some 0, Some a, Some b =>
                      match scan_string s3 with
                      | Some (str, rest) =>
                          Some (String (ascii_of_nat (16 * a + b)) str, rest)
                      | None => None
                      end
                  | _, _, _, _ => None
                  end
              | _ => None
              end
            else None
        end
      else if (nat_of_ascii c <? 32)%nat then None
      else
        match scan_string s1 with
        | Some (str, rest) => Some (String c str, rest)
        | None => None
        end
  end.

Fixpoint take_digits (s : string) : string * string :=
  match s with
  | String c s' =>
      match digit c with
      | Some _ => let '(ds, rest) := take_digits s' in (String c ds, rest)
      | None => (EmptyString, s)
      end
  | EmptyString => (EmptyString, s)
  end.

Fixpoint digits_value (acc : Z) (ds : string) : Z :=
  match ds with
  | String c ds' =>
      digits_value (10 * acc + Z.of_nat (default 0 (digit c))) ds'
  | EmptyString => acc
  end.

(** A number: an optional minus sign, then 0 or a digit string that does
    not start with 0, then an optional fraction (a dot and digits) and an
    optional exponent (e or E, an optional sign, digits).  With neither
    fraction nor exponent it is an [int]. *)
Definition scan_number (s : string) : option (value * string) :=
  let '(sign, s1) :=
    match s with
    | String c r => if Ascii.eqb c "-" then ("-", r) else ("", s)
    | EmptyString => ("", s)
    end in
  let integer :=
    match s1 with
    | String c r =>
        if Ascii.eqb c "0" then Some ("0", r)
        else match digit c with
             | Some _ => Some (take_digits s1)
             | None => None
             end
    | EmptyString => None
    end in
  match integer with
  | None => None
  | Some (ip, s2) =>
      let '(frac, s3) :=
        match s2 with
        | String c r =>
            if Ascii.eqb c "." then
              let '(ds, r') := take_digits r in
              if String.eqb ds "" then ("", s2) else ("." +:+ ds, r')
            else ("", s2)
        | EmptyString => ("", s2)
        end in
      let '(exp, s4) :=
        match s3 with
        | String c r =>
            if Ascii.eqb c "e" || Ascii.eqb c "E" then
              let '(sg, r1) :=
                match r with
                | String d r' =>
                    if Ascii.eqb d "+" || Ascii.eqb d "-"
                    then (String d "", r') else ("", r)
                | EmptyString => ("", r)
                end in
              let '(ds, r2) := take_digits r1 in
              if String.eqb ds "" then ("", s3)
              else (String c sg +:+ ds, r2)
            else ("", s3)
        | EmptyString => ("", s3)
        end in
      if String.eqb frac "" && String.eqb exp ""
      then Some (VInt (if String.eqb sign "-" then - digits_value 0 ip
                       else digits_value 0 ip), s4)
      else Some (VFloat (sign +:+ ip +:+ frac +:+ exp), s4)
  end.

Definition scan_word (s : string) : option (value * string) :=
  match strip_prefix "null" s with
  | Some r => Some (VNone, r)
  | None =>
  match strip_prefix "true" s with
  | Some r => Some (VBool true, r)
  | None =>
  match strip_prefix "false" s with
  | Some r => Some (VBool false, r)
  | None =>
  match strip_prefix "NaN" s with
  | Some r => Some (VFloat "NaN", r)
  | None =>
  match strip_prefix "Infinity" s with
  | Some r => Some (VFloat "Infinity", r)
  | None =>
  match strip_prefix "-Infinity" s with
  | Some r => Some (VFloat "-Infinity", r)
  | None => scan_number s
  end end end end end end.

(** [scan_once] decodes one value at the head of [s]; [scan_members]
    reads an object from its first key on, [scan_elements] an array from
    its first element on. *)
Fixpoint scan_once (fuel : nat) (s : string) : option (value * string) :=
  match fuel with
  | 0 => None
  | S fuel' =>
      match s with
      | String c r =>
          if Ascii.eqb c quote_char then
            match scan_string r with
            | Some (str, rest) => Some (VStr str, rest)
            | None => None
            end
          else if Ascii.eqb c "{" then
            match skip_blank r with
            | String d r' =>
                if Ascii.eqb d "}" then Some (VDict [], r')
                else scan_members fuel' (skip_blank r) []
            | EmptyString => None
            end
          else if Ascii.eqb c "[" then
            match skip_blank r with
            | String d r' =>
                if Ascii.eqb d "]" then Some (VList [], r')
                else scan_elements fuel' (skip_blank r) []
            | EmptyString => None
            end
          else scan_word s
      | EmptyString => None
      end
  end
with scan_members (fuel : nat) (s : string) (acc : list (string * value))
  : option (value * string) :=
  match fuel with
  | 0 => None
  | S fuel' =>
      match s with
      | String c r =>
          if Ascii.eqb c quote_char then
            match scan_string r with
            | Some (key, r1) =>
                match skip_blank r1 with
                | String d r2 =>
                    if Ascii.eqb d ":" then
                      match scan_once fuel' (skip_blank r2) with
                      | Some (v, r3) =>
                          let acc' := dict_set key v acc in
                          match skip_blank r3 with
                          | String e r4 =>
                              if Ascii.eqb e "}" then Some (VDict acc', r4)
                              else if Ascii.eqb e ","
                              then scan_members fuel' (skip_blank r4) acc'
                              else None
                          | EmptyString => None
                          end
                      | None => None
                      end
                    else None
                | EmptyString => None
                end
            | None => None
            end
          else None
      | EmptyString => None
      end
  end
with scan_elements (fuel : nat) (s : string) (acc : list value)
  : option (value * string) :=
  match fuel with
  | 0 => None
  | S fuel' =>
      match scan_once fuel' s with
      | Some (v, r1) =>
          match skip_blank r1 with
          | String e r2 =>
              if Ascii.eqb e "]" then Some (VList (acc ++ [v]), r2)
              else if Ascii.eqb e ","
              then scan_elements fuel' (skip_blank r2) (acc ++ [v])
              else None
          | EmptyString => None
          end
      | None => None
      end
  end.

Definition decode_error : exn := Exn JSONDecodeError "Expecting value".

Definition loads (s : string) : py value :=
  match scan_once (S (String.length s)) (skip_blank s) with
  | Some (v, rest) =>
      match skip_blank rest with
      | EmptyString => Ret v
      | String _ _ => Raise decode_error
      end
  | None => Raise decode_error
  end.

End JsonDecoder.

(** ** A small stand-in for the libraries

    Instances of the interfaces, used to run the program on concrete
    inputs.  A cell holds a Python scalar; comparison is Python's, cell by
    cell, with a missing cell never selected; the coercions turn what does
    not parse into a missing cell.  The statistics and the charts are not
    evaluated: a chart is the call that asks for it. *)
Module Sample.

Inductive sample_dtype : Type := Int64 | Float64 | Object | Datetime64.

#[export] Instance python : Python := {|
  json_loads := JsonDecoder.loads;
  float_nonzero := fun lit =>
    existsb (fun c => match JsonDecoder.digit c with
                      | Some (S _) => true
                      | _ => false
                      end) (list_ascii_of_string lit);
  str_container := fun v => "<" +:+ type_name v +:+ ">";
  str_float := fun lit => lit;
  capitalize := fun s =>
    match s with
    | String c s' =>
        let n := nat_of_ascii c in
        String (if (97 <=? n)%nat && (n <=? 122)%nat then ascii_of_nat (n - 32) else c)
               (str_lower s')
    | EmptyString => EmptyString
    end
|}.

#[export] Instance data : PandasData := {|
  cell := value;
  dtype := sample_dtype;
  scalar := unit
|}.

(** [a <op> b] on two Python scalars *)
Definition compare_values (op : comparison) (a b : value) : py bool :=
  let pick (lt eq : bool) : bool :=
    match op with
    | CmpEq => eq
    | CmpGe => negb lt
    | CmpLe => lt || eq
    | CmpGt => negb lt && negb eq
    | CmpLt => lt
    end in
  let symbol : string :=
    match op with
    | CmpEq => "=="
    | CmpGe => ">="
    | CmpLe => "<="
    | CmpGt => ">"
    | CmpLt => "<"
    end in
  match a, b with
  | VInt m, VInt n => Ret (pick (m <? n)%Z (m =? n)%Z)
  | VStr s, VStr t => Ret (pick (String.ltb s t) (String.eqb s t))
  | _, _ =>
      match op with
      | CmpEq => Ret false
      | _ => Raise (Exn TypeError
                      ("'" +:+ symbol +:+ "' not supported between instances of '"
                           +:+ type_name a +:+ "' and '" +:+ type_name b +:+ "'"))
      end
  end.

Definition compare_cell (op : comparison) (v : value) (c : value) : py bool :=
  match c with
  | VNone => Ret false
  | _ => compare_values op c v
  end.

Fixpoint compare_cells (op : comparison) (v : value) (cells : list value)
  : py (list bool) :=
  match cells with
  | [] => Ret []
  | c :: rest =>
      b ← compare_cell op v c;
      bs ← compare_cells op v rest;
      Ret (b :: bs)
  end.

Definition all_digits (s : string) : bool :=
  negb (String.eqb s "")
  && forallb (fun c => match JsonDecoder.digit c with Some _ => true | None => false end)
             (list_ascii_of_string s).

Definition numeric_cell (c : value) : value :=
  match c with
  | VInt n => VInt n
  | VStr s => if all_digits s then VInt (JsonDecoder.digits_value 0 s) else VNone
  | _ => VNone
  end.

(** A date written as four digits, two digits and two digits with dashes
    between them. *)
Definition date_like (c : value) : bool :=
  match c with
  | VStr s =>
      (String.length s =? 10)%nat
      && all_digits (substring 0 4 s) && String.eqb (substring 4 1 s) "-"
      && all_digits (substring 5 2 s) && String.eqb (substring 7 1 s) "-"
      && all_digits (substring 8 2 s)
  | _ => false
  end.

Definition is_none (c : value) : bool :=
  match c with VNone => true | _ => false end.

#[export] Instance pandas : Pandas := {|
  dtype_str := fun t =>
    match t with
    | Int64 => "int64"
    | Float64 => "float64"
    | Object => "object"
    | Datetime64 => "datetime64[ns]"
    end;
  is_numeric_dtype := fun t =>
    match t with Int64 | Float64 => true | _ => false end;
  is_datetime64_dtype := fun t =>
    match t with Datetime64 => true | _ => false end;
  is_object_dtype := fun t =>
    match t with Object => true | _ => false end;
  is_string_dtype := fun t =>
    match t with Object => true | _ => false end;
  isna := is_none;
  to_numeric_coerce := fun s =>
    let cells := numeric_cell <$> s_values s in
    Ret (MkSeries (if existsb is_none cells then Float64 else Int64) cells);
  to_datetime_coerce := fun s =>
    Ret (MkSeries Datetime64
           ((fun c => if date_like c then c else VNone) <$> s_values s));
  to_datetime_raise := fun sample =>
    if forallb date_like sample then Ret ()
    else Raise (Exn OtherException "Unknown datetime string format");
  compare := fun op s v => compare_cells op v (s_values s);
  sort_values := fun df _ => Ret df;
  value_counts_frame := fun s _ => MkFrame 0 [];
  nunique := fun s => length (s_values s);
  mean := fun _ => ();
  median := fun _ => ();
  minimum := fun _ => ();
  maximum := fun _ => ();
  std := fun _ => ();
  most_frequent := fun _ => None;
  percentage := fun _ _ => "0.00%"
|}.

#[export] Instance plotly : Plotly := {|
  figure := chart_call;
  px := fun call => Ret call
|}.

(** A user who picks [viz_type] as the type, the first option of every
    other box, and leaves the check boxes and the selection as they
    are. *)
Definition user (viz_type : string) : Streamlit := {|
  selectbox := fun label options =>
    if String.eqb label "Visualization Type" then VStr viz_type
    else match options with
         | o :: _ => VStr o
         | [] => VNone
         end;
  checkbox := fun _ value => value;
  multiselect := fun _ _ default => default
|}.

(** A dataset: who is how old. *)
Definition people : DataFrame :=
  MkFrame 3
    [("name", MkSeries Object [VStr "ann"; VStr "bob"; VStr "cy"]);
     ("age", MkSeries Int64 [VInt 17; VInt 18; VInt 40]);
     ("sex", MkSeries Object [VStr "female"; VStr "male"; VStr "male"])].

(** The same with the ages as text, as a file may hold them. *)
Definition people_text : DataFrame :=
  MkFrame 3
    [("name", MkSeries Object [VStr "ann"; VStr "bob"; VStr "cy"]);
     ("age", MkSeries Object [VStr "17"; VStr "18"; VStr "n/a"])].

(** A session whose dataset is the object 0. *)
Definition session (d : DataFrame) : world := MkWorld {[ 0 := d ]} [].

(** [people_text] after its ages are made numbers. *)
Definition people_coerced : DataFrame :=
  MkFrame 3
    [("name", MkSeries Object [VStr "ann"; VStr "bob"; VStr "cy"]);
     ("age", MkSeries Float64 [VInt 17; VInt 18; VNone])].


(** A user who picks the scatter plot. *)
Definition scatter_user : Streamlit := user "scatter".

End Sample.

(** * The vocabulary of the statements

    Definitions the theorems are stated with: predicates on what the
    stages return, invariants of a run, the readings of actions and
    filter conditions, the matches of the pattern of [safe_json_parse]
    in closed form, the extraction and the preparer as the specification
    words them, and inputs. *)

(** ** What a stage returns *)


Section ParserFacts.
Context `{Python}.

Definition parse_one_sided (r : parse_result) : Prop :=
(exists a, r.1.1.1 = VDict a /\ r.2 = None)
\/ (exists message, r = parse_failure message /\ message <> "").
End ParserFacts.

(** ** Invariants of a run *)

Section Hoare.
Context `{Python} `{Pandas} `{!Plotly}.

(** The invariant of a run: nothing, or that one object keeps its
    state. *)
Definition inv (keep : option (loc * DataFrame)) (w : world) : Prop :=
  match keep with
  | Some (l, d) => frames w !! l = Some d
  | None => True
  end.

Definition other (keep : option (loc * DataFrame)) (l : loc) : Prop :=
  match keep with
  | Some (l0, _) => l <> l0
  | None => True
  end.

(** [m] keeps the invariant, and the value it returns satisfies [Q]. *)
Definition hoare {A : Type} (keep : option (loc * DataFrame)) (m : M A)
           (Q : A -> Prop) : Prop :=
  forall w, inv keep w ->
    forall w' r, m w = (w', r) ->
      inv keep w' /\ forall a, r = Ret a -> Q a.
End Hoare.

Section PreparerFacts.
Context `{Python} `{Pandas} `{!Plotly}.

Definition prepared_one_sided (df : loc) (r : prepared) : Prop :=
  r = (Some df, None)
  \/ (exists message, r = (None, Some message) /\ message <> "").
End PreparerFacts.

(** ** Columns *)

Section Eval.
Context `{Python} `{Pandas} `{!Plotly}.

(** The world after [df[col] = s]. *)
Definition assigned (w : world) (df : loc) (d : DataFrame) (col : string) (s : Series)
  : world :=
  MkWorld (<[df := set_column col s d]> (frames w)) (page w).

Definition has_column (d : DataFrame) (col : string) : bool :=
  existsb (String.eqb col) (columns d).
End Eval.

Definition chart_types : list string := ["histogram"; "bar"; "scatter"; "line"].

Definition quoted (c : string) : string := "'" +:+ c +:+ "'".

Definition missing_message (action_type : string) (missing : list string) : string :=
  if String.eqb action_type "scatter" || String.eqb action_type "line"
  then "Columns " +:+ String.concat " and " (quoted <$> missing)
                  +:+ " not found in the dataset."
  else "Column '" +:+ hd "" missing +:+ "' not found in the dataset.".

Section ColumnChecks.
Context `{Python} `{Pandas} `{!Plotly}.

Definition referenced (action_type : string) (action : list (string * value))
  : list value :=
  let x := dict_get "x" action VNone in
  let y := dict_get "y" action VNone in
  if String.eqb action_type "histogram" then [dict_get "column" action VNone]
  else if String.eqb action_type "bar" then x :: (if truthy y then [y] else [])
  else [x; y].

Definition missing_columns (d : DataFrame) (names : list string) : list string :=
  List.filter (fun c => negb (has_column d c)) names.

Definition outcome (df : loc) (action_type : string) (missing : list string) : prepared :=
  match missing with
  | [] => (Some df, None)
  | _ => (None, Some (missing_message action_type missing))
  end.
End ColumnChecks.

(** ** Filters *)


(** A filter condition the parser lets through, with a string for its
    column: the column, the operator as written (or the default), the
    comparison it stands for, and the value. *)
Record filter : Type := MkFilter {
  f_column : string;
  f_operator : value;
  f_comparison : comparison;
  f_value : value
}.


Section FilterLoop.
Context `{Python} `{Pandas} `{!Plotly}.

Definition applied (f : filter) : event :=
  StMarkdown ("**Applied Filter:** " +:+ f_column f +:+ " " +:+ py_str (f_operator f)
                +:+ " " +:+ py_str (f_value f)).


Definition with_page (w : world) (events : list event) : world :=
  MkWorld (frames w) (page w ++ events).

(** The world after [filtered_df = filtered_df[mask]] and the line that
    reports the filter. *)
Definition narrowed (w : world) (d : DataFrame) (mask : list bool) (f : filter) : world :=
  MkWorld (<[fresh (dom (frames w)) := select_rows mask d]> (frames w))
          (page w ++ [applied f]).
End FilterLoop.

Section Conjunction.
Context `{Python} `{Pandas} `{!Plotly}.
Variable sat : comparison -> value -> cell -> bool.



End Conjunction.

(** ** Summaries *)

Section Summary.
Context `{Python} `{Pandas} `{!Plotly} `{Streamlit}.

(** The rows a requested column contributes to the summary: one when the
    dataset has the column, none otherwise. *)
Definition summary_rows (d : DataFrame) (col : string) : list stats_row :=
  match lookup_column col (df_data d) with
  | Some s => [column_stats col s]
  | None => []
  end.
End Summary.

(** ** Operators of filter conditions *)

Section Operators.
Context `{Python} `{Pandas} `{!Plotly} `{Streamlit}.

(** A condition that is a mapping whose [operator] is none of the five. *)
Definition bad_operator (condition : value) (operator : value) : Prop :=
  exists c, condition = VDict c
            /\ dict_lookup "operator" c = Some operator
            /\ operator_listed operator = false.

(** What [main] does with a response the parser rejects. *)
Definition fallback (df : loc) (message : string) : M unit :=
  _ ← show (StError ("Error: " +:+ message));
  _ ← show (StMarkdown "### Fallback to manual mode");
  _ ← show (StInfo "The LLM couldn't process your query. Please use the manual visualization builder instead.");
  manual df.

(** The same condition with the operator [==] written out. *)
Definition with_default_operator (c : list (string * value)) : value :=
  VDict (c ++ [("operator", VStr "==")]).
End Operators.

(** ** The manual builder *)

(** The parameters an action of each type must have. *)
Definition required_present (viz_type : string) (action : list (string * value)) : bool :=
  if String.eqb viz_type "histogram" then dict_contains "column" action
  else if String.eqb viz_type "bar" then dict_contains "x" action
  else if String.eqb viz_type "scatter" || String.eqb viz_type "line"
  then dict_contains "x" action && dict_contains "y" action
  else true.

Section Builder.
Context `{Python} `{Pandas} `{!Plotly} `{Streamlit}.

(** The builder has no action to offer. *)
Definition prerequisites_unmet (viz_type : string) (d : DataFrame) : Prop :=
  (viz_type = "scatter" /\ length (numeric_columns d) < 2)
  \/ (viz_type = "line" /\ numeric_columns d = []).
End Builder.

(** ** The matches of the pattern of [safe_json_parse] *)

(** The text after its leading blank space, and how long that space is. *)
Fixpoint skip_space (s : string) : string :=
  match s with
  | String c s' => if Re.space c then skip_space s' else s
  | EmptyString => s
  end.

Fixpoint count_space (s : string) : nat :=
  match s with
  | String c s' => if Re.space c then S (count_space s') else 0
  | EmptyString => 0
  end.

(** The first [n] characters. *)
Definition str_prefix (n : nat) (s : string) : string := substring 0 n s.

(** Where blank space and then a closing fence stand at the head of [s]:
    the length of the two together. *)
Definition close_len (s : string) : option nat :=
  match strip_prefix "```" (skip_space s) with
  | Some _ => Some (count_space s + 3)
  | None => None
  end.

(** The least number of characters after which the text closes, with the
    length of the closing. *)
Fixpoint lazy_len (s : string) : option (nat * nat) :=
  match close_len s with
  | Some n => Some (0, n)
  | None =>
      match s with
      | String _ s' =>
          match lazy_len s' with
          | Some (i, n) => Some (S i, n)
          | None => None
          end
      | EmptyString => None
      end
  end.

(** The match of the fence alternative at the head of [s], as the lengths
    of its parts: the blank space after the label, the contents, and the
    closing. *)
Definition fence_match (s : string) : option (nat * nat * nat) :=
  match strip_prefix "```json" s with
  | Some after =>
      match lazy_len (skip_space after) with
      | Some (i, n) => Some (count_space after, i, n)
      | None => None
      end
  | None => None
  end.

Definition final (start : nat) : @Re.cont Re.match_object :=
  fun _ e g => Some (Re.Match start e g).

(** What the first attempt decodes when the fence alternative matches at
    the head of [s]: the contents of the fence, or the whole fence when
    they are empty. *)
Definition fence_candidate (s : string) : option string :=
  match fence_match s with
  | Some (n1, i, n2) =>
      let contents := substring (7 + n1) i s in
      Some (if String.eqb contents "" then str_prefix (7 + n1 + i + n2) s else contents)
  | None => None
  end.

(** What it decodes when the brace alternative matches there: from this
    brace to the last closing brace of the text. *)
Definition brace_candidate (s : string) : option string :=
  match s with
  | String c s' =>
      if Ascii.eqb "{" c then
        match rfind_char "}" s' with
        | Some i => Some (str_prefix (i + 2) s)
        | None => None
        end
      else None
  | EmptyString => None
  end.

(** The string of the first attempt: at the leftmost position where one
    of the two matches, the fence before the brace. *)
Fixpoint first_candidate (s : string) : option string :=
  match fence_candidate s with
  | Some c => Some c
  | None =>
      match brace_candidate s with
      | Some c => Some c
      | None =>
          match s with
          | String _ s' => first_candidate s'
          | EmptyString => None
          end
      end
  end.

(** The fence the first attempt decodes, if it decodes one: the leftmost
    fence, unless a brace that has a closing brace after it comes first. *)
Fixpoint first_fence (s : string) : option string :=
  match fence_candidate s with
  | Some c => Some c
  | None =>
      match brace_candidate s with
      | Some _ => None
      | None =>
          match s with
          | String _ s' => first_fence s'
          | EmptyString => None
          end
      end
  end.

(** ** The attempts of [safe_json_parse] *)

(** The string of the second attempt: from the first [{] to the last [}]. *)
Definition first_to_last (text : string) : option string :=
  match find_char "{" text, rfind_char "}" text with
  | Some start, Some end_ =>
      if (start <? end_)%nat then Some (slice start (S end_) text) else None
  | _, _ => None
  end.

(** The strings [safe_json_parse] hands to [json.loads], in order. *)
Definition attempts (text : string) : list string :=
  option_list (first_fence text) ++ option_list (first_to_last text).

Section FirstSuccess.
Context `{Python}.

(** Decode the strings in order; the first that decodes is the result,
    [None] when none does. *)
Fixpoint first_success (candidates : list string) : py value :=
  match candidates with
  | [] => Ret VNone
  | c :: rest => loads_or c (first_success rest)
  end.

(** [json.loads(c)] raises [JSONDecodeError]. *)
Definition undecodable (c : string) : Prop :=
  exists e, json_loads c = Raise e /\ exn_cls e = JSONDecodeError.
End FirstSuccess.

(** ** The extraction as the specification words it *)

(** The text after its first [n] characters. *)
Definition drop_chars (n : nat) (s : string) : string :=
  substring n (String.length s - n) s.

(** The contents of the first fence labelled [json]: what stands between
    the label and the next fence. *)
Definition spec_fenced (text : string) : option string :=
  match index 0 "```json" text with
  | Some i =>
      let after := drop_chars (i + 7) text in
      match index 0 "```" after with
      | Some j => Some (substring 0 j after)
      | None => None
      end
  | None => None
  end.

(** The length of the span that closes the braces open at the head of
    [s]. *)
Fixpoint balanced_length (depth : nat) (s : string) : option nat :=
  match s with
  | String c s' =>
      if Ascii.eqb c "{" then S <$> balanced_length (S depth) s'
      else if Ascii.eqb c "}" then
        match depth with
        | 0 => None
        | 1 => Some 1
        | S depth' => S <$> balanced_length depth' s'
        end
      else S <$> balanced_length depth s'
  | EmptyString => None
  end.

(** The first top-level balanced span of braces. *)
Definition spec_balanced_span (text : string) : option string :=
  match find_char "{" text with
  | Some i =>
      let s := drop_chars i text in
      (fun n => substring 0 n s) <$> balanced_length 0 s
  | None => None
  end.

(** The three strategies in their order. *)
Definition spec_strategies (text : string) : list string :=
  option_list (spec_fenced text) ++ option_list (spec_balanced_span text)
    ++ option_list (first_to_last text).

Definition spec_safe_json_parse `{Python} (text : string) : py value :=
  first_success (spec_strategies text).

(** ** The preparer as the specification words it *)



(** ** Inputs *)

(** A text with the apostrophe standing for the double quote. *)
Fixpoint json_text (s : string) : string :=
  match s with
  | String c s' =>
      String (if Ascii.eqb c "'" then JsonDecoder.quote_char else c) (json_text s')
  | EmptyString => EmptyString
  end.

Definition fence_after_braces : string :=
  json_text "Use {x} here: ```json {'action': {'type': 'summarize'}} ```".

Definition two_objects : string := json_text "{'a': 1} or {'b': 2}".



Definition histogram_age : list (string * value) :=
  [("type", VStr "histogram"); ("column", VStr "age")].





Definition not_equal_filter : string :=
  json_text "{'action': {'type': 'summarize', 'filter': [{'column': 'age', 'value': 18, 'operator': '!='}]}}".

Definition operator_only_filter : string :=
  json_text "{'action': {'type': 'summarize', 'filter': [{'operator': '!='}]}}".


Definition mixed_case_summarize : string :=
  json_text "{'action': {'type': 'Summarize'}, 'description': 'ages'}".

(** ** Relations between the world before and after a computation *)

Section StepsDef.
Context `{Python} `{Pandas} `{!Plotly}.

(** Whatever [m] does, the worlds before and after are related by [R], and
    the value it returns satisfies [Q]. *)
Definition steps {A : Type} (R : world -> world -> Prop) (m : M A) (Q : A -> Prop)
  : Prop :=
  forall w w' r, m w = (w', r) -> R w w' /\ forall a, r = Ret a -> Q a.

(** The page grows by events that satisfy [P]. *)
Definition adds (P : event -> Prop) (w w' : world) : Prop :=
  exists events, page w' = page w ++ events /\ Forall P events.

(** The event is not a chart. *)
Definition no_chart (e : event) : Prop :=
  match e with
  | RenderVisualization _ _ => False
  | _ => True
  end.
End StepsDef.

(** ** What a computation leaves of a frame *)

Section ShapeDef.
Context `{Python} `{Pandas} `{!Plotly}.

(** The frame [d'] has the labels and the length of [d], and the columns
    of [d] except those in [touched]. *)
Definition same_shape (touched : list value) (d d' : DataFrame) : Prop :=
  columns d' = columns d /\ df_len d' = df_len d
  /\ forall c, VStr c ∉ touched ->
       lookup_column c (df_data d') = lookup_column c (df_data d).

(** Nothing changed but the columns [touched] of the object [df]. *)
Definition shape_kept (touched : list value) (df : loc) (w w' : world) : Prop :=
  page w' = page w
  /\ (forall l, l <> df -> frames w' !! l = frames w !! l)
  /\ match frames w !! df with
     | Some d => exists d', frames w' !! df = Some d' /\ same_shape touched d d'
     | None => frames w' !! df = None
     end.

(** The values an action may name a column with. *)
Definition named (action : list (string * value)) : list value :=
  [dict_get "column" action VNone; dict_get "x" action VNone;
   dict_get "y" action VNone].
End ShapeDef.

(** ** Shapes of a response *)

(** Every character is blank space. *)
Fixpoint all_space (s : string) : bool :=
  match s with
  | String c s' => Re.space c && all_space s'
  | EmptyString => true
  end.

(** The last character is there and is not blank space. *)
Fixpoint solid_end (s : string) : bool :=
  match s with
  | String c EmptyString => negb (Re.space c)
  | String _ s' => solid_end s'
  | EmptyString => false
  end.

(** The first character is there and is not blank space. *)
Definition solid_start (s : string) : bool :=
  match s with
  | String c _ => negb (Re.space c)
  | EmptyString => false
  end.

(** ** What the builder and the fallback produce *)

Section Produced.
Context `{Python} `{Pandas} `{!Plotly} `{Streamlit}.

(** Every value is the label of a column of [d]. *)
Definition labels_of (d : DataFrame) (v : value) : Prop :=
  exists name, v = VStr name /\ has_column d name = true.

(** The summary table of a whole dataset: the row of each column, in
    order. *)
Definition all_rows (d : DataFrame) : list stats_row :=
  (fun cs => column_stats cs.1 cs.2) <$> df_data d.

(** What [main] does when there is no response to parse. *)
Definition no_response (df : loc) : M unit :=
  _ ← show (StError "Could not connect to LLM. Falling back to manual mode.");
  _ ← show (StMarkdown "### Manual Visualization Builder");
  manual df.
End Produced.

(** ** Further inputs *)

Definition summarize_response : string :=
  json_text "{'action': {'type': 'summarize'}}".

Definition fenced_array : string := "```json [1] ```".




Definition scatter_without_y : list (string * value) :=
  [("type", VStr "scatter"); ("x", VStr "age")].

(** A dataset with two numeric columns. *)
Definition measures : @DataFrame Sample.data :=
  @MkFrame Sample.data 2
    [("age", @MkSeries Sample.data Sample.Int64 [VInt 30; VInt 41]);
     ("height", @MkSeries Sample.data Sample.Int64 [VInt 170; VInt 182])].

(** A user who picks the summary. *)
Definition summarize_user : Streamlit := Sample.user "summarize".

(** Services of which only an Ollama server answers, with status 200 and
    an empty JSON object. *)
Definition sample_remote : Remote := {|
  openai_content := fun _ _ => Raise (Exn OtherException "Connection error.");
  requests_post := fun _ _ _ => Ret (200, Ret (VDict []));
  requests_get := fun _ => Ret 200;
  search_type_error := fun v =>
    "expected string or bytes-like object, got '" +:+ type_name v +:+ "'"
|}.

(** * Theorems *)

(** ** The parser returns an action or an error *)

Section ParserFacts.
Context `{Python}.

Lemma check_conditions_message conditions message :
  check_conditions conditions = Some message -> message <> "".
Proof.
  induction conditions as [|c rest IH]; simpl; [done|].
  destruct c; try (intros [= <-]; done).
  repeat case_match; try (intros [= <-]; done). done.
Qed.

Lemma check_filter_message f message :
  check_filter f = Some message -> message <> "".
Proof.
  unfold check_filter. case_match; [|done].
  destruct f; try (intros [= <-]; done).
  apply check_conditions_message.
Qed.

Lemma check_type_message t a message :
  check_type t a = Some message -> message <> "".
Proof.
  unfold check_type. repeat case_match; try (intros [= <-]; done).
Qed.

Lemma parse_body_one_sided text r :
  parse_body text = Ret r -> parse_one_sided r.
Proof.
  unfold parse_body.
  destruct (safe_json_parse text) as [parsed|]; simpl; [|done].
  destruct (truthy parsed); simpl.
  2:{ intros [= <-]. right. eexists. split; [done|done]. }
  destruct (value_get parsed "action" _) as [action|]; simpl; [|done].
  destruct (value_get parsed "description" _) as [description|]; simpl; [|done].
  destruct action; try (intros [= <-]; right; eexists; split; done).
  destruct (dict_contains "type" kvs); simpl;
    [|intros [= <-]; right; eexists; split; done].
  destruct (value_lower _) as [action_type|]; simpl; [|done].
  destruct (check_filter _) as [m|] eqn:Hf.
  { intros [= <-]. right. eexists. split; [done|]. by eapply check_filter_message. }
  destruct (check_type _ _) as [m|] eqn:Ht.
  { intros [= <-]. right. eexists. split; [done|]. by eapply check_type_message. }
  intros [= <-]. left. by eexists.
Qed.

Lemma parse_llm_response_one_sided response_text :
  parse_one_sided (parse_llm_response response_text).
Proof.
  unfold parse_llm_response.
  destruct response_text as [text|]; [|right; eexists; split; done].
  destruct (String.eqb text ""); [right; eexists; split; done|].
  destruct (parse_body text) eqn:Hb; simpl.
  - by eapply parse_body_one_sided.
  - right. eexists. split; done.
Qed.
End ParserFacts.

(** ** Reasoning about computations on the world *)

Section Hoare.
Context `{Python} `{Pandas} `{!Plotly}.

Lemma hoare_ret {A} keep (a : A) (Q : A -> Prop) : Q a -> hoare keep (mret a) Q.
Proof. intros HQ w Hw w' r [= <- <-]. split; [done|]. by intros ? [= <-]. Qed.

Lemma hoare_bind {A B} keep (m : M A) (k : A -> M B) (P : A -> Prop) (Q : B -> Prop) :
  hoare keep m P -> (forall a, P a -> hoare keep (k a) Q) -> hoare keep (m ≫= k) Q.
Proof.
  intros Hm Hk w Hw w' r. unfold mbind, M_bind.
  destruct (m w) as [w1 [a|e]] eqn:E; destruct (Hm w Hw _ _ E) as [Hw1 HP].
  - intros Hka. eapply Hk; eauto.
  - intros [= <- <-]. split; [done|]. intros ? [=].
Qed.

Lemma hoare_seq {A B} keep (m : M A) (k : A -> M B) (Q : B -> Prop) :
  hoare keep m (fun _ => True) -> (forall a, hoare keep (k a) Q) ->
  hoare keep (m ≫= k) Q.
Proof. intros Hm Hk. eapply hoare_bind; [exact Hm|]. intros a _. apply Hk. Qed.

Lemma hoare_weaken {A} keep (m : M A) (P Q : A -> Prop) :
  hoare keep m P -> (forall a, P a -> Q a) -> hoare keep m Q.
Proof.
  intros Hm HPQ w Hw w' r E. destruct (Hm w Hw _ _ E) as [? HP].
  split; [done|]. intros a ->. eauto.
Qed.

Lemma hoare_lift {A} keep (m : py A) (Q : A -> Prop) :
  (forall a, m = Ret a -> Q a) -> hoare keep (lift m) Q.
Proof. intros HQ w Hw w' r [= <- <-]. eauto. Qed.

Lemma hoare_catch {A} keep (m : M A) (h : exn -> M A) (Q : A -> Prop) :
  hoare keep m Q -> (forall e, hoare keep (h e) Q) -> hoare keep (catch m h) Q.
Proof.
  intros Hm Hh w Hw w' r. unfold catch.
  destruct (m w) as [w1 [a|e]] eqn:E; destruct (Hm w Hw _ _ E) as [Hw1 HP].
  - intros [= <- <-]. eauto.
  - intros Hhe. eapply Hh; eauto.
Qed.

Lemma hoare_read keep df (Q : DataFrame -> Prop) :
  (forall d, Q d) -> hoare keep (read df) Q.
Proof.
  intros HQ w Hw w' r. unfold read.
  destruct (frames w !! df); intros [= <- <-]; (split; [done|]); [eauto|done].
Qed.

Lemma hoare_show keep e : hoare keep (show e) (fun _ => True).
Proof.
  intros w Hw w' r [= <- <-]. split; [|done]. by destruct keep as [[??]|].
Qed.

Lemma hoare_write keep df d :
  other keep df -> hoare keep (write df d) (fun _ => True).
Proof.
  intros Ho w Hw w' r [= <- <-]. split; [|done].
  destruct keep as [[l0 d0]|]; simpl in *; [|done].
  by rewrite lookup_insert_ne.
Qed.

Lemma hoare_alloc keep d : hoare keep (alloc d) (other keep).
Proof.
  intros w Hw w' r [= <- <-].
  assert (Hfresh : fresh (dom (frames w)) ∉ dom (frames w)) by apply is_fresh.
  destruct keep as [[l0 d0]|]; simpl in *; [|split; [done|by intros ? [= <-]]].
  assert (fresh (dom (frames w)) <> l0).
  { intros E. apply Hfresh. rewrite E. apply elem_of_dom. eauto. }
  split; [by rewrite lookup_insert_ne|]. by intros ? [= <-].
Qed.

Lemma hoare_contains keep key df : hoare keep (contains key df) (fun _ => True).
Proof.
  apply hoare_seq; [by apply hoare_read|]. intros d. by apply hoare_lift.
Qed.

Lemma hoare_getitem keep key df : hoare keep (getitem key df) (fun _ => True).
Proof.
  apply hoare_seq; [by apply hoare_read|]. intros d. by apply hoare_lift.
Qed.

Lemma hoare_setitem keep key s df :
  other keep df -> hoare keep (setitem key s df) (fun _ => True).
Proof.
  intros Ho. apply hoare_seq; [by apply hoare_read|]. intros d.
  destruct key; try by apply hoare_lift. by apply hoare_write.
Qed.

Lemma hoare_copy keep df : hoare keep (copy df) (other keep).
Proof.
  apply hoare_seq; [by apply hoare_read|]. intros d. apply hoare_alloc.
Qed.

Lemma hoare_getitem_mask keep mask df : hoare keep (getitem_mask mask df) (other keep).
Proof.
  apply hoare_seq; [by apply hoare_read|]. intros d. apply hoare_alloc.
Qed.

Lemma hoare_try_convert keep convert col df :
  other keep df -> hoare keep (try_convert convert col df) (fun _ => True).
Proof.
  intros Ho. apply hoare_catch; [|intros; by apply hoare_ret].
  apply hoare_seq; [apply hoare_getitem|]. intros s.
  apply hoare_seq; [by apply hoare_lift|]. intros s'.
  apply hoare_seq; [by apply hoare_setitem|]. intros _. by apply hoare_ret.
Qed.
End Hoare.

Ltac hoare_simple :=
  first
    [ apply hoare_contains | apply hoare_getitem | apply hoare_show
    | (apply hoare_try_convert; assumption)
    | (apply hoare_setitem; assumption)
    | (apply hoare_read; done)
    | (apply hoare_lift; done) ].

(** One step through a computation whose intermediate values do not
    matter. *)
Ltac hoare_step :=
  lazymatch goal with
  | |- hoare _ (mret _) _ => apply hoare_ret
  | |- hoare _ (catch _ _) _ => apply hoare_catch; [|intros ?]
  | |- hoare _ (if ?b then _ else _) _ => destruct b
  | |- hoare _ (match ?x with _ => _ end) _ => destruct x
  | |- hoare _ (_ ≫= _) _ =>
      apply hoare_seq;
      [first [hoare_simple | solve [repeat hoare_step; done]]|intros ?]
  | |- hoare _ _ _ => hoare_simple
  end.

(** ** The preparer and the producers return a result or an error *)

Section PreparerFacts.
Context `{Python} `{Pandas} `{!Plotly}.

Lemma hoare_scatter_loop keep axes df :
  other keep df -> hoare keep (scatter_loop axes df) (prepared_one_sided df).
Proof.
  intros Ho. induction axes as [|[col name] rest IH]; simpl.
  - apply hoare_ret. by left.
  - repeat hoare_step; try done. right. eexists. split; [done|].
    unfold axis_not_numeric. destruct name; done.
Qed.
End PreparerFacts.

Section PreparerFacts2.
Context `{Python} `{Pandas} `{!Plotly} `{Streamlit}.

Ltac sided :=
  first [ by left
        | right; eexists; split; [done|];
          unfold not_found, not_numeric, not_datetime, columns_not_found; done ].

Lemma hoare_summarize_loop keep cols df :
  hoare keep (summarize_loop cols df) (prepared_one_sided df).
Proof.
  induction cols as [|col rest IH]; simpl.
  - apply hoare_ret. by left.
  - repeat hoare_step; try done. sided.
Qed.

Lemma hoare_prepare_body keep action_type action df :
  other keep df ->
  hoare keep (prepare_body action_type action df) (prepared_one_sided df).
Proof.
  intros Ho. unfold prepare_body.
  repeat hoare_step.
  - unfold prepare_histogram. repeat hoare_step; sided.
  - unfold prepare_bar. repeat hoare_step; sided.
  - unfold prepare_scatter, some_missing, report_missing.
    repeat hoare_step; try sided. all: by apply hoare_scatter_loop.
  - unfold prepare_line, some_missing, report_missing.
    repeat hoare_step; sided.
  - unfold prepare_summarize. repeat hoare_step. apply hoare_summarize_loop.
  - sided.
Qed.

Lemma hoare_prepare keep df action :
  other keep df ->
  hoare keep (prepare_data_for_visualization df action) (prepared_one_sided df).
Proof.
  intros Ho. unfold prepare_data_for_visualization.
  repeat hoare_step.
  - by apply hoare_prepare_body.
  - sided.
Qed.
End PreparerFacts2.

Section VisualizerFacts.
Context `{Python} `{Pandas} `{!Plotly} `{Streamlit}.




End VisualizerFacts.

(** ** [validate_data] *)

Section ValidateFacts.
Context `{PandasData}.

Lemma no_columns_empty (d : DataFrame) :
  (length (df_data d) <? 1)%nat = true -> df_empty d = true.
Proof.
  unfold df_empty. destruct (df_data d); simpl; [|done].
  intros _. apply orb_true_r.
Qed.

(** C10: [validate_data] answers [False] exactly when the dataframe is
    [None] or empty; the message about a file with no columns is never
    returned, since a dataframe with no columns is empty and the test
    before it returns first. *)
Theorem validate_data_none_or_empty (df : option DataFrame) :
  ((validate_data df).1 = false <->
     df = None \/ exists d, df = Some d /\ df_empty d = true)
  /\ (validate_data df).2 <> "The uploaded file contains no columns."
  /\ (forall d, (length (df_data d) <? 1)%nat = true -> df_empty d = true).
Proof.
  split; [|split; [|apply no_columns_empty]].
  - destruct df as [d|]; simpl; [|by intuition].
    destruct (df_empty d) eqn:E; simpl.
    + split; [|done]. intros _. right. by exists d.
    + destruct (length (df_data d) <? 1)%nat eqn:E1.
      { apply no_columns_empty in E1. congruence. }
      simpl. split; [done|]. intros [|[d' [[= <-] ?]]]; congruence.
  - destruct df as [d|]; simpl; [|done].
    destruct (df_empty d) eqn:E; simpl; [done|].
    destruct (length (df_data d) <? 1)%nat eqn:E1; [|done].
    apply no_columns_empty in E1. congruence.
Qed.
End ValidateFacts.

(** ** [main] keeps the dataset of the session *)

Section AppFacts.
Context `{Python} `{Pandas} `{!Plotly} `{Streamlit}.

Lemma hoare_narrow keep op filter_col filter_val l :
  hoare keep (narrow op filter_col filter_val l) (other keep).
Proof.
  unfold narrow.
  apply hoare_seq; [apply hoare_getitem|]. intros s.
  apply hoare_seq; [by apply hoare_lift|]. intros mask.
  apply hoare_getitem_mask.
Qed.

Lemma hoare_apply_condition keep filter_col filter_val operator l :
  other keep l ->
  hoare keep (apply_condition filter_col filter_val operator l) (other keep).
Proof.
  intros Ho. unfold apply_condition.
  eapply hoare_bind with (P := other keep).
  - repeat case_match; try apply hoare_narrow. by apply hoare_ret.
  - intros next Hnext. apply hoare_seq; [apply hoare_show|]. intros _.
    by apply hoare_ret.
Qed.

Lemma hoare_filter_loop keep conditions l :
  other keep l ->
  hoare keep (filter_loop conditions l)
        (fun r => forall l', r = Some l' -> other keep l').
Proof.
  revert l. induction conditions as [|condition rest IH]; intros l Ho; simpl.
  - apply hoare_ret. by intros ? [= <-].
  - apply hoare_seq; [by apply hoare_lift|]. intros filter_col.
    apply hoare_seq; [by apply hoare_lift|]. intros filter_val.
    apply hoare_seq; [by apply hoare_lift|]. intros operator.
    apply hoare_seq; [apply hoare_contains|]. intros there.
    destruct (negb there).
    { apply hoare_seq; [apply hoare_show|]. intros _. by apply hoare_ret. }
    eapply hoare_bind with (P := fun r => forall l', r = Some l' -> other keep l').
    + apply hoare_catch.
      * eapply hoare_bind; [by apply hoare_apply_condition|].
        intros l1 Hl1. apply hoare_ret. by intros ? [= <-].
      * intros e. apply hoare_seq; [apply hoare_show|]. intros _. by apply hoare_ret.
    + intros [l1|] Hl1; [apply IH; eauto|]. by apply hoare_ret.
Qed.

Lemma hoare_apply_filters keep filter_conditions l :
  other keep l ->
  hoare keep (apply_filters filter_conditions l)
        (fun r => forall l', r = Some l' -> other keep l').
Proof.
  intros Ho. unfold apply_filters. destruct (truthy filter_conditions).
  - apply hoare_seq; [by apply hoare_lift|]. intros conditions.
    by apply hoare_filter_loop.
  - apply hoare_ret. by intros ? [= <-].
Qed.

Lemma hoare_create_action_from_ui keep df :
  hoare keep (create_action_from_ui df) (fun _ => True).
Proof. unfold create_action_from_ui. repeat hoare_step; done. Qed.

Lemma hoare_run_summary keep l action description :
  hoare keep (run_summary l action description) (fun _ => True).
Proof.
  unfold run_summary. apply hoare_seq; [by apply hoare_read|]. intros d.
  destruct (generate_summary_statistics d action) as [summary_df error].
  destruct (error_set error); apply hoare_show.
Qed.

Lemma hoare_run_chart keep l action description :
  other keep l -> hoare keep (run_chart l action description) (fun _ => True).
Proof.
  intros Ho. unfold run_chart.
  eapply hoare_bind; [by apply hoare_prepare|]. intros [prepared_df error] _.
  destruct (error_set error); [apply hoare_show|].
  apply hoare_seq.
  - destruct prepared_df; [|by apply hoare_lift].
    apply hoare_seq; [by apply hoare_read|]. intros d. by apply hoare_lift.
  - intros [fig error']. destruct (error_set error'); apply hoare_show.
Qed.

Lemma hoare_dispatch_value keep l action description :
  other keep l -> hoare keep (dispatch_value l action description) (fun _ => True).
Proof.
  intros Ho. unfold dispatch_value, dispatch.
  destruct action; try by apply hoare_lift.
  apply hoare_seq; [by apply hoare_lift|]. intros [].
  - apply hoare_run_summary.
  - by apply hoare_run_chart.
Qed.

Lemma hoare_manual keep df : hoare keep (manual df) (fun _ => True).
Proof.
  unfold manual.
  apply hoare_seq; [apply hoare_create_action_from_ui|]. intros built.
  destruct (negb (truthy built.1)); [by apply hoare_ret|].
  eapply hoare_bind; [apply hoare_copy|]. intros l Hl.
  by apply hoare_dispatch_value.
Qed.

Lemma hoare_answer keep df text : hoare keep (answer df text) (fun _ => True).
Proof.
  unfold answer.
  destruct (parse_llm_response (Some text)) as [[[action description] filter_conditions] error].
  apply hoare_seq.
  { destruct (error_set error); [|by apply hoare_ret].
    repeat (apply hoare_seq; [apply hoare_show|]; intros _).
    apply hoare_seq; [apply hoare_create_action_from_ui|]. intros built.
    destruct (negb (truthy built.1)); by apply hoare_ret. }
  intros [[action' description']|]; [|by apply hoare_ret].
  eapply hoare_bind; [apply hoare_copy|]. intros l Hl.
  eapply hoare_bind; [by apply hoare_apply_filters|]. intros [l'|] Hl'.
  - apply hoare_dispatch_value. eauto.
  - by apply hoare_ret.
Qed.

Lemma hoare_main_loaded keep df llm_provider query response_text :
  hoare keep (main_loaded df llm_provider query response_text) (fun _ => True).
Proof.
  unfold main_loaded.
  repeat case_match; try by apply hoare_ret.
  all: repeat (apply hoare_seq; [apply hoare_show|]; intros _).
  all: first [apply hoare_answer | apply hoare_manual].
Qed.
End AppFacts.

(** ** Running a computation whose frame is known *)

Section Eval.
Context `{Python} `{Pandas} `{!Plotly}.

Lemma bind_ret {A B} (m : M A) (k : A -> M B) w w1 a :
  m w = (w1, Ret a) -> (m ≫= k) w = k a w1.
Proof. intros E. unfold mbind, M_bind. by rewrite E. Qed.


Lemma read_eval w df d : frames w !! df = Some d -> read df w = (w, Ret d).
Proof. intros E. unfold read. by rewrite E. Qed.

Lemma contains_eval w df d key :
  frames w !! df = Some d -> contains key df w = (w, in_columns key d).
Proof. intros E. unfold contains, read, mbind, M_bind, lift. by rewrite E. Qed.

Lemma getitem_eval w df d key :
  frames w !! df = Some d -> getitem key df w = (w, get_column key d).
Proof. intros E. unfold getitem, read, mbind, M_bind, lift. by rewrite E. Qed.

Lemma assigned_lookup w df d col s :
  frames (assigned w df d col s) !! df = Some (set_column col s d).
Proof. apply lookup_insert_eq. Qed.

Lemma try_convert_eval w df d convert col s :
  frames w !! df = Some d ->
  lookup_column col (df_data d) = Some s ->
  try_convert convert (VStr col) df w =
    match convert s with
    | Ret s' => (assigned w df d col s', Ret true)
    | Raise _ => (w, Ret false)
    end.
Proof.
  intros E Es. unfold try_convert, catch, mbind, M_bind.
  rewrite (getitem_eval _ _ _ _ E). simpl. rewrite Es.
  unfold lift. destruct (convert s) as [s'|e] eqn:Ec; [|done].
  unfold setitem, read, mbind, M_bind. by rewrite E.
Qed.

Lemma has_column_lookup d col :
  has_column d col = true -> exists s, lookup_column col (df_data d) = Some s.
Proof.
  unfold has_column, columns. induction (df_data d) as [|[c s] rest IH]; simpl; [done|].
  destruct (String.eqb col c); [by eexists|]. simpl. apply IH.
Qed.

Lemma columns_assign col s data :
  existsb (String.eqb col) data.*1 = true ->
  (assign_column col s data).*1 = data.*1.
Proof.
  induction data as [|[c s0] rest IH]; simpl; [done|].
  destruct (String.eqb col c) eqn:E; simpl; [done|].
  intros Hc. f_equal. by apply IH.
Qed.

Lemma has_column_set d col s c :
  has_column d col = true -> has_column (set_column col s d) c = has_column d c.
Proof.
  intros Hc. unfold has_column, columns, set_column. simpl.
  by rewrite columns_assign.
Qed.
End Eval.

(** ** The preparer and the columns an action refers to *)

Section ColumnChecks.
Context `{Python} `{Pandas} `{!Plotly}.

Hypothesis numeric_total : forall s, exists s', to_numeric_coerce s = Ret s'.
Hypothesis datetime_total : forall s, exists s', to_datetime_coerce s = Ret s'.

Lemma prepare_histogram_strings w df d action c :
  frames w !! df = Some d ->
  dict_get "column" action VNone = VStr c ->
  exists w', prepare_histogram action df w
             = (w', Ret (outcome df "histogram" (missing_columns d [c])))
         /\ (missing_columns d [c] <> [] -> w' = w)
         /\ exists d', frames w' !! df = Some d' /\ columns d' = columns d.
Proof.
  intros Hd Hc. unfold prepare_histogram. rewrite Hc.
  unfold mbind at 1, M_bind. rewrite (contains_eval _ _ _ _ Hd). simpl.
  fold (has_column d c). unfold missing_columns. simpl.
  destruct (has_column d c) eqn:Hh; simpl.
  2:{ exists w. split; [done|]. split; [done|]. by exists d. }
  destruct (has_column_lookup _ _ Hh) as [s Hs].
  unfold mbind at 1, M_bind. rewrite (getitem_eval _ _ _ _ Hd). simpl. rewrite Hs.
  destruct (is_numeric_dtype (s_dtype s)); simpl.
  { exists w. split; [done|]. split; [done|]. by exists d. }
  unfold mbind, M_bind. rewrite (try_convert_eval _ _ _ _ _ _ Hd Hs).
  destruct (numeric_total s) as [s' ->].
  eexists. split; [done|]. split; [done|].
  eexists. split; [apply assigned_lookup|].
  unfold columns, set_column. simpl. by apply columns_assign.
Qed.

(** A column that is there is read, and converted when its dtype asks for
    it; the frame keeps its labels. *)
Lemma conversion_runs (convert : Series -> py Series) (skip : dtype -> bool) w df d c :
  (forall s, exists s', convert s = Ret s') ->
  frames w !! df = Some d ->
  has_column d c = true ->
  exists s w' d',
    getitem (VStr c) df w = (w, Ret s)
    /\ (if negb (skip (s_dtype s)) then try_convert convert (VStr c) df w = (w', Ret true)
        else w' = w)
    /\ frames w' !! df = Some d'
    /\ forall c', has_column d' c' = has_column d c'.
Proof.
  intros Htotal Hd Hh. destruct (has_column_lookup _ _ Hh) as [s Hs].
  exists s. destruct (skip (s_dtype s)) eqn:E; simpl.
  - exists w, d. rewrite (getitem_eval _ _ _ _ Hd). simpl. by rewrite Hs.
  - destruct (Htotal s) as [s' Hs'].
    exists (assigned w df d c s'), (set_column c s' d).
    rewrite (getitem_eval _ _ _ _ Hd). simpl. rewrite Hs.
    rewrite (try_convert_eval _ _ _ _ _ _ Hd Hs), Hs'.
    repeat split; [apply assigned_lookup|]. intros c'. by apply has_column_set.
Qed.

Lemma prepare_bar_strings w df d action names :
  frames w !! df = Some d ->
  referenced "bar" action = VStr <$> names ->
  exists w', prepare_bar action df w
             = (w', Ret (outcome df "bar" (missing_columns d names)))
         /\ (missing_columns d names <> [] -> w' = w).
Proof.
  intros Hd Hr. unfold referenced in Hr. simpl in Hr.
  destruct names as [|cx rest]; [done|]. injection Hr as Hx Hy.
  unfold prepare_bar. rewrite Hx.
  unfold mbind at 1, M_bind. rewrite (contains_eval _ _ _ _ Hd). simpl.
  fold (has_column d cx). unfold missing_columns. simpl.
  destruct (has_column d cx) eqn:Hhx; simpl.
  2:{ exists w. done. }
  destruct (truthy (dict_get "y" action VNone)) eqn:Ht.
  - destruct rest as [|cy [|]]; try done. injection Hy as Hy. rewrite Hy.
    unfold mbind at 1, M_bind. unfold mbind at 1, M_bind.
    rewrite (contains_eval _ _ _ _ Hd). simpl. fold (has_column d cy).
    destruct (has_column d cy) eqn:Hhy; simpl.
    2:{ exists w. done. }
    destruct (conversion_runs to_numeric_coerce is_numeric_dtype w df d cy numeric_total Hd Hhy)
      as (s & w' & d' & Hg & Hconv & _).
    unfold mbind at 1, M_bind. unfold mbind at 1, M_bind. rewrite Hg.
    unfold mret, M_ret.
    destruct (negb (is_numeric_dtype (s_dtype s))).
    + unfold mbind, M_bind. rewrite Hconv. by exists w'.
    + by exists w.
  - destruct rest; [|done]. simpl. exists w. done.
Qed.

Lemma some_missing_eval w df d cx cy :
  frames w !! df = Some d ->
  some_missing (VStr cx) (VStr cy) df w
  = (w, Ret (negb (has_column d cx) || negb (has_column d cy))).
Proof.
  intros Hd. unfold some_missing, mbind, M_bind.
  rewrite (contains_eval _ _ _ _ Hd). simpl. fold (has_column d cx).
  destruct (has_column d cx); simpl; [|done].
  rewrite (contains_eval _ _ _ _ Hd). simpl. done.
Qed.

Lemma report_missing_eval w df d cx cy t :
  frames w !! df = Some d ->
  t = "scatter" \/ t = "line" ->
  negb (has_column d cx) || negb (has_column d cy) = true ->
  report_missing (VStr cx) (VStr cy) df w
  = (w, Ret (outcome df t (missing_columns d [cx; cy]))).
Proof.
  intros Hd Ht Hm. unfold report_missing, mbind, M_bind.
  rewrite (contains_eval _ _ _ _ Hd). simpl.
  rewrite (contains_eval _ _ _ _ Hd). simpl.
  fold (has_column d cx) (has_column d cy). unfold missing_columns. simpl.
  destruct (has_column d cx), (has_column d cy); try done;
    destruct Ht as [-> | ->]; done.
Qed.

Lemma scatter_loop_strings axes w df d :
  frames w !! df = Some d ->
  Forall (fun a => exists c, a.1 = VStr c /\ has_column d c = true) axes ->
  exists w', scatter_loop axes df w = (w', Ret (Some df, None)).
Proof.
  intros Hd Hall. revert w d Hd Hall.
  induction axes as [|[col name] rest IH]; intros w d Hd Hall; simpl.
  - by exists w.
  - apply Forall_cons in Hall as [(c & Hc & Hh) Hrest]. simpl in Hc. subst col.
    destruct (conversion_runs to_numeric_coerce is_numeric_dtype w df d c numeric_total Hd Hh)
      as (s & w' & d' & Hg & Hconv & Hd' & Hsame).
    unfold mbind at 1, M_bind. rewrite Hg.
    assert (Hrest' : Forall (fun a => exists c, a.1 = VStr c /\ has_column d' c = true) rest).
    { eapply Forall_impl; [exact Hrest|]. intros a (c0 & ? & ?). exists c0.
      by rewrite Hsame. }
    destruct (negb (is_numeric_dtype (s_dtype s))).
    + unfold mbind, M_bind. rewrite Hconv. by apply (IH w' d').
    + subst w'. by apply (IH w d').
Qed.

Lemma prepare_scatter_strings w df d action names :
  frames w !! df = Some d ->
  referenced "scatter" action = VStr <$> names ->
  exists w', prepare_scatter action df w
             = (w', Ret (outcome df "scatter" (missing_columns d names)))
         /\ (missing_columns d names <> [] -> w' = w).
Proof.
  intros Hd Hr. unfold referenced in Hr. simpl in Hr.
  destruct names as [|cx [|cy [|]]]; try done. injection Hr as Hx Hy.
  unfold prepare_scatter. rewrite Hx, Hy.
  unfold mbind at 1, M_bind. rewrite (some_missing_eval _ _ _ _ _ Hd).
  destruct (negb (has_column d cx) || negb (has_column d cy)) eqn:Hm.
  - exists w. split; [|done]. apply (report_missing_eval _ _ _ _ _ "scatter"); auto.
  - apply orb_false_elim in Hm as [Hhx Hhy].
    apply negb_false_iff in Hhx, Hhy.
    destruct (scatter_loop_strings [(VStr cx, "x"); (VStr cy, "y")] w df d Hd) as [w' Hw'].
    { repeat constructor; eexists; eauto. }
    exists w'. unfold missing_columns. simpl. rewrite Hhx, Hhy. simpl.
    split; [exact Hw'|done].
Qed.

Lemma prepare_line_strings w df d action names :
  frames w !! df = Some d ->
  referenced "line" action = VStr <$> names ->
  exists w', prepare_line action df w
             = (w', Ret (outcome df "line" (missing_columns d names)))
         /\ (missing_columns d names <> [] -> w' = w).
Proof.
  intros Hd Hr. unfold referenced in Hr. simpl in Hr.
  destruct names as [|cx [|cy [|]]]; try done. injection Hr as Hx Hy.
  unfold prepare_line. rewrite Hx, Hy.
  unfold mbind at 1, M_bind. rewrite (some_missing_eval _ _ _ _ _ Hd).
  destruct (negb (has_column d cx) || negb (has_column d cy)) eqn:Hm.
  - exists w. split; [|done]. apply (report_missing_eval _ _ _ _ _ "line"); auto.
  - apply orb_false_elim in Hm as [Hhx Hhy].
    apply negb_false_iff in Hhx, Hhy.
    unfold missing_columns. simpl. rewrite Hhx, Hhy. simpl.
    destruct (conversion_runs to_datetime_coerce is_datetime64_dtype w df d cx
                datetime_total Hd Hhx) as (sx & w1 & d1 & Hgx & Hcx & Hd1 & Hsame).
    unfold mbind at 1, M_bind. rewrite Hgx.
    assert (Hhy1 : has_column d1 cy = true) by by rewrite Hsame.
    destruct (conversion_runs to_numeric_coerce is_numeric_dtype w1 df d1 cy
                numeric_total Hd1 Hhy1) as (sy & w2 & d2 & Hgy & Hcy & _).
    assert (Hx_step :
      (if negb (is_datetime64_dtype (s_dtype sx))
       then try_convert to_datetime_coerce (VStr cx) df else mret true) w
      = (w1, Ret true)).
    { destruct (negb (is_datetime64_dtype (s_dtype sx))); [done|by subst w1]. }
    unfold mbind at 1, M_bind. rewrite Hx_step. simpl.
    unfold mbind at 1, M_bind. rewrite Hgy.
    assert (Hy_step :
      (if negb (is_numeric_dtype (s_dtype sy))
       then try_convert to_numeric_coerce (VStr cy) df else mret true) w1
      = (w2, Ret true)).
    { destruct (negb (is_numeric_dtype (s_dtype sy))); [done|by subst w2]. }
    unfold mbind, M_bind. rewrite Hy_step. simpl. by exists w2.
Qed.


End ColumnChecks.

(** ** Selection by masks *)

Section Select.
Context `{PandasData}.









End Select.

(** ** The filter loop *)

Section FilterLoop.
Context `{Python} `{Pandas} `{!Plotly}.





End FilterLoop.

Section Conjunction.
Context `{Python} `{Pandas} `{!Plotly}.

(** What a comparison that does not raise computes, row by row. *)
Variable sat : comparison -> value -> cell -> bool.
Hypothesis compare_pointwise :
  forall op s v mask, compare op s v = Ret mask -> mask = sat op v <$> s_values s.












End Conjunction.

(** ** The summary and the columns the dataset lacks *)

Section Summary.
Context `{Python} `{Pandas} `{!Plotly} `{Streamlit}.

Lemma lookup_column_none d col :
  has_column d col = false -> lookup_column col (df_data d) = None.
Proof.
  unfold has_column, columns. induction (df_data d) as [|[c s] data IH]; [done|].
  simpl. destruct (String.eqb col c); [done|]. apply IH.
Qed.

Lemma summary_loop_strings d names summary_data :
  summary_loop d (VStr <$> names) summary_data
  = Ret (summary_data ++ flat_map (summary_rows d) names).
Proof.
  revert summary_data. induction names as [|c names IH]; intros summary_data.
  - simpl. by rewrite app_nil_r.
  - rewrite fmap_cons. cbn [summary_loop in_columns flat_map].
    fold (has_column d c). unfold mbind at 1, py_bind. unfold summary_rows at 1.
    destruct (has_column d c) eqn:Hh; cbn [negb].
    + destruct (has_column_lookup _ _ Hh) as [s Hs].
      unfold mbind at 1, py_bind. cbn [get_column]. rewrite Hs.
      rewrite IH. cbn [py_str]. by rewrite <- app_assoc.
    + rewrite (lookup_column_none _ _ Hh). apply IH.
Qed.


End Summary.

(** ** A summarize action in another casing *)

Section Routing.
Context `{Python} `{Pandas} `{!Plotly} `{Streamlit}.

Lemma summarize_loop_world w df d cols :
  frames w !! df = Some d -> exists r, summarize_loop cols df w = (w, r).
Proof.
  intros Hd. induction cols as [|col cols IH]; [by eexists|].
  cbn [summarize_loop]. unfold mbind, M_bind. rewrite (contains_eval _ _ _ _ Hd).
  destruct (in_columns col d) as [[]|]; cbn [negb]; [exact IH|by eexists|by eexists].
Qed.

Lemma prepare_summarize_world w df d action :
  frames w !! df = Some d -> exists r, prepare_summarize action df w = (w, r).
Proof.
  intros Hd. unfold prepare_summarize, mbind, M_bind. rewrite (read_eval _ _ _ Hd).
  unfold lift. destruct (iterate _) as [cols|]; [|by eexists].
  by apply (summarize_loop_world _ _ d).
Qed.

(** What the chart path does with an action whose type reads
    [summarize] once lowered: one error on the page, no summary and no
    chart. *)
Lemma run_chart_summarize w df d action description :
  frames w !! df = Some d ->
  value_lower (dict_get "type" action (VStr "")) = Ret "summarize" ->
  exists message,
    run_chart df action description w = (with_page w [StError message], Ret ()).
Proof.
  intros Hd Ht.
  assert (Hprep : exists r, prepare_data_for_visualization df action w = (w, Ret r)
                            /\ prepared_one_sided df r).
  { destruct (prepare_summarize_world w df d action Hd) as [r Hr].
    assert (Hrun : exists r', prepare_data_for_visualization df action w = (w, Ret r')).
    { unfold prepare_data_for_visualization. rewrite Ht.
      unfold mbind, M_bind, lift, catch.
      change (prepare_body "summarize" action df) with (prepare_summarize action df).
      rewrite Hr. destruct r; by eexists. }
    destruct Hrun as [r' Hr']. exists r'. split; [done|].
    by eapply (hoare_prepare None df action I w I w (Ret r')). }
  destruct Hprep as (r & Hr & [-> | (m & -> & Hm)]).
  - unfold run_chart, mbind at 1, M_bind. rewrite Hr. cbn [error_set].
    unfold mbind, M_bind. rewrite (read_eval _ _ _ Hd). unfold lift.
    unfold generate_visualization. rewrite Ht. cbn [mbind py_bind].
    change (visualization_body "summarize" d action)
      with (@Ret (option figure * option string)
                 (None, Some "Visualization type 'summarize' not supported.")).
    by eexists.
  - unfold run_chart, mbind at 1, M_bind. rewrite Hr. cbn [error_set].
    destruct (String.eqb m "") eqn:E; [by apply String.eqb_eq in E|].
    by eexists.
Qed.

(** C9: a response whose action type is [summarize] in another casing is
    accepted by the parser, which returns the action with its type as
    written; the dispatch compares the type with the lowercase word, so the
    action goes to the chart path and not to the summary producer, where it
    ends in an error on the page. *)
Theorem mixed_case_summarize_misses_summary_producer
        text parsed a t description w df d :
  text <> "" ->
  safe_json_parse text = Ret (VDict parsed) ->
  parsed <> [] ->
  dict_get "action" parsed (VDict []) = VDict a ->
  dict_lookup "type" a = Some (VStr t) ->
  str_lower t = "summarize" ->
  t <> "summarize" ->
  check_filter (dict_get "filter" a VNone) = None ->
  frames w !! df = Some d ->
  parse_llm_response (Some text)
  = (VDict a, dict_get "description" parsed (VStr "No description provided."),
     dict_get "filter" a VNone, None)
  /\ dict_get "type" a (VStr "") = VStr t
  /\ route_of a = Ret ToChart
  /\ exists message,
       dispatch df a description w = (with_page w [StError message], Ret ()).
Proof.
  intros Htext Hparse Hne Ha Ht Hlow Hcase Hfilter Hd.
  assert (Hget : dict_get "type" a (VStr "") = VStr t).
  { unfold dict_get. by rewrite Ht. }
  assert (Hroute : route_of a = Ret ToChart).
  { unfold route_of. cbn [value_getitem]. rewrite Ht. cbn [mbind py_bind eq_str].
    destruct (String.eqb t "summarize") eqn:E; [|done].
    by apply String.eqb_eq in E. }
  split; [|split; [done|split; [done|]]].
  - unfold parse_llm_response.
    destruct (String.eqb text "") eqn:E; [by apply String.eqb_eq in E|].
    unfold parse_body. rewrite Hparse. cbn [mbind py_bind].
    destruct parsed as [|kv parsed]; [done|]. cbn [truthy negb value_get].
    rewrite Ha. cbn [mbind py_bind].
    unfold dict_contains. rewrite Ht. cbn [negb]. rewrite Hget.
    cbn [value_lower mbind py_bind]. rewrite Hlow, Hfilter.
    change (check_type "summarize" a) with (@None string). done.
  - unfold dispatch. unfold mbind, M_bind, lift. rewrite Hroute.
    apply (run_chart_summarize _ _ d); [done|]. by rewrite Hget; cbn; rewrite Hlow.
Qed.
End Routing.

(** ** Operators of filter conditions *)

Section Operators.
Context `{Python} `{Pandas} `{!Plotly} `{Streamlit}.

Lemma check_conditions_app pre rest :
  check_conditions pre = None ->
  check_conditions (pre ++ rest) = check_conditions rest.
Proof.
  induction pre as [|c pre IH]; [done|]. cbn [app check_conditions].
  destruct c; try done.
  destruct (negb (dict_contains "column" kvs) || negb (dict_contains "value" kvs));
    [done|].
  destruct (negb (operator_listed _)); [done|]. exact IH.
Qed.

Lemma check_conditions_bad conditions condition operator :
  condition ∈ conditions ->
  bad_operator condition operator ->
  exists message, check_conditions conditions = Some message.
Proof.
  intros Hin (c & -> & Hop & Hbad).
  induction conditions as [|c0 conditions IH]; [by apply elem_of_nil in Hin|].
  cbn [check_conditions]. destruct c0; try by eexists.
  destruct (negb (dict_contains "column" kvs) || negb (dict_contains "value" kvs));
    [by eexists|].
  destruct (operator_listed (dict_get "operator" kvs (VStr "=="))) eqn:E;
    cbn [negb]; [|by eexists].
  apply elem_of_cons in Hin as [Heq|Hin]; [|by apply IH].
  injection Heq as <-. unfold dict_get in E. rewrite Hop in E. congruence.
Qed.

Lemma check_conditions_names_operator pre c post operator :
  check_conditions pre = None ->
  dict_contains "column" c = true ->
  dict_contains "value" c = true ->
  dict_lookup "operator" c = Some operator ->
  operator_listed operator = false ->
  check_conditions (pre ++ VDict c :: post)
  = Some ("Invalid filter operator: " +:+ py_str operator).
Proof.
  intros Hpre Hc Hv Hop Hbad. rewrite (check_conditions_app _ _ Hpre).
  cbn [check_conditions]. rewrite Hc, Hv. cbn [negb orb].
  unfold dict_get. rewrite Hop, Hbad. done.
Qed.

(** A condition without an [operator] key passes the check as [==]
    does. *)
Lemma check_conditions_default c rest :
  dict_contains "column" c = true ->
  dict_contains "value" c = true ->
  dict_lookup "operator" c = None ->
  check_conditions (VDict c :: rest) = check_conditions rest.
Proof.
  intros Hc Hv Hop. cbn [check_conditions]. rewrite Hc, Hv. cbn [negb orb].
  unfold dict_get. rewrite Hop. done.
Qed.

Lemma answer_rejected df text message :
  message <> "" ->
  parse_llm_response (Some text) = parse_failure message ->
  forall w, answer df text w = fallback df message w.
Proof.
  intros Hne Hparse w. unfold answer, fallback. rewrite Hparse.
  unfold parse_failure. cbn [error_set error_text default].
  destruct (String.eqb message "") eqn:E; [by apply String.eqb_eq in E|].
  cbn [negb]. unfold manual, apply_filters. cbn [truthy].
  unfold mbind, M_bind, show, mret, M_ret. cbv beta iota.
  destruct (create_action_from_ui df _) as [w4 [built|]]; [|done].
  destruct (negb (truthy built.1)); [done|].
  destruct built as [action description]. cbn [fst snd].
  destruct (copy df w4) as [w5 [l|]]; done.
Qed.

Lemma dict_lookup_app_other k k' v c :
  String.eqb k k' = false -> dict_lookup k (c ++ [(k', v)]) = dict_lookup k c.
Proof.
  intros Hne. induction c as [|[k0 v0] c IH]; simpl; [by rewrite Hne|].
  by destruct (String.eqb k k0).
Qed.

Lemma dict_lookup_app_new k v c :
  dict_lookup k c = None -> dict_lookup k (c ++ [(k, v)]) = Some v.
Proof.
  induction c as [|[k0 v0] c IH]; simpl; [by rewrite String.eqb_refl|].
  by destruct (String.eqb k k0).
Qed.

Lemma default_operator_checked c rest :
  dict_lookup "operator" c = None ->
  check_conditions (VDict c :: rest)
  = check_conditions (with_default_operator c :: rest).
Proof.
  intros Hop. unfold with_default_operator. cbn [check_conditions].
  unfold dict_contains, dict_get.
  rewrite (dict_lookup_app_other "column"), (dict_lookup_app_other "value") by done.
  by rewrite Hop, (dict_lookup_app_new _ _ _ Hop).
Qed.

Lemma default_operator_applied c rest l :
  dict_lookup "operator" c = None ->
  filter_loop (VDict c :: rest) l
  = filter_loop (with_default_operator c :: rest) l.
Proof.
  intros Hop. unfold with_default_operator. cbn [filter_loop value_getitem value_get].
  unfold dict_get.
  rewrite (dict_lookup_app_other "column"), (dict_lookup_app_other "value") by done.
  by rewrite Hop, (dict_lookup_app_new _ _ _ Hop).
Qed.

(** C6 (as the code has it): when the filter list of a parsed response
    has a condition whose operator is none of the five, the parser
    returns an error and no action, and [main] goes to the manual
    builder without running the filter loop.  The error is
    [Invalid filter operator: <operator>] when that condition is the
    first to fail a check: the conditions before it pass, it has a column
    and a value, and the type of the action is a string.  A condition
    without an [operator] key is checked and applied as the same
    condition with the operator [==]. *)
Theorem invalid_operator_rejected_before_filtering
        text parsed a conditions condition operator :
  text <> "" ->
  safe_json_parse text = Ret (VDict parsed) ->
  parsed <> [] ->
  dict_get "action" parsed (VDict []) = VDict a ->
  dict_get "filter" a VNone = VList conditions ->
  condition ∈ conditions ->
  bad_operator condition operator ->
  (exists message,
      message <> ""
      /\ parse_llm_response (Some text) = parse_failure message
      /\ forall df w, answer df text w = fallback df message w)
  /\ (forall t pre c post op,
        dict_lookup "type" a = Some (VStr t) ->
        conditions = pre ++ VDict c :: post ->
        check_conditions pre = None ->
        dict_contains "column" c = true ->
        dict_contains "value" c = true ->
        dict_lookup "operator" c = Some op ->
        operator_listed op = false ->
        parse_llm_response (Some text)
        = parse_failure ("Invalid filter operator: " +:+ py_str op))
  /\ (forall c rest,
        dict_lookup "operator" c = None ->
        check_conditions (VDict c :: rest)
        = check_conditions (with_default_operator c :: rest)
        /\ forall l, filter_loop (VDict c :: rest) l
                     = filter_loop (with_default_operator c :: rest) l).
Proof.
  intros Htext Hparse Hne Ha Hf Hin Hbad.
  assert (Hfilter : check_filter (VList conditions) = check_conditions conditions).
  { unfold check_filter. destruct conditions; [by apply elem_of_nil in Hin|done]. }
  assert (Hbody : forall message,
            check_conditions conditions = Some message ->
            (exists t, dict_lookup "type" a = Some (VStr t)) ->
            parse_body text = Ret (parse_failure message)).
  { intros message Hm [t Ht]. unfold parse_body. rewrite Hparse. cbn [mbind py_bind].
    destruct parsed as [|kv parsed]; [done|]. cbn [truthy negb value_get].
    rewrite Ha. cbn [mbind py_bind].
    assert (Hget : dict_get "type" a (VStr "") = VStr t).
    { unfold dict_get. by rewrite Ht. }
    unfold dict_contains. rewrite Ht. cbn [negb].
    rewrite Hget. cbn [value_lower mbind py_bind].
    by rewrite Hf, Hfilter, Hm. }
  assert (Hfail : exists message,
            message <> "" /\ parse_llm_response (Some text) = parse_failure message).
  { destruct (parse_llm_response_one_sided (Some text)) as [(act & Hact & Herr)|(m & Hm & ?)];
      [|by exists m].
    exfalso. unfold parse_llm_response in *.
    destruct (String.eqb text "") eqn:E; [by apply String.eqb_eq in E|].
    destruct (check_conditions_bad _ _ _ Hin Hbad) as [m Hm].
    unfold parse_body in *. rewrite Hparse in *. cbn [mbind py_bind] in *.
    destruct parsed as [|kv parsed]; [done|]. cbn [truthy negb value_get] in *.
    rewrite Ha in *. cbn [mbind py_bind] in *.
    destruct (negb (dict_contains "type" a)); [done|].
    destruct (value_lower _); cbn [mbind py_bind try_except] in *; [|done].
    rewrite Hf, Hfilter, Hm in *. done. }
  split; [|split].
  - destruct Hfail as (m & Hm & Hp). exists m. split; [done|]. split; [done|].
    intros df w. by apply answer_rejected.
  - intros t pre c post op Ht -> Hpre Hc Hv Hop Hlisted.
    unfold parse_llm_response.
    destruct (String.eqb text "") eqn:E; [by apply String.eqb_eq in E|].
    rewrite (Hbody ("Invalid filter operator: " +:+ py_str op)); [done| |by eexists].
    by apply check_conditions_names_operator.
  - intros c rest Hop. split; [by apply default_operator_checked|].
    intros l. by apply default_operator_applied.
Qed.
End Operators.

(** ** The manual builder *)

Section Builder.
Context `{Python} `{Pandas} `{!Plotly} `{Streamlit}.

(** C7 (as the code has it): the manual builder returns [(None, None)],
    after a warning on the page and with no frame changed, exactly when
    the type picked is scatter and the dataset has fewer than two numeric
    columns, or the type picked is line and the dataset has no numeric
    column; a time-like column is not asked for.  Otherwise it returns an
    action of the type picked that has the parameters the type requires,
    and a description. *)
Theorem manual_builder_aborts_without_numeric_columns w df d viz_type :
  frames w !! df = Some d ->
  selectbox "Visualization Type" viz_types = VStr viz_type ->
  viz_type ∈ viz_types ->
  exists w' action description,
    create_action_from_ui df w = (w', Ret (action, description))
    /\ frames w' = frames w
    /\ (action = VNone <-> prerequisites_unmet viz_type d)
    /\ (action = VNone ->
        description = VNone
        /\ exists message,
             page w' = page w ++ [StMarkdown "### Select Visualization Type";
                                  StWarning message])
    /\ (action <> VNone ->
        exists a text,
          action = VDict a /\ description = VStr text
          /\ dict_lookup "type" a = Some (VStr viz_type)
          /\ required_present viz_type a = true).
Proof.
  intros Hd Hviz Hin. unfold create_action_from_ui.
  unfold mbind at 1, M_bind, show at 1. cbv beta iota.
  unfold mbind at 1, M_bind, read at 1. cbn [frames]. rewrite Hd. cbv beta iota.
  rewrite Hviz. unfold prerequisites_unmet.
  unfold viz_types in Hin.
  repeat (apply elem_of_cons in Hin as [->|Hin]); [| | | | |by apply elem_of_nil in Hin].
  - cbn [eq_str String.eqb Ascii.eqb Bool.eqb].
    eexists _, _, _. split; [reflexivity|]. split; [done|].
    split; [split; [done|by intros [[? _]|[? _]]]|]. split; [done|].
    intros _. eexists _, _. split; [reflexivity|]. split; [reflexivity|]. done.
  - cbn [eq_str String.eqb Ascii.eqb Bool.eqb].
    destruct (checkbox _ _ && _);
      (eexists _, _, _; split; [reflexivity|]; split; [done|];
       split; [split; [done|by intros [[? _]|[? _]]]|]; split; [done|];
       intros _; eexists _, _; split; [reflexivity|]; split; [reflexivity|]; done).
  - cbn [eq_str String.eqb Ascii.eqb Bool.eqb].
    destruct (2 <=? length (numeric_columns d))%nat eqn:E.
    + apply Nat.leb_le in E.
      eexists _, _, _. split; [reflexivity|]. split; [done|].
      split; [split; [done|intros [[_ ?]|[? _]]; [lia|done]]|]. split; [done|].
      intros _. eexists _, _. split; [reflexivity|]. split; [reflexivity|]. done.
    + apply Nat.leb_gt in E.
      unfold mbind, M_bind, show. cbv beta iota.
      eexists _, _, _. split; [reflexivity|]. split; [done|].
      split; [split; [intros _; left; split; [done|lia]|done]|].
      split; [|done]. intros _. split; [done|]. eexists. cbn [page].
      by rewrite <- app_assoc.
  - cbn [eq_str String.eqb Ascii.eqb Bool.eqb].
    destruct (numeric_columns d) eqn:E.
    + unfold mbind, M_bind, show. cbv beta iota.
      eexists _, _, _. split; [reflexivity|]. split; [done|].
      split; [split; [intros _; right; done|done]|].
      split; [|done]. intros _. split; [done|]. eexists. cbn [page].
      by rewrite <- app_assoc.
    + eexists _, _, _. split; [reflexivity|]. split; [done|].
      split; [split; [done|intros [[? _]|[_ ?]]; done]|]. split; [done|].
      intros _. eexists _, _. split; [reflexivity|]. split; [reflexivity|]. done.
  - cbn [eq_str String.eqb Ascii.eqb Bool.eqb].
    destruct (negb (checkbox _ _));
      (eexists _, _, _; split; [reflexivity|]; split; [done|];
       split; [split; [done|by intros [[? _]|[? _]]]|]; split; [done|];
       intros _; eexists _, _; split; [reflexivity|]; split; [reflexivity|]; done).
Qed.
End Builder.

(** ** What filtering and preparation change *)

Section Mutation.
Context `{Python} `{Pandas} `{!Plotly} `{Streamlit}.

Lemma hoare_filter_loop_any keep conditions l :
  hoare keep (filter_loop conditions l) (fun _ => True).
Proof.
  revert l. induction conditions as [|condition rest IH]; intros l; simpl.
  - by apply hoare_ret.
  - apply hoare_seq; [by apply hoare_lift|]. intros filter_col.
    apply hoare_seq; [by apply hoare_lift|]. intros filter_val.
    apply hoare_seq; [by apply hoare_lift|]. intros operator.
    apply hoare_seq; [apply hoare_contains|]. intros there.
    destruct (negb there).
    { apply hoare_seq; [apply hoare_show|]. intros _. by apply hoare_ret. }
    apply hoare_seq.
    + apply hoare_catch.
      * apply hoare_seq; [|intros; by apply hoare_ret].
        unfold apply_condition. apply hoare_seq.
        { repeat case_match; try (eapply hoare_weaken; [apply hoare_narrow|done]).
          by apply hoare_ret. }
        intros next. apply hoare_seq; [apply hoare_show|]. intros _.
        by apply hoare_ret.
      * intros e. apply hoare_seq; [apply hoare_show|]. intros _. by apply hoare_ret.
    + intros [l1|]; [apply IH|by apply hoare_ret].
Qed.

Lemma hoare_apply_filters_any keep filter_conditions l :
  hoare keep (apply_filters filter_conditions l) (fun _ => True).
Proof.
  unfold apply_filters. destruct (truthy filter_conditions); [|by apply hoare_ret].
  apply hoare_seq; [by apply hoare_lift|]. intros conditions.
  apply hoare_filter_loop_any.
Qed.

(** C4, as the code has it: the filter loop never changes a frame that
    exists, the one it is given included (each narrowing is a new object);
    the preparer assigns the converted column into the object it is given
    and returns that object, and changes no other; and since [main] hands
    both a copy, the dataset of the session stays as it was loaded. *)
Theorem coercion_in_place_on_the_working_copy :
  (forall filter_conditions l l0 d0 w w' r,
      frames w !! l0 = Some d0 ->
      apply_filters filter_conditions l w = (w', r) ->
      frames w' !! l0 = Some d0)
  /\ (forall w df d action c s s',
        frames w !! df = Some d ->
        value_lower (dict_get "type" action (VStr "")) = Ret "histogram" ->
        dict_get "column" action VNone = VStr c ->
        lookup_column c (df_data d) = Some s ->
        is_numeric_dtype (s_dtype s) = false ->
        to_numeric_coerce s = Ret s' ->
        prepare_data_for_visualization df action w
        = (assigned w df d c s', Ret (Some df, None))
        /\ frames (assigned w df d c s') !! df = Some (set_column c s' d))
  /\ (forall df action l d0 w w' r,
        l <> df ->
        frames w !! l = Some d0 ->
        prepare_data_for_visualization df action w = (w', r) ->
        frames w' !! l = Some d0)
  /\ (forall df d llm_provider query response_text w w' r,
        frames w !! df = Some d ->
        main_loaded df llm_provider query response_text w = (w', r) ->
        frames w' !! df = Some d).
Proof.
  split; [|split; [|split]].
  - intros filter_conditions l l0 d0 w w' r Hl0 Hrun.
    by destruct (hoare_apply_filters_any (Some (l0, d0)) filter_conditions l w Hl0 w' r Hrun).
  - intros w df d action c s s' Hd Ht Hc Hs Hnum Hconv. split; [|apply assigned_lookup].
    assert (Hh : has_column d c = true).
    { unfold has_column, columns. clear -Hs.
      induction (df_data d) as [|[c0 s0] data IH]; [done|]. simpl in *.
      destruct (String.eqb c c0); [done|]. by apply IH. }
    unfold prepare_data_for_visualization. rewrite Ht.
    unfold mbind at 1, M_bind, lift, catch.
    change (prepare_body "histogram" action df) with (prepare_histogram action df).
    unfold prepare_histogram. rewrite Hc.
    unfold mbind at 1, M_bind. rewrite (contains_eval _ _ _ _ Hd). cbn [in_columns].
    fold (has_column d c). rewrite Hh. cbn [negb].
    unfold mbind at 1, M_bind. rewrite (getitem_eval _ _ _ _ Hd). cbn [get_column].
    rewrite Hs, Hnum. cbn [negb].
    unfold mbind, M_bind. rewrite (try_convert_eval _ _ _ _ _ _ Hd Hs), Hconv. done.
  - intros df action l d0 w w' r Hne Hl Hrun.
    by destruct (hoare_prepare (Some (l, d0)) df action (not_eq_sym Hne) w Hl w' r Hrun).
  - intros df d llm_provider query response_text w w' r Hd Hrun.
    by destruct (hoare_main_loaded (Some (df, d)) df llm_provider query response_text
                   w Hd w' r Hrun).
Qed.
End Mutation.

(** ** Text *)

Lemma append_nil s : "" +:+ s = s.
Proof. reflexivity. Qed.

Lemma append_cons c a s : String c a +:+ s = String c (a +:+ s).
Proof. reflexivity. Qed.

Lemma substring_skip pre a n s :
  substring (String.length pre + a) n (pre +:+ s) = substring a n s.
Proof. induction pre as [|c pre IH]; [done|]. rewrite append_cons. simpl. exact IH. Qed.

Lemma slice_app pre a b s :
  slice (String.length pre + a) (String.length pre + b) (pre +:+ s)
  = substring a (b - a) s.
Proof.
  unfold slice. rewrite substring_skip. f_equal. lia.
Qed.

Lemma find_char_app_none c pre s :
  find_char c pre = None ->
  find_char c (pre +:+ s) = option_map (fun i => String.length pre + i) (find_char c s).
Proof.
  induction pre as [|d pre IH]; [intros _; rewrite append_nil|rewrite append_cons]; simpl.
  - destruct (find_char c s); reflexivity.
  - destruct (Ascii.eqb c d); [done|].
    destruct (find_char c pre); [done|]. intros _. rewrite IH by done.
    destruct (find_char c s); reflexivity.
Qed.

Lemma rfind_char_app_some c pre s i :
  rfind_char c s = Some i ->
  rfind_char c (pre +:+ s) = Some (String.length pre + i).
Proof.
  intros Hs. induction pre as [|d pre IH]; [done|].
  rewrite append_cons. simpl. by rewrite IH.
Qed.

(** ** The matcher on the pattern of [safe_json_parse] *)

Section Matcher.
Context {R : Type}.
Implicit Types k : @Re.cont R.

Lemma lit_eval l s p g k :
  Re.lit l s p g k
  = match strip_prefix l s with
    | Some s' => k s' (p + String.length l) g
    | None => None
    end.
Proof.
  revert s p. induction l as [|c l IH]; intros s p; simpl.
  - by rewrite Nat.add_0_r.
  - destruct s as [|d s]; [done|]. destruct (Ascii.eqb c d); [|done].
    rewrite IH. destruct (strip_prefix l s); [|done]. f_equal. lia.
Qed.
End Matcher.

Lemma greedy_any_brace start s p g :
  Re.star_greedy Re.any s p g (fun s2 p2 g2 => Re.lit "}" s2 p2 g2 (final start))
  = match rfind_char "}" s with
    | Some i => Some (Re.Match start (p + i + 1) g)
    | None => None
    end.
Proof.
  revert p. induction s as [|c s IH]; intros p; [done|].
  cbn [Re.star_greedy Re.any rfind_char].
  rewrite IH. destruct (rfind_char "}" s) as [i|].
  - do 2 f_equal. lia.
  - cbn [Re.lit]. destruct (Ascii.eqb "}" c); [|done]. unfold final. do 2 f_equal. lia.
Qed.

Lemma brace_at s p :
  Re.match_at brace_pattern s p
  = match s with
    | String c s' =>
        if Ascii.eqb "{" c then
          match rfind_char "}" s' with
          | Some i => Some (Re.Match p (p + i + 2) None)
          | None => None
          end
        else None
    | EmptyString => None
    end.
Proof.
  unfold Re.match_at, brace_pattern. cbn [Re.run].
  change (fun (_ : string) e g => Some (Re.Match p e g)) with (final p).
  rewrite lit_eval. destruct s as [|c s]; [done|]. cbn [strip_prefix].
  destruct (Ascii.eqb "{" c); [|done]. change (String.length "{") with 1.
  rewrite (greedy_any_brace p s (p + 1) None).
  destruct (rfind_char "}" s); [|done]. do 2 f_equal. lia.
Qed.

Lemma space_not_backtick c : Re.space c = true -> Ascii.eqb "`" c = false.
Proof.
  intros Hs. destruct (Ascii.eqb "`" c) eqn:E; [|done].
  apply Ascii.eqb_eq in E. subst c. done.
Qed.

Lemma greedy_space_close start s p g :
  Re.star_greedy Re.space s p g (fun s4 p4 g4 => Re.lit "```" s4 p4 g4 (final start))
  = match close_len s with
    | Some n => Some (Re.Match start (p + n) g)
    | None => None
    end.
Proof.
  unfold close_len. revert p. induction s as [|c s IH]; intros p; [done|].
  cbn [Re.star_greedy skip_space count_space].
  destruct (Re.space c) eqn:Hc.
  - rewrite IH. destruct (strip_prefix "```" (skip_space s)).
    + do 2 f_equal. lia.
    + cbn [Re.lit]. by rewrite (space_not_backtick _ Hc).
  - rewrite lit_eval. destruct (strip_prefix "```" (String c s)); [|done].
    unfold final. do 2 f_equal.
Qed.

Lemma lazy_any_close start s q g p2 :
  Re.star_lazy Re.any s q g
    (fun s3 p3 _ =>
       Re.star_greedy Re.space s3 p3 (Some (p2, p3))
         (fun s4 p4 g4 => Re.lit "```" s4 p4 g4 (final start)))
  = match lazy_len s with
    | Some (i, n) => Some (Re.Match start (q + i + n) (Some (p2, q + i)))
    | None => None
    end.
Proof.
  revert q. induction s as [|c s IH]; intros q.
  - cbn [Re.star_lazy lazy_len]. rewrite greedy_space_close.
    destruct (close_len ""); [|done]. do 2 f_equal; [lia|]. do 2 f_equal. lia.
  - cbn [Re.star_lazy lazy_len]. rewrite greedy_space_close.
    destruct (close_len (String c s)) as [n|].
    + do 2 f_equal; [lia|]. do 2 f_equal. lia.
    + cbn [Re.any]. rewrite IH. destruct (lazy_len s) as [[i n]|]; [|done].
      do 2 f_equal; [lia|]. do 2 f_equal. lia.
Qed.

Lemma lazy_len_space c s :
  Re.space c = true -> lazy_len s = None -> lazy_len (String c s) = None.
Proof.
  intros Hc Hs. cbn [lazy_len]. rewrite Hs.
  unfold close_len. cbn [skip_space count_space]. rewrite Hc.
  destruct s as [|d s]; cbn [lazy_len] in Hs; unfold close_len in Hs.
  - by destruct (strip_prefix "```" (skip_space "")).
  - by destruct (strip_prefix "```" (skip_space (String d s))).
Qed.

Lemma lazy_len_skip s : lazy_len (skip_space s) = None -> lazy_len s = None.
Proof.
  induction s as [|c s IH]; [done|]. cbn [skip_space].
  destruct (Re.space c) eqn:Hc; [|done].
  intros Hs. by apply lazy_len_space, IH.
Qed.

Lemma greedy_space_lazy start s p g :
  Re.star_greedy Re.space s p g
    (fun s2 p2 g2 =>
       Re.star_lazy Re.any s2 p2 g2
         (fun s3 p3 _ =>
            Re.star_greedy Re.space s3 p3 (Some (p2, p3))
              (fun s4 p4 g4 => Re.lit "```" s4 p4 g4 (final start))))
  = match lazy_len (skip_space s) with
    | Some (i, n) =>
        Some (Re.Match start (p + count_space s + i + n)
                (Some (p + count_space s, p + count_space s + i)))
    | None => None
    end.
Proof.
  revert p. induction s as [|c s IH]; intros p.
  - cbn [Re.star_greedy skip_space count_space]. rewrite lazy_any_close.
    rewrite Nat.add_0_r. done.
  - cbn [Re.star_greedy skip_space count_space].
    destruct (Re.space c) eqn:Hc.
    + rewrite IH. destruct (lazy_len (skip_space s)) as [[i n]|] eqn:E.
      * do 2 f_equal; [lia|]. do 2 f_equal; lia.
      * rewrite lazy_any_close.
        by rewrite (lazy_len_space _ _ Hc (lazy_len_skip _ E)).
    + rewrite lazy_any_close, Nat.add_0_r. done.
Qed.

Lemma fence_at s p :
  Re.match_at fence_pattern s p
  = match fence_match s with
    | Some (n1, i, n2) =>
        Some (Re.Match p (p + 7 + n1 + i + n2) (Some (p + 7 + n1, p + 7 + n1 + i)))
    | None => None
    end.
Proof.
  unfold Re.match_at, fence_pattern, fence_match. cbn [Re.run].
  change (fun (_ : string) e g => Some (Re.Match p e g)) with (final p).
  rewrite lit_eval. destruct (strip_prefix "```json" s) as [after|]; [|done].
  change (String.length "```json") with 7.
  rewrite (greedy_space_lazy p after (p + 7) None).
  by destruct (lazy_len (skip_space after)) as [[i n]|].
Qed.

(** ** The strings [safe_json_parse] tries *)

Lemma match_at_json_pattern s p :
  Re.match_at json_pattern s p
  = match Re.match_at fence_pattern s p with
    | Some m => Some m
    | None => Re.match_at brace_pattern s p
    end.
Proof. reflexivity. Qed.

Lemma append_assoc_cons pre c s : (pre +:+ String c "") +:+ s = pre +:+ String c s.
Proof. induction pre as [|d pre IH]; [done|]. rewrite !append_cons. by rewrite IH. Qed.

Lemma length_append_one pre c :
  String.length (pre +:+ String c "") = S (String.length pre).
Proof. induction pre as [|d pre IH]; [done|]. rewrite append_cons. simpl. by rewrite IH. Qed.

Section Candidates.
Context `{Python}.

Lemma search_from_candidate s : forall pre,
  option_map (json_str (pre +:+ s)) (Re.search_from json_pattern s (String.length pre))
  = first_candidate s.
Proof.
  induction s as [|c s IH]; intros pre.
  - cbn [Re.search_from first_candidate].
    rewrite match_at_json_pattern, fence_at, brace_at.
    unfold fence_candidate, brace_candidate.
    destruct (fence_match "") as [[[n1 i] n2]|] eqn:E; [|reflexivity].
    unfold fence_match in E. done.
  - cbn [Re.search_from first_candidate].
    rewrite match_at_json_pattern, fence_at, brace_at.
    unfold fence_candidate, brace_candidate.
    set (p := String.length pre).
    destruct (fence_match (String c s)) as [[[n1 i] n2]|] eqn:E.
    { cbn [option_map]. unfold json_str, Re.group1, Re.group0. cbn [Re.m_group1 Re.m_start Re.m_end].
      f_equal.
      replace (p + 7 + n1 + i + n2) with (p + (7 + n1 + i + n2)) by lia.
      replace (p + 7 + n1 + i) with (p + (7 + n1 + i)) by lia.
      replace (p + 7 + n1) with (p + (7 + n1)) by lia.
      unfold p. rewrite slice_app.
      replace (7 + n1 + i - (7 + n1)) with i by lia.
      replace (slice (String.length pre) (String.length pre + (7 + n1 + i + n2))
                 (pre +:+ String c s))
        with (str_prefix (7 + n1 + i + n2) (String c s)); [done|].
      unfold str_prefix.
      rewrite <- (slice_app pre 0 (7 + n1 + i + n2)).
      by rewrite Nat.add_0_r. }
    destruct (Ascii.eqb "{" c) eqn:Ec.
    + destruct (rfind_char "}" s) as [j|] eqn:Ej.
      * cbn [option_map]. unfold json_str, Re.group1, Re.group0.
        cbn [Re.m_group1 Re.m_start Re.m_end]. f_equal. unfold str_prefix.
        replace (p + j + 2) with (p + (j + 2)) by lia. unfold p.
        rewrite <- (Nat.add_0_r (String.length pre)) at 1.
        rewrite slice_app. f_equal. lia.
      * specialize (IH (pre +:+ String c "")).
        rewrite append_assoc_cons, length_append_one in IH. exact IH.
    + specialize (IH (pre +:+ String c "")).
      rewrite append_assoc_cons, length_append_one in IH. exact IH.
Qed.

Lemma safe_json_parse_candidates text :
  safe_json_parse text
  = match first_candidate text with
    | Some c => loads_or c (brace_fallback text)
    | None => brace_fallback text
    end.
Proof.
  unfold safe_json_parse, Re.search.
  rewrite <- (search_from_candidate text "").
  change (String.length "") with 0. rewrite append_nil.
  by destruct (Re.search_from json_pattern text 0).
Qed.
End Candidates.

Section Attempts.
Context `{Python}.

Lemma loads_or_twice c rest : loads_or c (loads_or c rest) = loads_or c rest.
Proof.
  unfold loads_or. destruct (json_loads c) as [v|e]; [done|].
  by destruct (exn_class_eqb (exn_cls e) JSONDecodeError).
Qed.

(** When the brace alternative matches after a prefix that has no opening
    brace, the fallback decodes the very string the match gave. *)
Lemma brace_fallback_candidate pre s c :
  find_char "{" pre = None ->
  brace_candidate s = Some c ->
  brace_fallback (pre +:+ s) = loads_or c (Ret VNone).
Proof.
  intros Hpre Hc. unfold brace_candidate in Hc.
  destruct s as [|d s]; [done|]. destruct (Ascii.eqb "{" d) eqn:Ed; [|done].
  destruct (rfind_char "}" s) as [j|] eqn:Ej; [|done]. injection Hc as <-.
  unfold brace_fallback.
  rewrite (find_char_app_none _ _ _ Hpre). cbn [find_char]. rewrite Ed. cbn [option_map].
  rewrite (rfind_char_app_some _ pre (String d s) (S j)).
  2:{ cbn [rfind_char]. by rewrite Ej. }
  destruct (String.length pre + 0 <? String.length pre + S j)%nat eqn:E;
    [|apply Nat.ltb_ge in E; lia].
  f_equal. unfold str_prefix.
  replace (S (String.length pre + S j)) with (String.length pre + (j + 2)) by lia.
  rewrite slice_app. f_equal. lia.
Qed.

Lemma find_char_append_one c pre d :
  find_char c pre = None -> Ascii.eqb c d = false ->
  find_char c (pre +:+ String d "") = None.
Proof.
  intros Hpre Hd. rewrite (find_char_app_none _ _ _ Hpre). cbn [find_char].
  by rewrite Hd.
Qed.

Lemma attempts_agree s : forall pre,
  find_char "{" pre = None \/ rfind_char "}" s = None ->
  match first_candidate s with
  | Some c => loads_or c (brace_fallback (pre +:+ s))
  | None => brace_fallback (pre +:+ s)
  end
  = match first_fence s with
    | Some c => loads_or c (brace_fallback (pre +:+ s))
    | None => brace_fallback (pre +:+ s)
    end.
Proof.
  induction s as [|d s IH]; intros pre Hinv.
  - cbn [first_candidate first_fence].
    by destruct (fence_candidate "").
  - cbn [first_candidate first_fence].
    destruct (fence_candidate (String d s)) as [c|]; [done|].
    destruct (brace_candidate (String d s)) as [c|] eqn:Ec.
    + assert (Hpre : find_char "{" pre = None).
      { destruct Hinv as [?|Hs]; [done|]. exfalso.
        unfold brace_candidate in Ec. destruct (Ascii.eqb "{" d); [|done].
        cbn [rfind_char] in Hs. by destruct (rfind_char "}" s). }
      rewrite (brace_fallback_candidate _ _ _ Hpre Ec). apply loads_or_twice.
    + specialize (IH (pre +:+ String d "")). rewrite append_assoc_cons in IH.
      apply IH. unfold brace_candidate in Ec.
      destruct Hinv as [Hpre|Hs].
      * destruct (Ascii.eqb "{" d) eqn:Ed.
        -- right. by destruct (rfind_char "}" s).
        -- left. by apply find_char_append_one.
      * right. cbn [rfind_char] in Hs. by destruct (rfind_char "}" s).
Qed.

Theorem safe_json_parse_two_attempts text :
  safe_json_parse text
  = match first_fence text with
    | Some c => loads_or c (brace_fallback text)
    | None => brace_fallback text
    end.
Proof.
  rewrite safe_json_parse_candidates.
  exact (attempts_agree text "" (or_introl eq_refl)).
Qed.
End Attempts.

(** ** The attempts of [safe_json_parse] as a list *)

Section FirstSuccess.
Context `{Python}.

Lemma brace_fallback_first_to_last text :
  brace_fallback text = first_success (option_list (first_to_last text)).
Proof.
  unfold brace_fallback, first_to_last.
  destruct (find_char "{" text) as [start|]; [|done].
  destruct (rfind_char "}" text) as [end_|]; [|done].
  by destruct (start <? end_)%nat.
Qed.

Lemma safe_json_parse_attempts text :
  safe_json_parse text = first_success (attempts text).
Proof.
  rewrite safe_json_parse_two_attempts, brace_fallback_first_to_last.
  unfold attempts. by destruct (first_fence text).
Qed.

Lemma first_success_undecodable candidates :
  Forall undecodable candidates -> first_success candidates = Ret VNone.
Proof.
  induction 1 as [|c rest (e & He & Hcls) _ IH]; [done|].
  cbn [first_success]. unfold loads_or. rewrite He, Hcls. exact IH.
Qed.

Lemma parse_llm_response_falsy text v :
  text <> "" -> safe_json_parse text = Ret v -> truthy v = false ->
  parse_llm_response (Some text) = parse_failure "Could not parse LLM response as JSON.".
Proof.
  intros Htext Hv Hfalsy. unfold parse_llm_response.
  destruct (String.eqb_spec text ""); [done|].
  unfold parse_body. rewrite Hv. cbn [mbind py_bind]. by rewrite Hfalsy.
Qed.

Lemma fence_candidate_other d s :
  Ascii.eqb "`" d = false -> fence_candidate (String d s) = None.
Proof.
  intros Hd. unfold fence_candidate, fence_match. cbn [strip_prefix]. by rewrite Hd.
Qed.

Lemma first_fence_after_prose pre : forall s c,
  find_char "{" pre = None -> find_char "`" pre = None ->
  fence_candidate s = Some c ->
  first_fence (pre +:+ s) = Some c.
Proof.
  induction pre as [|d pre IH]; intros s c Hbrace Htick Hc.
  - rewrite append_nil. destruct s; cbn [first_fence]; by rewrite Hc.
  - rewrite append_cons. cbn [find_char] in Hbrace, Htick.
    destruct (Ascii.eqb "{" d) eqn:Eb; [done|].
    destruct (Ascii.eqb "`" d) eqn:Et; [done|].
    cbn [first_fence]. rewrite (fence_candidate_other _ _ Et).
    cbn [brace_candidate]. rewrite Eb. apply IH; [| |done].
    + by destruct (find_char "{" pre).
    + by destruct (find_char "`" pre).
Qed.

(** C1 (as the code has it): [safe_json_parse] makes two attempts, not
    three.  The first decodes what the leftmost match of the pattern
    gives: the contents of a [json] fence only when no opening brace
    with a closing brace somewhere after it stands before the fence;
    otherwise the match runs from that brace to the last closing brace
    of the text, which is the string of the second attempt.  The second
    attempt decodes the text from the first opening brace to the last
    closing brace.  The first string that decodes is the result.  A
    fence after prose without braces or backticks is the first attempt.
    When no attempt decodes, or the decoded value is falsy,
    [parse_llm_response] returns the error
    [Could not parse LLM response as JSON.] and nothing else. *)
Theorem safe_json_parse_fence_then_first_to_last text :
  safe_json_parse text = first_success (attempts text)
  /\ length (attempts text) <= 2
  /\ (forall pre s c,
        text = pre +:+ s -> find_char "{" pre = None -> find_char "`" pre = None ->
        fence_candidate s = Some c -> first_fence text = Some c)
  /\ (forall pre s c,
        text = pre +:+ s -> find_char "{" pre = None -> find_char "`" pre = None ->
        fence_candidate s = None -> brace_candidate s = Some c ->
        first_to_last text = Some c /\ safe_json_parse text = loads_or c (Ret VNone))
  /\ (text <> "" -> Forall undecodable (attempts text) ->
      parse_llm_response (Some text)
      = parse_failure "Could not parse LLM response as JSON.")
  /\ (forall v, text <> "" -> safe_json_parse text = Ret v -> truthy v = false ->
      parse_llm_response (Some text)
      = parse_failure "Could not parse LLM response as JSON.").
Proof.
  split; [apply safe_json_parse_attempts|].
  split.
  { unfold attempts. destruct (first_fence text), (first_to_last text); simpl; lia. }
  split.
  { intros pre s c -> Hbrace Htick Hc. by apply first_fence_after_prose. }
  split.
  { intros pre s c -> Hbrace Htick Hfence Hc.
    pose proof (brace_fallback_candidate pre s c Hbrace Hc) as Hfb.
    assert (Hftl : first_to_last (pre +:+ s) = Some c).
    { unfold brace_candidate in Hc. destruct s as [|d s]; [done|].
      destruct (Ascii.eqb "{" d) eqn:Ed; [|done].
      destruct (rfind_char "}" s) as [j|] eqn:Ej; [|done]. injection Hc as <-.
      unfold first_to_last.
      rewrite (find_char_app_none _ _ _ Hbrace). cbn [find_char]. rewrite Ed.
      cbn [option_map].
      rewrite (rfind_char_app_some _ pre (String d s) (S j)).
      2:{ cbn [rfind_char]. by rewrite Ej. }
      destruct (String.length pre + 0 <? String.length pre + S j)%nat eqn:E;
        [|apply Nat.ltb_ge in E; lia].
      f_equal. unfold str_prefix.
      replace (S (String.length pre + S j)) with (String.length pre + (j + 2)) by lia.
      rewrite slice_app. f_equal. lia. }
    split; [done|].
    rewrite safe_json_parse_attempts. unfold attempts. rewrite Hftl.
    destruct (first_fence (pre +:+ s)) as [c'|] eqn:Ef; [|done].
    exfalso. revert Ef. clear Hfb Hftl.
    induction pre as [|d pre IH].
    - rewrite append_nil. destruct s; cbn [first_fence]; by rewrite Hfence, Hc.
    - rewrite append_cons. cbn [find_char] in Hbrace, Htick.
      destruct (Ascii.eqb "{" d) eqn:Eb; [done|].
      destruct (Ascii.eqb "`" d) eqn:Et; [done|].
      cbn [first_fence brace_candidate]. rewrite Eb.
      rewrite (fence_candidate_other _ _ Et).
      apply IH; [by destruct (find_char "{" pre)|by destruct (find_char "`" pre)]. }
  split.
  { intros Htext Hall.
    apply (parse_llm_response_falsy text VNone); [done| |done].
    rewrite safe_json_parse_attempts. by apply first_success_undecodable. }
  intros v. apply parse_llm_response_falsy.
Qed.
End FirstSuccess.

(** ** Every stage returns a result or an error *)

Section Stages.
Context `{Python} `{Pandas} `{!Plotly} `{Streamlit}.


End Stages.

(** ** The chain of tests on the action type *)

Section TypeChain.
Context `{Python}.

Lemma check_type_summarize action_type action :
  check_type action_type action = None -> action_type = "summarize".
Proof.
  unfold check_type. repeat case_match; try done.
  intros _. by apply String.eqb_eq.
Qed.

Lemma check_type_complete action_type action :
  action_type <> "summarize" ->
  (action_type = "histogram" -> dict_contains "column" action = true) ->
  (action_type = "bar" -> dict_contains "x" action = true) ->
  (action_type = "scatter" \/ action_type = "line" ->
   dict_contains "x" action = true /\ dict_contains "y" action = true) ->
  check_type action_type action = Some ("Unknown action type: " +:+ action_type).
Proof.
  intros Hs Hh Hb Hxy. unfold check_type.
  destruct (String.eqb_spec action_type "histogram") as [E|_].
  { rewrite (Hh E). simpl. subst. done. }
  destruct (String.eqb_spec action_type "bar") as [E|_].
  { rewrite (Hb E). simpl. subst. done. }
  destruct (String.eqb_spec action_type "scatter") as [E|_].
  { destruct (Hxy (or_introl E)) as [-> ->]. simpl. subst. done. }
  destruct (String.eqb_spec action_type "line") as [E|_].
  { destruct (Hxy (or_intror E)) as [-> ->]. simpl. subst. done. }
  simpl. by destruct (String.eqb_spec action_type "summarize").
Qed.

Lemma parse_body_accepts text action description filters :
  parse_body text = Ret (action, description, filters, None) ->
  exists a t, action = VDict a /\ dict_lookup "type" a = Some (VStr t)
              /\ str_lower t = "summarize".
Proof.
  unfold parse_body, mbind, py_bind, parse_failure.
  intros E. repeat (case_match; simplify_eq/=).
  match goal with
  | Ht : check_type _ _ = None |- _ => apply check_type_summarize in Ht
  end.
  match goal with
  | Hl : value_lower (dict_get "type" ?a _) = Ret _ |- _ =>
      unfold dict_get in Hl; destruct (dict_lookup "type" a) as [[]|] eqn:El;
        simplify_eq/=
  end.
  by eexists _, _.
Qed.

(** X1: The chain of tests on the action type lets only [summarize] through:
    whatever the parser accepts is a mapping whose type is a string that
    lower-cases to [summarize], and an action of any other type that has
    every parameter its type requires is answered with
    [Unknown action type]. *)
Theorem parser_accepts_only_summarize :
  (forall text action description filters,
     parse_llm_response (Some text) = (action, description, filters, None) ->
     exists a t, action = VDict a /\ dict_lookup "type" a = Some (VStr t)
                 /\ str_lower t = "summarize")
  /\ (forall action_type action,
        action_type <> "summarize" ->
        (action_type = "histogram" -> dict_contains "column" action = true) ->
        (action_type = "bar" -> dict_contains "x" action = true) ->
        (action_type = "scatter" \/ action_type = "line" ->
         dict_contains "x" action = true /\ dict_contains "y" action = true) ->
        check_type action_type action = Some ("Unknown action type: " +:+ action_type)).
Proof.
  split; [|apply check_type_complete].
  intros text action description filters. unfold parse_llm_response.
  destruct (String.eqb text ""); [done|].
  destruct (parse_body text) as [r|e] eqn:E; simpl; [|done].
  intros ->. by apply (parse_body_accepts text action description filters).
Qed.
End TypeChain.

(** * Further properties of the code *)

(** ** Relations between the world before and after a computation *)

Section Steps.
Context `{Python} `{Pandas} `{!Plotly}.
Variable R : world -> world -> Prop.
Hypothesis R_refl : forall w, R w w.
Hypothesis R_trans : forall w1 w2 w3, R w1 w2 -> R w2 w3 -> R w1 w3.

Lemma steps_ret {A} (a : A) (Q : A -> Prop) : Q a -> steps R (mret a) Q.
Proof. intros HQ w w' r [= <- <-]. split; [done|]. by intros ? [= <-]. Qed.

Lemma steps_bind {A B} (m : M A) (k : A -> M B) (P : A -> Prop) (Q : B -> Prop) :
  steps R m P -> (forall a, P a -> steps R (k a) Q) -> steps R (m ≫= k) Q.
Proof.
  intros Hm Hk w w' r. unfold mbind, M_bind.
  destruct (m w) as [w1 [a|e]] eqn:E; destruct (Hm w _ _ E) as [Hw1 HP].
  - intros Hka. destruct (Hk a (HP a eq_refl) w1 w' r Hka) as [? ?]. eauto.
  - intros [= <- <-]. split; [done|]. intros ? [=].
Qed.

Lemma steps_seq {A B} (m : M A) (k : A -> M B) (Q : B -> Prop) :
  steps R m (fun _ => True) -> (forall a, steps R (k a) Q) -> steps R (m ≫= k) Q.
Proof. intros Hm Hk. eapply steps_bind; [exact Hm|]. intros a _. apply Hk. Qed.

Lemma steps_weaken {A} (m : M A) (P Q : A -> Prop) :
  steps R m P -> (forall a, P a -> Q a) -> steps R m Q.
Proof.
  intros Hm HPQ w w' r E. destruct (Hm w _ _ E) as [? HP].
  split; [done|]. intros a ->. eauto.
Qed.

Lemma steps_lift {A} (m : py A) (Q : A -> Prop) :
  (forall a, m = Ret a -> Q a) -> steps R (lift m) Q.
Proof. intros HQ w w' r [= <- <-]. eauto. Qed.

Lemma steps_catch {A} (m : M A) (h : exn -> M A) (Q : A -> Prop) :
  steps R m Q -> (forall e, steps R (h e) Q) -> steps R (catch m h) Q.
Proof.
  intros Hm Hh w w' r. unfold catch.
  destruct (m w) as [w1 [a|e]] eqn:E; destruct (Hm w _ _ E) as [Hw1 HP].
  - intros [= <- <-]. eauto.
  - intros Hhe. destruct (Hh e w1 w' r Hhe). eauto.
Qed.

Lemma steps_read df (Q : DataFrame -> Prop) :
  (forall d, Q d) -> steps R (read df) Q.
Proof.
  intros HQ w w' r. unfold read.
  destruct (frames w !! df); intros [= <- <-]; (split; [done|]); [eauto|done].
Qed.

Lemma steps_contains key df : steps R (contains key df) (fun _ => True).
Proof. apply steps_seq; [by apply steps_read|]. intros d. by apply steps_lift. Qed.

Lemma steps_getitem key df : steps R (getitem key df) (fun _ => True).
Proof. apply steps_seq; [by apply steps_read|]. intros d. by apply steps_lift. Qed.

(** Relations that do not look at the frames. *)
Hypothesis R_frames : forall w fs, R w (MkWorld fs (page w)).

Lemma steps_write df d : steps R (write df d) (fun _ => True).
Proof. intros w w' r [= <- <-]. split; [apply R_frames|done]. Qed.

Lemma steps_alloc d : steps R (alloc d) (fun _ => True).
Proof. intros w w' r [= <- <-]. split; [apply R_frames|done]. Qed.

Lemma steps_setitem key s df : steps R (setitem key s df) (fun _ => True).
Proof.
  apply steps_seq; [by apply steps_read|]. intros d.
  destruct key; try by apply steps_lift. apply steps_write.
Qed.

Lemma steps_copy df : steps R (copy df) (fun _ => True).
Proof. apply steps_seq; [by apply steps_read|]. intros d. apply steps_alloc. Qed.

Lemma steps_getitem_mask mask df : steps R (getitem_mask mask df) (fun _ => True).
Proof. apply steps_seq; [by apply steps_read|]. intros d. apply steps_alloc. Qed.

Lemma steps_try_convert convert col df :
  steps R (try_convert convert col df) (fun _ => True).
Proof.
  apply steps_catch; [|intros; by apply steps_ret].
  apply steps_seq; [apply steps_getitem|]. intros s.
  apply steps_seq; [by apply steps_lift|]. intros s'.
  apply steps_seq; [by apply steps_setitem|]. intros _. by apply steps_ret.
Qed.
End Steps.

Section Adds.
Context `{Python} `{Pandas} `{!Plotly}.
Variable P : event -> Prop.

Lemma adds_refl w : adds P w w.
Proof. exists []. by rewrite app_nil_r. Qed.

Lemma adds_trans w1 w2 w3 : adds P w1 w2 -> adds P w2 w3 -> adds P w1 w3.
Proof.
  intros (e1 & E1 & F1) (e2 & E2 & F2). exists (e1 ++ e2).
  split; [by rewrite E2, E1, app_assoc|by apply Forall_app].
Qed.

Lemma adds_frames w fs : adds P w (MkWorld fs (page w)).
Proof. exists []. by rewrite app_nil_r. Qed.

Lemma steps_show e : P e -> steps (adds P) (show e) (fun _ => True).
Proof.
  intros He w w' r [= <- <-]. split; [|done]. exists [e]. split; [done|]. by constructor.
Qed.
End Adds.

(** The side conditions of the rules: the relation is a preorder that
    does not look at the frames. *)
Ltac adds_side :=
  first [ exact (adds_refl _) | exact (adds_trans _) | exact (adds_frames _) ].

Ltac steps_simple side :=
  first
    [ (apply steps_contains; solve [side])
    | (apply steps_getitem; solve [side])
    | (apply steps_try_convert; solve [side])
    | (apply steps_setitem; solve [side])
    | (apply steps_copy; solve [side])
    | (apply steps_getitem_mask; solve [side])
    | (apply steps_read; [solve [side]|done])
    | (apply steps_lift; [solve [side]|done]) ].

(** One step through a computation whose intermediate values do not
    matter; [special] holds the rules of the relation at hand. *)
Ltac steps_step side special :=
  lazymatch goal with
  | |- steps _ (mret _) _ => apply steps_ret; [solve [side]|]
  | |- steps _ (catch _ _) _ => apply steps_catch; [solve [side]| |intros ?]
  | |- steps _ (if ?b then _ else _) _ => destruct b
  | |- steps _ (match ?x with _ => _ end) _ => destruct x
  | |- steps _ (_ ≫= _) _ =>
      apply steps_seq;
      [solve [side]
      |first [special | steps_simple side
             | solve [repeat (steps_step side special); done]]
      |intros ?]
  | |- steps _ _ _ => first [special | steps_simple side]
  end.

Ltac adds_step := steps_step ltac:(adds_side) ltac:(fail).

(** ** Responses of the usual shapes *)

Lemma skip_space_all ws s :
  all_space ws = true -> skip_space (ws +:+ s) = skip_space s.
Proof.
  induction ws as [|c ws IH]; [done|]. rewrite append_cons. cbn [all_space skip_space].
  intros [Hc Hws]%andb_true_iff. rewrite Hc. by apply IH.
Qed.

Lemma count_space_all ws s :
  all_space ws = true -> count_space (ws +:+ s) = String.length ws + count_space s.
Proof.
  induction ws as [|c ws IH]; [done|]. rewrite append_cons. cbn [all_space count_space].
  intros [Hc Hws]%andb_true_iff. rewrite Hc. cbn [String.length]. by rewrite IH.
Qed.

Lemma skip_space_solid s : solid_start s = true -> skip_space s = s.
Proof. destruct s as [|c s]; [done|]. cbn. by intros ->%negb_true_iff. Qed.

Lemma count_space_solid s : solid_start s = true -> count_space s = 0.
Proof. destruct s as [|c s]; [done|]. cbn. by intros ->%negb_true_iff. Qed.

Lemma close_len_fence ws rest :
  all_space ws = true -> close_len (ws +:+ "```" +:+ rest) = Some (String.length ws + 3).
Proof.
  intros Hws. unfold close_len.
  rewrite (skip_space_all _ _ Hws), (count_space_all _ _ Hws).
  change ("```" +:+ rest) with (String "`" (String "`" (String "`" rest))).
  cbn [skip_space count_space]. change (Re.space "`") with false. cbn [strip_prefix].
  rewrite !Ascii.eqb_refl. f_equal. lia.
Qed.

(** Inside contents that hold no backtick and end in a character that is
    not blank, the closing of the fence does not match. *)
Lemma close_len_inside c : forall tail,
  find_char "`" c = None -> solid_end c = true ->
  strip_prefix "```" (skip_space (c +:+ tail)) = None.
Proof.
  induction c as [|a c IH]; intros tail Htick Hend; [done|].
  rewrite append_cons. cbn [find_char] in Htick.
  destruct (Ascii.eqb "`" a) eqn:Ea; [done|].
  cbn [skip_space]. destruct (Re.space a) eqn:Hs.
  - apply IH.
    + by destruct (find_char "`" c).
    + destruct c as [|b c]; [|done]. cbn in Hend. by rewrite Hs in Hend.
  - cbn [strip_prefix]. by rewrite Ea.
Qed.

Lemma lazy_len_contents c : forall tail n,
  find_char "`" c = None -> (c = "" \/ solid_end c = true) ->
  close_len tail = Some n ->
  lazy_len (c +:+ tail) = Some (String.length c, n).
Proof.
  induction c as [|a c IH]; intros tail n Htick Hend Htail.
  - rewrite append_nil. destruct tail; cbn [lazy_len]; by rewrite Htail.
  - destruct Hend as [|Hend]; [done|].
    rewrite append_cons. cbn [lazy_len].
    assert (Hclose : close_len (String a (c +:+ tail)) = None).
    { unfold close_len. rewrite <- append_cons.
      by rewrite (close_len_inside (String a c) tail Htick Hend). }
    rewrite Hclose. cbn [find_char] in Htick.
    destruct (Ascii.eqb "`" a); [done|].
    rewrite (IH tail n); [done| | |done].
    + by destruct (find_char "`" c).
    + destruct c as [|b c]; [by left|by right].
Qed.

Lemma substring_all c : forall tail, substring 0 (String.length c) (c +:+ tail) = c.
Proof.
  induction c as [|a c IH]; intros tail.
  - by destruct tail.
  - rewrite append_cons. cbn. by rewrite IH.
Qed.

Lemma length_app (a b : string) :
  String.length (a +:+ b) = String.length a + String.length b.
Proof. induction a as [|c a IH]; [done|]. rewrite append_cons. cbn. by rewrite IH. Qed.

Lemma append_assoc (a b c : string) : (a +:+ b) +:+ c = a +:+ (b +:+ c).
Proof. induction a as [|d a IH]; [done|]. rewrite !append_cons. by rewrite IH. Qed.

Lemma fence_candidate_contents ws1 c ws2 rest :
  all_space ws1 = true -> all_space ws2 = true ->
  solid_start c = true -> solid_end c = true -> find_char "`" c = None ->
  fence_candidate ("```json" +:+ ws1 +:+ c +:+ ws2 +:+ "```" +:+ rest) = Some c.
Proof.
  intros H1 H2 Hstart Hend Htick.
  unfold fence_candidate, fence_match.
  change (strip_prefix "```json" ("```json" +:+ ws1 +:+ c +:+ ws2 +:+ "```" +:+ rest))
    with (Some (ws1 +:+ c +:+ ws2 +:+ "```" +:+ rest)).
  cbv beta iota.
  rewrite (skip_space_all _ _ H1), (count_space_all _ _ H1).
  assert (Hc : solid_start (c +:+ ws2 +:+ "```" +:+ rest) = true).
  { destruct c; [done|]. by rewrite append_cons. }
  rewrite (skip_space_solid _ Hc), (count_space_solid _ Hc).
  rewrite (lazy_len_contents c _ (String.length ws2 + 3) Htick (or_intror Hend)
             (close_len_fence ws2 rest H2)).
  assert (Hsub : substring (7 + (String.length ws1 + 0)) (String.length c)
                   ("```json" +:+ ws1 +:+ c +:+ ws2 +:+ "```" +:+ rest) = c).
  { replace (7 + (String.length ws1 + 0))
      with (String.length ("```json" +:+ ws1) + 0) by (rewrite length_app; cbn; lia).
    rewrite <- (append_assoc "```json" ws1), substring_skip. apply substring_all. }
  cbv zeta. rewrite Hsub.
  destruct (String.eqb_spec c ""); [by subst c|done].
Qed.

Lemma rfind_char_last c body : forall post,
  rfind_char c post = None ->
  rfind_char c (body +:+ String c post) = Some (String.length body).
Proof.
  induction body as [|d body IH]; intros post Hpost.
  - rewrite append_nil. cbn [rfind_char]. rewrite Hpost. by rewrite Ascii.eqb_refl.
  - rewrite append_cons. cbn [rfind_char String.length]. by rewrite IH.
Qed.

Lemma first_fence_none_before_brace pre : forall s c,
  find_char "{" pre = None -> find_char "`" pre = None ->
  fence_candidate s = None -> brace_candidate s = Some c ->
  first_fence (pre +:+ s) = None.
Proof.
  induction pre as [|d pre IH]; intros s c Hbrace Htick Hf Hc.
  - rewrite append_nil. destruct s; cbn [first_fence]; by rewrite Hf, Hc.
  - rewrite append_cons. cbn [find_char] in Hbrace, Htick.
    destruct (Ascii.eqb "{" d) eqn:Eb; [done|].
    destruct (Ascii.eqb "`" d) eqn:Et; [done|].
    cbn [first_fence brace_candidate]. rewrite Eb, (fence_candidate_other _ _ Et).
    apply (IH s c); [by destruct (find_char "{" pre)|by destruct (find_char "`" pre)|done|done].
Qed.

Lemma first_fence_no_backtick s : find_char "`" s = None -> first_fence s = None.
Proof.
  induction s as [|d s IH]; [done|]. cbn [find_char].
  destruct (Ascii.eqb "`" d) eqn:Et; [done|]. intros Hs.
  cbn [first_fence]. rewrite (fence_candidate_other _ _ Et).
  destruct (brace_candidate (String d s)); [done|].
  apply IH. by destruct (find_char "`" s).
Qed.

Section Shapes.
Context `{Python}.

(** X2: A response that is prose without braces or backticks, then a fence
    labelled [json], is decoded from the contents of the fence with the
    blank space around them removed, whatever follows the fence; when they
    do not decode, from the first brace to the last. *)
Theorem fenced_response_decodes_contents pre ws1 c ws2 rest :
  find_char "{" pre = None -> find_char "`" pre = None ->
  all_space ws1 = true -> all_space ws2 = true ->
  solid_start c = true -> solid_end c = true -> find_char "`" c = None ->
  let text := pre +:+ "```json" +:+ ws1 +:+ c +:+ ws2 +:+ "```" +:+ rest in
  safe_json_parse text = loads_or c (brace_fallback text)
  /\ (forall v, json_loads c = Ret v -> safe_json_parse text = Ret v).
Proof.
  intros Hbrace Htick H1 H2 Hstart Hend Hc text.
  assert (E : safe_json_parse text = loads_or c (brace_fallback text)).
  { rewrite safe_json_parse_two_attempts. unfold text.
    by rewrite (first_fence_after_prose pre _ c Hbrace Htick
                  (fence_candidate_contents ws1 c ws2 rest H1 H2 Hstart Hend Hc)). }
  split; [done|]. intros v Hv. rewrite E. unfold loads_or. by rewrite Hv.
Qed.

(** X3: A response that is one pair of braces with prose around it (no brace
    and no backtick before, no closing brace after) is decoded from the
    opening brace to the closing one, once; when that does not decode,
    the result is [None]. *)
Theorem bare_object_decoded_whole pre body post :
  find_char "{" pre = None -> find_char "`" pre = None ->
  rfind_char "}" post = None ->
  safe_json_parse (pre +:+ "{" +:+ body +:+ "}" +:+ post)
  = loads_or ("{" +:+ body +:+ "}") (Ret VNone).
Proof.
  intros Hbrace Htick Hpost.
  set (s := "{" +:+ body +:+ "}" +:+ post).
  assert (Hc : brace_candidate s = Some ("{" +:+ body +:+ "}")).
  { unfold s. rewrite append_cons, append_nil. cbn [brace_candidate].
    change ("}" +:+ post) with (String "}" post).
    rewrite Ascii.eqb_refl, (rfind_char_last _ body post Hpost). f_equal.
    unfold str_prefix.
    replace (String.length body + 2) with (String.length (String "{" (body +:+ "}")))
      by (cbn; rewrite length_app; cbn; lia).
    change (String "{" (body +:+ String "}" post))
      with (String "{" body +:+ String "}" post).
    replace (String "{" body +:+ String "}" post)
      with ((String "{" (body +:+ "}")) +:+ post).
    2:{ rewrite !append_cons. f_equal. rewrite append_assoc. done. }
    rewrite substring_all. by rewrite append_cons, append_nil. }
  assert (Hf : fence_candidate s = None) by (by apply fence_candidate_other).
  rewrite safe_json_parse_two_attempts.
  rewrite (first_fence_none_before_brace pre s _ Hbrace Htick Hf Hc).
  exact (brace_fallback_candidate pre s _ Hbrace Hc).
Qed.

(** X4: A response with no backtick in which no closing brace comes after the
    first opening brace gives nothing to decode: [safe_json_parse] returns
    [None] and the parser answers that it could not parse. *)
Theorem no_structure_could_not_parse text :
  text <> "" -> find_char "`" text = None -> first_to_last text = None ->
  attempts text = []
  /\ safe_json_parse text = Ret VNone
  /\ parse_llm_response (Some text)
     = parse_failure "Could not parse LLM response as JSON.".
Proof.
  intros Htext Htick Hbraces.
  assert (Ha : attempts text = []).
  { unfold attempts. by rewrite (first_fence_no_backtick _ Htick), Hbraces. }
  assert (Hp : safe_json_parse text = Ret VNone).
  { by rewrite safe_json_parse_attempts, Ha. }
  split; [done|]. split; [done|].
  by apply (parse_llm_response_falsy text VNone).
Qed.
End Shapes.

Section AttributeErrors.
Context `{Python}.

(** X5: What the parser makes of its own exceptions.  A decoded value that is
    truthy and no mapping has no [get]; an action type that is no string
    has no [lower]; the decoder may raise something other than a decode
    error.  Each is caught by the [try] of the parser and returned as
    [Error parsing LLM response: ...] with the text of the exception. *)
Theorem parser_reports_its_exceptions text :
  text <> "" ->
  (forall v, safe_json_parse text = Ret v -> truthy v = true ->
     (forall kvs, v <> VDict kvs) ->
     parse_llm_response (Some text)
     = parse_failure ("Error parsing LLM response: '" +:+ type_name v
                        +:+ "' object has no attribute 'get'"))
  /\ (forall parsed a ty,
        safe_json_parse text = Ret (VDict parsed) -> parsed <> [] ->
        dict_get "action" parsed (VDict []) = VDict a ->
        dict_lookup "type" a = Some ty -> (forall s, ty <> VStr s) ->
        parse_llm_response (Some text)
        = parse_failure ("Error parsing LLM response: '" +:+ type_name ty
                           +:+ "' object has no attribute 'lower'"))
  /\ (forall e, safe_json_parse text = Raise e ->
        parse_llm_response (Some text)
        = parse_failure ("Error parsing LLM response: " +:+ exn_str e)).
Proof.
  intros Htext. unfold parse_llm_response.
  destruct (String.eqb_spec text ""); [done|]. unfold parse_body.
  split; [|split].
  - intros v Hv Ht Hnd. rewrite Hv. cbn [mbind py_bind]. rewrite Ht. cbn [negb].
    destruct v; try done. by destruct (Hnd kvs).
  - intros parsed a ty Hp Hne Ha Hty Hns. rewrite Hp. cbn [mbind py_bind truthy].
    destruct parsed as [|kv parsed]; [done|]. cbn [negb value_get]. rewrite Ha.
    cbn [mbind py_bind]. unfold dict_contains. rewrite Hty. cbn [negb].
    replace (dict_get "type" a (VStr "")) with ty by (unfold dict_get; by rewrite Hty).
    destruct ty; try done. by destruct (Hns s).
  - intros e He. by rewrite He.
Qed.
End AttributeErrors.

(** ** What an accepted response puts on the page *)

Section PageOnly.
Context `{Python} `{Pandas} `{!Plotly} `{Streamlit}.
Variable P : event -> Prop.

Lemma adds_scatter_loop axes df :
  steps (adds P) (scatter_loop axes df) (fun _ => True).
Proof.
  induction axes as [|[col name] rest IH]; simpl.
  - apply steps_ret; [adds_side|done].
  - repeat adds_step; done.
Qed.

Lemma adds_summarize_loop cols df :
  steps (adds P) (summarize_loop cols df) (fun _ => True).
Proof.
  induction cols as [|col rest IH]; simpl.
  - apply steps_ret; [adds_side|done].
  - repeat adds_step; done.
Qed.

(** The preparer puts nothing on the page. *)
Lemma adds_prepare df action :
  steps (adds P) (prepare_data_for_visualization df action) (fun _ => True).
Proof.
  unfold prepare_data_for_visualization, prepare_body.
  repeat adds_step; try done.
  - unfold prepare_histogram. repeat adds_step; done.
  - unfold prepare_bar. repeat adds_step; done.
  - unfold prepare_scatter, some_missing, report_missing.
    repeat adds_step; try done. all: apply adds_scatter_loop.
  - unfold prepare_line, some_missing, report_missing.
    repeat adds_step; done.
  - unfold prepare_summarize. repeat adds_step. apply adds_summarize_loop.
Qed.
End PageOnly.

Section NoChart.
Context `{Python} `{Pandas} `{!Plotly} `{Streamlit}.

Lemma no_chart_show e : no_chart e -> steps (adds no_chart) (show e) (fun _ => True).
Proof. apply steps_show. Qed.

Lemma no_chart_narrow op filter_col filter_val l :
  steps (adds no_chart) (narrow op filter_col filter_val l) (fun _ => True).
Proof. unfold narrow. repeat adds_step; done. Qed.

Lemma no_chart_apply_condition filter_col filter_val operator l :
  steps (adds no_chart) (apply_condition filter_col filter_val operator l) (fun _ => True).
Proof.
  unfold apply_condition. apply steps_seq; [adds_side| |intros next].
  - repeat case_match; first [apply no_chart_narrow | by apply steps_ret; [adds_side|]].
  - apply steps_seq; [adds_side|by apply no_chart_show|intros _].
    by apply steps_ret; [adds_side|].
Qed.

Lemma no_chart_filter_loop conditions : forall l,
  steps (adds no_chart) (filter_loop conditions l) (fun _ => True).
Proof.
  induction conditions as [|condition rest IH]; intros l; simpl.
  - by apply steps_ret; [adds_side|].
  - apply steps_seq; [adds_side|by apply steps_lift; [adds_side|]|intros filter_col].
    apply steps_seq; [adds_side|by apply steps_lift; [adds_side|]|intros filter_val].
    apply steps_seq; [adds_side|by apply steps_lift; [adds_side|]|intros operator].
    apply steps_seq; [adds_side|apply steps_contains; adds_side|intros there].
    destruct (negb there).
    { apply steps_seq; [adds_side|by apply no_chart_show|intros _].
      by apply steps_ret; [adds_side|]. }
    apply steps_seq; [adds_side| |].
    + apply steps_catch; [adds_side| |intros e].
      * apply steps_seq; [adds_side|apply no_chart_apply_condition|intros ?].
        by apply steps_ret; [adds_side|].
      * apply steps_seq; [adds_side|by apply no_chart_show|intros _].
        by apply steps_ret; [adds_side|].
    + intros [l1|]; [apply IH|by apply steps_ret; [adds_side|]].
Qed.

Lemma no_chart_apply_filters filter_conditions l :
  steps (adds no_chart) (apply_filters filter_conditions l) (fun _ => True).
Proof.
  unfold apply_filters. destruct (truthy filter_conditions).
  - apply steps_seq; [adds_side|by apply steps_lift; [adds_side|]|intros conditions].
    apply no_chart_filter_loop.
  - by apply steps_ret; [adds_side|].
Qed.

Lemma no_chart_run_summary l action description :
  steps (adds no_chart) (run_summary l action description) (fun _ => True).
Proof.
  unfold run_summary. apply steps_seq; [adds_side|by apply steps_read; [adds_side|]|intros d].
  destruct (generate_summary_statistics d action) as [summary_df error].
  destruct (error_set error); by apply no_chart_show.
Qed.

(** The chart producer on an action whose type reads [summarize] once
    lowered. *)
Lemma generate_visualization_summarize d action description r :
  value_lower (dict_get "type" action (VStr "")) = Ret "summarize" ->
  generate_visualization d action description = Ret r ->
  r = (None, Some "Visualization type 'summarize' not supported.").
Proof.
  intros Ht. unfold generate_visualization. rewrite Ht. cbn [mbind py_bind].
  by intros [= <-].
Qed.

Lemma no_chart_run_chart l action description :
  value_lower (dict_get "type" action (VStr "")) = Ret "summarize" ->
  steps (adds no_chart) (run_chart l action description) (fun _ => True).
Proof.
  intros Ht. unfold run_chart.
  apply steps_seq; [adds_side|apply adds_prepare|intros [prepared_df error]].
  destruct (error_set error); [by apply no_chart_show|].
  eapply steps_bind with
    (P := fun r => r = (None, Some "Visualization type 'summarize' not supported."));
    [adds_side| |].
  - destruct prepared_df as [prepared|]; [|by apply steps_lift; [adds_side|]].
    apply steps_seq; [adds_side|by apply steps_read; [adds_side|]|intros d].
    apply steps_lift; [adds_side|]. intros r.
    by apply generate_visualization_summarize.
  - intros r' ->. cbn [error_set String.eqb]. by apply no_chart_show.
Qed.

Lemma no_chart_dispatch l a t description :
  dict_lookup "type" a = Some (VStr t) -> str_lower t = "summarize" ->
  steps (adds no_chart) (dispatch l a description) (fun _ => True).
Proof.
  intros Ht Hl. unfold dispatch.
  apply steps_seq; [adds_side|by apply steps_lift; [adds_side|]|intros []].
  - apply no_chart_run_summary.
  - apply no_chart_run_chart. unfold dict_get. rewrite Ht. cbn [value_lower]. by rewrite Hl.
Qed.

(** X6: A response the parser accepts never puts a chart on the page: after
    the reports of the filters the run ends in a summary or in an error.
    Charts come from the manual builder only. *)
Theorem accepted_response_never_renders_chart
        df llm_provider query text w w' r :
  query <> "" ->
  (parse_llm_response (Some text)).2 = None ->
  main_loaded df llm_provider query (Some text) w = (w', r) ->
  exists events, page w' = page w ++ events /\ Forall no_chart events.
Proof.
  intros Hq Hacc. unfold main_loaded.
  destruct (String.eqb_spec query ""); [done|]. cbn [negb].
  assert (Htext : String.eqb text "" = false).
  { destruct (String.eqb_spec text "") as [->|]; [|done]. by cbn in Hacc. }
  rewrite Htext. cbn [negb]. unfold answer.
  destruct (parse_llm_response (Some text))
    as [[[action description] filter_conditions] error] eqn:Hparse.
  cbn in Hacc. subst error. cbn [error_set].
  assert (Ha : exists a t, action = VDict a /\ dict_lookup "type" a = Some (VStr t)
                           /\ str_lower t = "summarize").
  { unfold parse_llm_response in Hparse. rewrite Htext in Hparse.
    destruct (parse_body text) as [res|e] eqn:Hb; cbn [try_except] in Hparse; [|done].
    subst res. by apply (parse_body_accepts text action description filter_conditions). }
  destruct Ha as (a & t & -> & Ht & Hl).
  change (mret (Some (VDict a, description)) ≫= ?k) with (k (Some (VDict a, description))).
  cbv beta iota. intros Hrun.
  assert (Hsteps : steps (adds no_chart)
            (filtered_df ← copy df;
             narrowed ← apply_filters filter_conditions filtered_df;
             match narrowed with
             | None => mret ()
             | Some filtered_df => dispatch_value filtered_df (VDict a) description
             end) (fun _ => True)).
  { apply steps_seq; [adds_side|apply steps_copy; adds_side|intros filtered_df].
    apply steps_seq; [adds_side|apply no_chart_apply_filters|intros [l|]].
    - cbn [dispatch_value]. by apply (no_chart_dispatch l a t).
    - by apply steps_ret; [adds_side|]. }
  by destruct (Hsteps w w' r Hrun).
Qed.
End NoChart.

Section Escapes.
Context `{Python} `{Pandas} `{!Plotly} `{Streamlit}.


End Escapes.

(** ** What the preparer leaves of the frame *)

Section Shape.
Context `{Python} `{Pandas} `{!Plotly}.
Variable touched : list value.
Variable df : loc.

Lemma same_shape_refl d : same_shape touched d d.
Proof. by repeat split. Qed.

Lemma same_shape_trans d1 d2 d3 :
  same_shape touched d1 d2 -> same_shape touched d2 d3 -> same_shape touched d1 d3.
Proof.
  intros (C1 & L1 & K1) (C2 & L2 & K2). repeat split; [congruence|congruence|].
  intros c Hc. by rewrite K2, K1.
Qed.

Lemma shape_refl w : shape_kept touched df w w.
Proof.
  split; [done|]. split; [done|].
  destruct (frames w !! df) as [d|] eqn:E; [|done].
  exists d. split; [done|apply same_shape_refl].
Qed.

Lemma shape_trans w1 w2 w3 :
  shape_kept touched df w1 w2 -> shape_kept touched df w2 w3 ->
  shape_kept touched df w1 w3.
Proof.
  intros (P1 & O1 & F1) (P2 & O2 & F2).
  split; [congruence|]. split; [intros l Hl; by rewrite O2, O1|].
  destruct (frames w1 !! df) as [d1|].
  - destruct F1 as (d2 & E2 & S12). rewrite E2 in F2.
    destruct F2 as (d3 & E3 & S23). exists d3. split; [done|].
    by eapply same_shape_trans.
  - by rewrite F1 in F2.
Qed.

Lemma lookup_assign_ne c col s data :
  c <> col ->
  lookup_column c (assign_column col s data) = lookup_column c data.
Proof.
  intros Hne. induction data as [|[c0 s0] data IH]; simpl.
  - by destruct (String.eqb_spec c col).
  - destruct (String.eqb_spec col c0) as [->|]; simpl.
    + by destruct (String.eqb_spec c c0).
    + by rewrite IH.
Qed.

Lemma lookup_column_has data col s :
  lookup_column col data = Some s -> existsb (String.eqb col) data.*1 = true.
Proof.
  induction data as [|[c0 s0] data IH]; simpl; [done|].
  destruct (String.eqb col c0); [done|]. apply IH.
Qed.

(** The conversion of a column changes that column only. *)
Lemma shape_try_convert convert col :
  col ∈ touched ->
  steps (shape_kept touched df) (try_convert convert col df) (fun _ => True).
Proof.
  intros Hin w w' r.
  unfold try_convert, catch, getitem, setitem, read, write, lift, mbind, M_bind,
    mret, M_ret.
  destruct (frames w !! df) as [d|] eqn:Hd.
  2:{ intros [= <- <-]. split; [apply shape_refl|done]. }
  destruct (get_column col d) as [s|e] eqn:Hs.
  2:{ intros [= <- <-]. split; [apply shape_refl|done]. }
  destruct (convert s) as [s'|e].
  2:{ intros [= <- <-]. split; [apply shape_refl|done]. }
  rewrite Hd.
  destruct col as [|b|n|lit|c|xs|kvs]; try done. cbn [get_column] in Hs.
  destruct (lookup_column c (df_data d)) as [s0|] eqn:Hc; [|done].
  intros [= <- <-]. split; [|done].
  split; [done|]. split; [intros l Hl; by apply lookup_insert_ne|].
  cbn. rewrite Hd. exists (set_column c s' d).
  split; [apply lookup_insert_eq|].
  split; [|split; [done|]].
  - unfold columns, set_column. cbn. apply columns_assign.
    by eapply lookup_column_has.
  - intros c0 Hc0. cbn. apply lookup_assign_ne. intros ->. done.
Qed.
End Shape.

Ltac shape_side := first [ exact (shape_refl _ _) | exact (shape_trans _ _) ].
Ltac shape_special :=
  apply shape_try_convert;
  solve [ repeat first [ apply list_elem_of_here | apply list_elem_of_further ] ].
Ltac shape_step := steps_step ltac:(shape_side) ltac:(shape_special).

Section PrepareShape.
Context `{Python} `{Pandas} `{!Plotly}.

Lemma shape_scatter_loop touched df axes :
  Forall (fun a => a.1 ∈ touched) axes ->
  steps (shape_kept touched df) (scatter_loop axes df) (fun _ => True).
Proof.
  induction axes as [|[col name] rest IH]; intros Hall; simpl.
  - apply steps_ret; [shape_side|done].
  - apply Forall_cons in Hall as [Hcol Hrest]. specialize (IH Hrest). simpl in Hcol.
    apply steps_seq; [shape_side|apply steps_getitem; shape_side|intros s].
    destruct (negb _); [|done].
    apply steps_seq; [shape_side|by apply shape_try_convert|intros ok].
    destruct ok; [done|]. by apply steps_ret; [shape_side|].
Qed.

Lemma shape_summarize_loop touched df cols :
  steps (shape_kept touched df) (summarize_loop cols df) (fun _ => True).
Proof.
  induction cols as [|col rest IH]; simpl.
  - apply steps_ret; [shape_side|done].
  - repeat shape_step; done.
Qed.

Lemma shape_prepare df action :
  steps (shape_kept (named action) df)
        (prepare_data_for_visualization df action) (fun _ => True).
Proof.
  unfold prepare_data_for_visualization, prepare_body.
  repeat shape_step; try done.
  - unfold prepare_histogram, named. repeat shape_step; done.
  - unfold prepare_bar, named. repeat shape_step; done.
  - unfold prepare_scatter, some_missing, report_missing, named.
    repeat shape_step; try done.
    all: apply shape_scatter_loop; repeat constructor; cbn;
      repeat first [ apply list_elem_of_here | apply list_elem_of_further ].
  - unfold prepare_line, some_missing, report_missing, named.
    repeat shape_step; done.
  - unfold prepare_summarize. repeat shape_step. apply shape_summarize_loop.
Qed.

(** X8: Whatever the action and whatever it returns, the preparer leaves the
    page and every other object as they were, and the frame it is given
    keeps its labels, their order and its length; a column is replaced
    only if the action names it as [column], [x] or [y]. *)
Theorem prepare_keeps_shape w df d action w' r :
  frames w !! df = Some d ->
  prepare_data_for_visualization df action w = (w', r) ->
  page w' = page w
  /\ (forall l, l <> df -> frames w' !! l = frames w !! l)
  /\ exists d',
       frames w' !! df = Some d'
       /\ columns d' = columns d /\ df_len d' = df_len d
       /\ forall c, VStr c ∉ named action ->
            lookup_column c (df_data d') = lookup_column c (df_data d).
Proof.
  intros Hd Hrun. destruct (shape_prepare df action w w' r Hrun) as [(Hp & Ho & Hf) _].
  rewrite Hd in Hf. destruct Hf as (d' & Hd' & Hs).
  split; [done|]. split; [done|]. by exists d'.
Qed.
End PrepareShape.

(** ** Filters in another order *)



Section Order.
Context `{Python} `{Pandas} `{!Plotly}.
Variable sat : comparison -> value -> cell -> bool.
Hypothesis compare_pointwise :
  forall op s v mask, compare op s v = Ret mask -> mask = sat op v <$> s_values s.



End Order.

(** ** The columns that hold times *)

Section Detect.
Context `{Python} `{Pandas} `{!Plotly}.

Lemma detect_time_loop_sublist data : sublist (detect_time_loop data) data.*1.
Proof.
  induction data as [|[col s] rest IH]; [done|]. cbn [detect_time_loop fmap list_fmap fst].
  repeat case_match; first [by apply sublist_cons | by apply sublist_skip].
Qed.

Lemma detect_time_loop_elem data c :
  c ∈ detect_time_loop data ->
  exists s, (c, s) ∈ data
            /\ (is_object_dtype (s_dtype s) = true \/ is_string_dtype (s_dtype s) = true)
            /\ sample_of s <> []
            /\ exists u, to_datetime_raise (sample_of s) = Ret u.
Proof.
  induction data as [|[col s] rest IH]; cbn [detect_time_loop].
  { by intros ?%elem_of_nil. }
  assert (Hrest : c ∈ detect_time_loop rest ->
                  exists s0, (c, s0) ∈ (col, s) :: rest
            /\ (is_object_dtype (s_dtype s0) = true \/ is_string_dtype (s_dtype s0) = true)
            /\ sample_of s0 <> []
            /\ exists u, to_datetime_raise (sample_of s0) = Ret u).
  { intros Hc. destruct (IH Hc) as (s0 & Hin & ?). exists s0. split; [by right|done]. }
  destruct (negb (is_object_dtype (s_dtype s)) && negb (is_string_dtype (s_dtype s)))
    eqn:Hdt; [done|].
  destruct (length (sample_of s) =? 0)%nat eqn:Hlen; [done|].
  destruct (to_datetime_raise (sample_of s)) as [u|e] eqn:Hparse; [|done].
  intros [->|Hc]%elem_of_cons; [|by apply Hrest].
  exists s. split; [by left|]. split; [|split; [|by exists u]].
  - apply andb_false_iff in Hdt as [E|E]; apply negb_false_iff in E; auto.
  - intros E. by rewrite E in Hlen.
Qed.

Lemma detect_time_loop_intro data c s u :
  (c, s) ∈ data ->
  is_object_dtype (s_dtype s) = true \/ is_string_dtype (s_dtype s) = true ->
  sample_of s <> [] -> to_datetime_raise (sample_of s) = Ret u ->
  c ∈ detect_time_loop data.
Proof.
  intros Hin Hdt Hne Hparse. induction data as [|[c0 s0] rest IH].
  { by apply elem_of_nil in Hin. }
  cbn [detect_time_loop].
  apply elem_of_cons in Hin as [[= <- <-]|Hin].
  - assert (E : negb (is_object_dtype (s_dtype s)) && negb (is_string_dtype (s_dtype s))
                = false).
    { destruct Hdt as [-> | ->]; [done|]. apply andb_false_r. }
    rewrite E. destruct (sample_of s) eqn:Es; [done|]. cbn [length Nat.eqb].
    rewrite Hparse. by left.
  - specialize (IH Hin). repeat case_match; first [done | by right].
Qed.

Lemma detect_time_loop_sample data1 c s s' data2 :
  s_dtype s = s_dtype s' -> sample_of s = sample_of s' ->
  detect_time_loop (data1 ++ (c, s) :: data2)
  = detect_time_loop (data1 ++ (c, s') :: data2).
Proof.
  intros Hdt Hsample. induction data1 as [|[c0 s0] data1 IH].
  - cbn [app detect_time_loop]. by rewrite Hdt, Hsample.
  - cbn [app detect_time_loop]. by rewrite IH.
Qed.

Lemma sample_of_solid s :
  length (sample_of s) <= 10 /\ Forall (fun x => isna x = false) (sample_of s).
Proof.
  unfold sample_of. split.
  - rewrite length_take. lia.
  - apply Forall_take. apply Forall_forall. intros x Hx.
    apply list_elem_of_In, filter_In in Hx as [_ Hx]. by apply negb_true_iff.
Qed.

(** X10: The time columns are labels of the dataset, in its order.  Each is a
    column of dtype object or string that has a value which is not
    missing and whose first ten such values parse as dates; no other cell
    is looked at: a column with the same dtype and the same first ten
    values that are not missing is detected the same. *)
Theorem detect_time_columns_looks_at_first_ten d :
  sublist (detect_time_columns d) (columns d)
  /\ (forall c, c ∈ detect_time_columns d <->
        exists s, (c, s) ∈ df_data d
          /\ (is_object_dtype (s_dtype s) = true \/ is_string_dtype (s_dtype s) = true)
          /\ sample_of s <> []
          /\ exists u, to_datetime_raise (sample_of s) = Ret u)
  /\ (forall data1 c s s' data2,
        df_data d = data1 ++ (c, s) :: data2 ->
        s_dtype s = s_dtype s' -> sample_of s = sample_of s' ->
        detect_time_columns (MkFrame (df_len d) (data1 ++ (c, s') :: data2))
        = detect_time_columns d)
  /\ (forall s, length (sample_of s) <= 10
                /\ Forall (fun x => isna x = false) (sample_of s)).
Proof.
  split; [apply detect_time_loop_sublist|].
  split.
  { intros c. split; [apply detect_time_loop_elem|].
    intros (s & Hin & Hdt & Hne & u & Hu). by apply (detect_time_loop_intro _ c s u). }
  split; [|apply sample_of_solid].
  intros data1 c s s' data2 Hd Hdt Hsample. unfold detect_time_columns. cbn [df_data].
  rewrite Hd. symmetry. by apply detect_time_loop_sample.
Qed.
End Detect.

(** ** The columns the builder names *)

Section BuilderColumns.
Context `{Python} `{Pandas} `{!Plotly} `{Streamlit}.

Lemma has_column_elem d c : has_column d c = true <-> c ∈ columns d.
Proof.
  unfold has_column. rewrite existsb_exists. split.
  - intros (x & Hx & ->%String.eqb_eq). by apply list_elem_of_In.
  - intros Hc. exists c. split; [by apply list_elem_of_In|apply String.eqb_refl].
Qed.

Lemma numeric_columns_sublist d : sublist (numeric_columns d) (columns d).
Proof.
  unfold numeric_columns, columns. induction (df_data d) as [|[c s] data IH]; [done|].
  cbn. destruct (is_numeric_dtype (s_dtype s)); cbn;
    [by apply sublist_skip|by apply sublist_cons].
Qed.

Lemma numeric_columns_elem d c : c ∈ numeric_columns d -> c ∈ columns d.
Proof. apply (sublist_subseteq _ _ (numeric_columns_sublist d)). Qed.

Lemma detect_time_columns_elem d c : c ∈ detect_time_columns d -> c ∈ columns d.
Proof. apply (sublist_subseteq _ _ (detect_time_loop_sublist (df_data d))). Qed.

(** Among two or more labels without repetition there is one other than
    [x]. *)
Lemma other_label (x : value) (l : list string) :
  NoDup l -> 2 <= length l ->
  List.filter (fun col => negb (eq_str x col)) l <> [].
Proof.
  intros Hnd Hlen. destruct l as [|a [|b l]]; simpl in Hlen; try lia.
  apply NoDup_cons in Hnd as [Hab _].
  assert (a <> b) by (intros ->; apply Hab; by left).
  cbn [List.filter]. destruct x; cbn [eq_str negb]; try done.
  destruct (String.eqb_spec s a) as [->|]; cbn [negb]; [|done].
  destruct (String.eqb_spec a b); cbn [negb]; done.
Qed.

Lemma filter_elem {A} (p : A -> bool) (l : list A) (x : A) :
  x ∈ List.filter p l -> x ∈ l.
Proof. intros Hx. apply list_elem_of_In. apply list_elem_of_In, filter_In in Hx. tauto. Qed.

(** The user picks an option of the box they are shown. *)
Hypothesis selectbox_picks : forall label options,
  label <> "Visualization Type" -> options <> [] ->
  exists o, o ∈ options /\ selectbox label options = VStr o.
Hypothesis multiselect_picks : forall label options default o,
  (forall x, x ∈ default -> x ∈ options) ->
  o ∈ multiselect label options default -> o ∈ options.

Lemma pick_label d label options :
  label <> "Visualization Type" -> options <> [] ->
  (forall o, o ∈ options -> o ∈ columns d) ->
  labels_of d (selectbox label options).
Proof.
  intros Hl Hne Hsub. destruct (selectbox_picks label options Hl Hne) as (o & Ho & ->).
  exists o. split; [done|]. by apply has_column_elem, Hsub.
Qed.

(** X11: On a dataset that has columns, with no label twice, every column the
    manual builder puts into an action is a column of the dataset: the
    [column], [x] and [y] of a chart, and the [columns] of a summary. *)
Theorem builder_names_existing_columns w df d viz_type :
  frames w !! df = Some d -> columns d <> [] -> NoDup (columns d) ->
  selectbox "Visualization Type" viz_types = VStr viz_type ->
  exists w' action description,
    create_action_from_ui df w = (w', Ret (action, description))
    /\ forall a, action = VDict a ->
         (forall k v, k ∈ ["column"; "x"; "y"] -> dict_lookup k a = Some v ->
                      labels_of d v)
         /\ (forall v, dict_lookup "columns" a = Some v ->
               exists names, v = VList (VStr <$> names)
                             /\ Forall (fun c => has_column d c = true) names).
Proof.
  intros Hd Hne Hnd Hviz. unfold create_action_from_ui.
  unfold mbind at 1, M_bind at 1, show at 1. cbv beta iota.
  rewrite Hviz.
  set (w1 := MkWorld (frames w) (page w ++ [StMarkdown "### Select Visualization Type"])).
  assert (Hd1 : frames w1 !! df = Some d) by done.
  rewrite (bind_ret _ _ _ _ _ (read_eval _ _ _ Hd1)).
  assert (Hall : forall o, o ∈ columns d -> o ∈ columns d) by done.
  destruct (eq_str (VStr viz_type) "histogram") eqn:E1.
  { eexists _, _, _. split; [reflexivity|]. intros a [= <-]. split.
    - intros k v Hk. cbn. repeat (apply elem_of_cons in Hk as [->|Hk]); cbn;
        try (by apply elem_of_nil in Hk); try done.
      intros [= <-]. destruct (numeric_columns d) eqn:En.
      + by apply pick_label.
      + rewrite <- En. apply pick_label; [done|by rewrite En|apply numeric_columns_elem].
    - cbn. done. }
  destruct (eq_str (VStr viz_type) "bar") eqn:E2.
  { assert (Hx : labels_of d (selectbox "Select X (Category) Column" (columns d))).
    { by apply pick_label. }
    destruct (checkbox "Use Y Value (instead of count)" false
              && match numeric_columns d with [] => false | _ => true end) eqn:Ey.
    - eexists _, _, _. split; [reflexivity|]. intros a [= <-]. split.
      + intros k v Hk. cbn. repeat (apply elem_of_cons in Hk as [->|Hk]); cbn;
          try (by apply elem_of_nil in Hk); try done.
        * by intros [= <-].
        * intros [= <-]. apply pick_label; [done| |apply numeric_columns_elem].
          apply andb_true_iff in Ey as [_ Ey]. by destruct (numeric_columns d).
      + cbn. done.
    - eexists _, _, _. split; [reflexivity|]. intros a [= <-]. split.
      + intros k v Hk. cbn. repeat (apply elem_of_cons in Hk as [->|Hk]); cbn;
          try (by apply elem_of_nil in Hk); try done.
        by intros [= <-].
      + cbn. done. }
  destruct (eq_str (VStr viz_type) "scatter") eqn:E3.
  { destruct (2 <=? length (numeric_columns d))%nat eqn:Elen.
    - apply Nat.leb_le in Elen.
      assert (Hn : numeric_columns d <> []).
      { intros E. rewrite E in Elen. simpl in Elen. lia. }
      assert (Hndn : NoDup (numeric_columns d)).
      { eapply sublist_NoDup; [exact Hnd|apply numeric_columns_sublist]. }
      eexists _, _, _. split; [reflexivity|]. intros a [= <-]. split.
      + intros k v Hk. cbn. repeat (apply elem_of_cons in Hk as [->|Hk]); cbn;
          try (by apply elem_of_nil in Hk); try done.
        * intros [= <-]. apply pick_label; [done|done|apply numeric_columns_elem].
        * intros [= <-]. apply pick_label; [done|by apply other_label|].
          intros o Ho. by apply numeric_columns_elem, (filter_elem _ _ _ Ho).
      + cbn. done.
    - unfold mbind, M_bind, show. eexists _, _, _. split; [reflexivity|]. done. }
  destruct (eq_str (VStr viz_type) "line") eqn:E4.
  { destruct (numeric_columns d) eqn:En.
    - unfold mbind, M_bind, show. eexists _, _, _. split; [reflexivity|]. done.
    - rewrite <- En.
      assert (Hn : numeric_columns d <> []) by (by rewrite En).
      eexists _, _, _. split; [reflexivity|]. intros a [= <-]. split.
      + intros k v Hk. cbn. repeat (apply elem_of_cons in Hk as [->|Hk]); cbn;
          try (by apply elem_of_nil in Hk); try done.
        * intros [= <-]. destruct (detect_time_columns d) eqn:Et.
          -- by apply pick_label.
          -- rewrite <- Et. apply pick_label;
               [done|by rewrite Et|apply detect_time_columns_elem].
        * intros [= <-]. apply pick_label; [done|done|apply numeric_columns_elem].
      + cbn. done. }
  destruct (eq_str (VStr viz_type) "summarize") eqn:E5.
  { destruct (negb (checkbox "Summarize all columns" true)).
    - eexists _, _, _. split; [reflexivity|]. intros a [= <-]. split.
      + intros k v Hk. cbn. repeat (apply elem_of_cons in Hk as [->|Hk]); cbn;
          try (by apply elem_of_nil in Hk); done.
      + cbn. intros v [= <-]. eexists. split; [reflexivity|].
        apply Forall_forall. intros c Hc. apply has_column_elem.
        apply (multiselect_picks _ _ _ _ (sublist_subseteq _ _ (sublist_take _ _)) Hc).
    - eexists _, _, _. split; [reflexivity|]. intros a [= <-]. split.
      + intros k v Hk. cbn. repeat (apply elem_of_cons in Hk as [->|Hk]); cbn;
          try (by apply elem_of_nil in Hk); done.
      + cbn. intros v [= <-]. eexists. split; [reflexivity|].
        apply Forall_forall. intros c Hc. by apply has_column_elem. }
  eexists _, _, _. split; [reflexivity|]. intros a [= <-]. split.
  - intros k v Hk. cbn. repeat (apply elem_of_cons in Hk as [->|Hk]); cbn;
      try (by apply elem_of_nil in Hk); done.
  - cbn. done.
Qed.
End BuilderColumns.

(** ** The summary of a whole dataset *)

Section WholeSummary.
Context `{Python} `{Pandas} `{!Plotly} `{Streamlit}.

Lemma lookup_column_NoDup data c s :
  NoDup data.*1 -> (c, s) ∈ data -> lookup_column c data = Some s.
Proof.
  induction data as [|[c0 s0] data IH]; cbn; [by intros _ ?%elem_of_nil|].
  intros [Hc0 Hnd]%NoDup_cons [[= -> ->]|Hin]%elem_of_cons.
  - by rewrite String.eqb_refl.
  - destruct (String.eqb_spec c c0) as [->|]; [|by apply IH].
    exfalso. apply Hc0. apply list_elem_of_fmap. by exists (c0, s).
Qed.

Lemma summary_rows_of_columns d (l : list (string * Series)) :
  NoDup (columns d) -> (forall cs, cs ∈ l -> cs ∈ df_data d) ->
  flat_map (summary_rows d) l.*1 = (fun cs => column_stats cs.1 cs.2) <$> l.
Proof.
  intros Hnd. induction l as [|[c s] l IH]; intros Hsub; [done|].
  cbn [fmap list_fmap flat_map fst snd]. unfold summary_rows at 1.
  rewrite (lookup_column_NoDup (df_data d) c s Hnd); [|apply Hsub; by left].
  cbn [app]. f_equal. apply IH. intros cs Hcs. apply Hsub. by right.
Qed.

Lemma summary_of_all d action :
  NoDup (columns d) ->
  dict_get "columns" action (columns_tolist d) = columns_tolist d ->
  generate_summary_statistics d action = (Some (all_rows d), None).
Proof.
  intros Hnd Hcols. unfold generate_summary_statistics. rewrite Hcols.
  unfold columns_tolist. cbn [iterate]. unfold mbind at 1, py_bind.
  rewrite summary_loop_strings. cbn [app mbind py_bind try_except].
  unfold columns at 1. by rewrite (summary_rows_of_columns d (df_data d) Hnd).
Qed.

(** X12: On a dataset with no label twice, a summarize action that names no
    columns, or names them all, yields one row per column of the dataset,
    in the order of the columns, and no error. *)
Theorem summary_of_whole_dataset d action :
  NoDup (columns d) ->
  dict_lookup "columns" action = None
  \/ dict_lookup "columns" action = Some (columns_tolist d) ->
  generate_summary_statistics d action = (Some (all_rows d), None)
  /\ length (all_rows d) = length (columns d).
Proof.
  intros Hnd Hcols. split.
  - apply summary_of_all; [done|]. unfold dict_get. by destruct Hcols as [-> | ->].
  - unfold all_rows, columns. by rewrite !length_fmap.
Qed.

(** X13: The manual builder on [summarize] with every column: the page gets
    the heading of the builder and one summary table, that of the whole
    dataset; the dataset of the session is left as it was. *)
Theorem manual_summary_of_whole_dataset w df d :
  frames w !! df = Some d -> NoDup (columns d) ->
  selectbox "Visualization Type" viz_types = VStr "summarize" ->
  checkbox "Summarize all columns" true = true ->
  exists w',
    manual df w = (w', Ret ())
    /\ page w' = page w ++ [StMarkdown "### Select Visualization Type";
                            RenderSummary (Some (all_rows d))
                                          (VStr "Summary statistics for all columns")]
    /\ frames w' !! df = Some d.
Proof.
  intros Hd Hnd Hviz Hall.
  set (w1 := MkWorld (frames w) (page w ++ [StMarkdown "### Select Visualization Type"])).
  set (a := [("type", VStr "summarize"); ("columns", str_list (columns d))]).
  assert (Hd1 : frames w1 !! df = Some d) by done.
  assert (Hbuild : create_action_from_ui df w
                   = (w1, Ret (VDict a, VStr "Summary statistics for all columns"))).
  { unfold create_action_from_ui. unfold mbind at 1, M_bind at 1, show at 1.
    cbv beta iota. rewrite Hviz. fold w1.
    rewrite (bind_ret _ _ _ _ _ (read_eval _ _ _ Hd1)).
    cbn [eq_str String.eqb Ascii.eqb Bool.eqb]. rewrite Hall. done. }
  unfold manual. rewrite (bind_ret _ _ _ _ _ Hbuild). cbn [fst snd truthy a negb].
  set (l := fresh (dom (frames w1))).
  set (w2 := MkWorld (<[l := d]> (frames w1)) (page w1)).
  assert (Hcopy : copy df w1 = (w2, Ret l)).
  { unfold copy. by rewrite (bind_ret _ _ _ _ _ (read_eval _ _ _ Hd1)). }
  rewrite (bind_ret _ _ _ _ _ Hcopy).
  assert (Hl : frames w2 !! l = Some d) by apply lookup_insert_eq.
  assert (Hfresh : l <> df).
  { intros E. assert (Hin : l ∈ dom (frames w1)) by (rewrite E; by apply elem_of_dom).
    by apply is_fresh in Hin. }
  cbn [dispatch_value]. unfold dispatch.
  assert (Hroute : route_of a = Ret ToSummary) by done.
  rewrite Hroute. change (lift (Ret ToSummary) ≫= ?k) with (k ToSummary). cbv beta iota.
  unfold run_summary. rewrite (bind_ret _ _ _ _ _ (read_eval _ _ _ Hl)).
  rewrite (summary_of_all d a Hnd); [|done]. cbn [error_set].
  eexists. split; [reflexivity|]. cbn [page frames w2 w1].
  split; [by rewrite <- app_assoc|]. by rewrite lookup_insert_ne.
Qed.
End WholeSummary.

(** ** The queries *)

Section QueryFacts.
Context `{Python} `{Pandas} `{!Plotly} `{Streamlit} `{Remote}.

Lemma query_openai_outcome prompt api_key w :
  exists w' v,
    query_openai prompt api_key w = (w', Ret v)
    /\ frames w' = frames w
    /\ (page w' = page w
        \/ (v = VNone /\ exists message, page w' = page w ++ [StError message])).
Proof.
  unfold query_openai. destruct (truthy api_key); cbn [negb].
  - unfold catch, mbind, M_bind, lift, show, mret, M_ret.
    destruct (openai_content api_key prompt) as [content|e].
    + destruct (value_strip content) as [text|e].
      * eexists _, _. split; [reflexivity|]. split; [done|]. by left.
      * eexists _, _. split; [reflexivity|]. split; [done|]. right. split; [done|].
        by eexists.
    + eexists _, _. split; [reflexivity|]. split; [done|]. right. split; [done|].
      by eexists.
  - eexists _, _. split; [reflexivity|]. split; [done|]. right. split; [done|].
    by eexists.
Qed.

Lemma query_ollama_outcome prompt model host w :
  exists w' v,
    query_ollama prompt model host w = (w', Ret v)
    /\ frames w' = frames w
    /\ (page w' = page w
        \/ (v = VNone /\ exists message, page w' = page w ++ [StError message])).
Proof.
  unfold query_ollama, catch, mbind, M_bind, lift, show, mret, M_ret.
  destruct (requests_post _ model prompt) as [[status_code json]|e]; cbn [fst snd].
  - destruct (status_code =? 200)%nat.
    + destruct json as [body|e].
      * destruct (value_get body "response" (VStr "")) as [v|e].
        -- eexists _, _. split; [reflexivity|]. split; [done|]. by left.
        -- eexists _, _. split; [reflexivity|]. split; [done|]. right. split; [done|].
           by eexists.
      * eexists _, _. split; [reflexivity|]. split; [done|]. right. split; [done|].
        by eexists.
    + eexists _, _. split; [reflexivity|]. split; [done|]. right. split; [done|].
      by eexists.
  - eexists _, _. split; [reflexivity|]. split; [done|]. right. split; [done|].
    by eexists.
Qed.

(** X14: [query_llm] never raises and changes no frame.  Either it puts
    nothing on the page and returns what the service answered, or it puts
    one error on the page and returns [None]: so for a provider that is
    neither [openai] nor [ollama], for [openai] without a key, for a
    service that raises and for a status of Ollama other than 200.  A
    reply of Ollama with status 200 whose JSON object has no [response]
    is returned as the empty text, with no error. *)
Theorem query_llm_returns_answer_or_reports prompt llm_provider model host key w :
  (exists w' v,
     query_llm prompt llm_provider model host key w = (w', Ret v)
     /\ frames w' = frames w
     /\ (page w' = page w
         \/ (v = VNone /\ exists message, page w' = page w ++ [StError message])))
  /\ (llm_provider <> "openai" -> llm_provider <> "ollama" ->
      query_llm prompt llm_provider model host key w
      = (with_page w [StError ("Unknown LLM provider: " +:+ llm_provider)], Ret VNone))
  /\ (llm_provider = "openai" -> truthy key = false ->
      query_llm prompt llm_provider model host key w
      = (with_page w [StError "Please enter an OpenAI API key in the sidebar."],
         Ret VNone))
  /\ (forall e, llm_provider = "openai" -> truthy key = true ->
      openai_content key prompt = Raise e ->
      query_llm prompt llm_provider model host key w
      = (with_page w [StError ("Error communicating with OpenAI: " +:+ exn_str e)],
         Ret VNone))
  /\ (forall status_code json, llm_provider = "ollama" ->
      requests_post (py_str host +:+ "/api/generate") model prompt
      = Ret (status_code, json) ->
      status_code <> 200 ->
      query_llm prompt llm_provider model host key w
      = (with_page w [StError ("Ollama API error: Status " +:+ pretty status_code)],
         Ret VNone))
  /\ (forall body, llm_provider = "ollama" ->
      requests_post (py_str host +:+ "/api/generate") model prompt
      = Ret (200, Ret (VDict body)) ->
      query_llm prompt llm_provider model host key w
      = (w, Ret (dict_get "response" body (VStr "")))).
Proof.
  split; [|split; [|split; [|split; [|split]]]].
  - unfold query_llm. destruct (String.eqb llm_provider "openai").
    { apply query_openai_outcome. }
    destruct (String.eqb llm_provider "ollama").
    { apply query_ollama_outcome. }
    eexists _, _. split; [reflexivity|]. split; [done|]. right. split; [done|].
    by eexists.
  - intros Hp1 Hp2. unfold query_llm.
    destruct (String.eqb_spec llm_provider "openai"); [done|].
    by destruct (String.eqb_spec llm_provider "ollama").
  - intros -> Hkey. unfold query_llm, query_openai. cbn [String.eqb Ascii.eqb Bool.eqb].
    by rewrite Hkey.
  - intros e -> Hkey He. unfold query_llm, query_openai.
    cbn [String.eqb Ascii.eqb Bool.eqb]. rewrite Hkey. cbn [negb].
    unfold catch, mbind, M_bind, lift. by rewrite He.
  - intros status_code json -> Hpost Hstatus. unfold query_llm, query_ollama.
    cbn [String.eqb Ascii.eqb Bool.eqb].
    unfold catch, mbind, M_bind, lift. rewrite Hpost. cbn [fst snd].
    by destruct (Nat.eqb_spec status_code 200).
  - intros body -> Hpost. unfold query_llm, query_ollama.
    cbn [String.eqb Ascii.eqb Bool.eqb].
    unfold catch, mbind, M_bind, lift. by rewrite Hpost.
Qed.

Lemma main_loaded_no_text df llm_provider query :
  query <> "" ->
  main_loaded df llm_provider query None = no_response df
  /\ main_loaded df llm_provider query (Some "") = no_response df.
Proof.
  intros Hq. unfold main_loaded. by destruct (String.eqb_spec query "").
Qed.

(** X15: Whenever the query function returns a value that is not truthy
    ([None], the empty text, ...), [main] reports that it could not
    connect and goes to the manual builder. *)
Theorem falsy_response_falls_back_to_manual
        df prompt llm_provider model host key query w w1 v :
  query <> "" ->
  query_llm prompt llm_provider model host key w = (w1, Ret v) ->
  truthy v = false ->
  main_query df prompt llm_provider model host key query w = no_response df w1.
Proof.
  intros Hq Hrun Hv. unfold main_query.
  destruct (String.eqb_spec query ""); [done|]. cbn [negb].
  rewrite (bind_ret _ _ _ _ _ Hrun).
  destruct (main_loaded_no_text df llm_provider query Hq) as [Hnone Hempty].
  destruct v as [|b|k|lit|s|xs|kvs]; rewrite ?Hv; try by rewrite Hnone.
  cbn [truthy] in Hv. apply negb_false_iff, String.eqb_eq in Hv. subst s.
  by rewrite Hempty.
Qed.

(** X16: A query typed while the provider is [manual] (or any provider other
    than [openai] and [ollama]) is sent to [query_llm] all the same: the
    page gets the error about the unknown provider, then the error about
    the connection, and then the manual builder runs. *)
Theorem query_in_manual_mode_reports_two_errors
        df prompt llm_provider model host key query w :
  query <> "" -> llm_provider <> "openai" -> llm_provider <> "ollama" ->
  main_query df prompt llm_provider model host key query w
  = manual df
      (with_page w [StError ("Unknown LLM provider: " +:+ llm_provider);
                    StError "Could not connect to LLM. Falling back to manual mode.";
                    StMarkdown "### Manual Visualization Builder"]).
Proof.
  intros Hq Hp1 Hp2. unfold main_query.
  destruct (String.eqb_spec query ""); [done|]. cbn [negb].
  assert (Hrun : query_llm prompt llm_provider model host key w
                 = (with_page w [StError ("Unknown LLM provider: " +:+ llm_provider)],
                    Ret VNone)).
  { unfold query_llm. destruct (String.eqb_spec llm_provider "openai"); [done|].
    by destruct (String.eqb_spec llm_provider "ollama"). }
  rewrite (bind_ret _ _ _ _ _ Hrun).
  destruct (main_loaded_no_text df llm_provider query Hq) as [-> _].
  unfold no_response, mbind, M_bind, show, with_page. cbn [page frames].
  by rewrite <- !app_assoc.
Qed.
End QueryFacts.

(** ** Loading the file *)

Section LoadingFacts.
Context `{Python} `{Pandas} `{!Plotly} `{!Files}.

(** X17: A file that cannot be read puts two errors on the page, that of the
    reader and [No data loaded.], and [main] returns; a file read as a
    frame with no row or no column puts one error on the page and [main]
    returns; any other file becomes a new dataframe object, with nothing
    put on the page. *)
Theorem upload_is_loaded_or_reported uploaded_file w :
  match read_csv uploaded_file with
  | Raise e =>
      main_upload uploaded_file w
      = (with_page w [StError ("Error loading data: " +:+ exn_str e);
                      StError "No data loaded."], Ret None)
  | Ret d =>
      let l := fresh (dom (frames w)) in
      let w1 := MkWorld (<[l := d]> (frames w)) (page w) in
      if df_empty d
      then main_upload uploaded_file w
           = (with_page w1 [StError "The uploaded file contains no data."], Ret None)
      else main_upload uploaded_file w = (w1, Ret (Some l))
           /\ frames w1 !! l = Some d
           /\ frames w !! l = None
  end.
Proof.
  unfold main_upload, load_data, catch, mbind, M_bind, lift.
  destruct (read_csv uploaded_file) as [d|e].
  2:{ unfold show, mret, M_ret, with_page. cbn. by rewrite <- app_assoc. }
  unfold alloc, mret, M_ret, read. cbn [frames].
  rewrite lookup_insert_eq. cbn [validate_data].
  destruct (df_empty d) eqn:E; [done|].
  destruct (length (df_data d) <? 1)%nat eqn:E1.
  { apply no_columns_empty in E1. congruence. }
  cbn [negb]. split; [done|]. split; [done|].
  apply not_elem_of_dom, is_fresh.
Qed.
End LoadingFacts.

(** ** Actions that lack a parameter *)

Section MissingParameters.
Context `{Python} `{Pandas} `{!Plotly}.

Lemma prepare_runs w df action t r :
  value_lower (dict_get "type" action (VStr "")) = Ret t ->
  prepare_body t action df w = (w, Ret r) ->
  prepare_data_for_visualization df action w = (w, Ret r).
Proof.
  intros Ht Hr. unfold prepare_data_for_visualization. rewrite Ht.
  unfold mbind, M_bind, lift, catch. by rewrite Hr.
Qed.

Lemma some_missing_run x y df w bx by_ :
  contains x df w = (w, Ret bx) -> contains y df w = (w, Ret by_) ->
  some_missing x y df w = (w, Ret (negb bx || negb by_)).
Proof.
  intros Hx Hy. unfold some_missing. rewrite (bind_ret _ _ _ _ _ Hx).
  destruct bx; cbn [negb orb]; [|done]. by rewrite (bind_ret _ _ _ _ _ Hy).
Qed.

Lemma report_missing_run x y df w bx by_ :
  contains x df w = (w, Ret bx) -> contains y df w = (w, Ret by_) ->
  report_missing x y df w
  = (w, Ret (None, Some (columns_not_found x y (negb bx) (negb by_)))).
Proof.
  intros Hx Hy. unfold report_missing.
  by rewrite (bind_ret _ _ _ _ _ Hx), (bind_ret _ _ _ _ _ Hy).
Qed.

Lemma prepare_two_missing t action df w bx by_ :
  t = "scatter" \/ t = "line" ->
  contains (dict_get "x" action VNone) df w = (w, Ret bx) ->
  contains (dict_get "y" action VNone) df w = (w, Ret by_) ->
  negb bx || negb by_ = true ->
  prepare_body t action df w
  = (w, Ret (None, Some (columns_not_found (dict_get "x" action VNone)
                           (dict_get "y" action VNone) (negb bx) (negb by_)))).
Proof.
  intros Hty Hx Hy Hm.
  assert (Hbody : prepare_body t action df = prepare_scatter action df
                  \/ prepare_body t action df = prepare_line action df).
  { destruct Hty as [-> | ->]; [by left|by right]. }
  destruct Hbody as [-> | ->]; unfold prepare_scatter, prepare_line;
    rewrite (bind_ret _ _ _ _ _ (some_missing_run _ _ _ _ _ _ Hx Hy)), Hm;
    by apply report_missing_run.
Qed.

(** X18: An action that lacks a parameter its type requires is answered as if
    it named the column [None]: a histogram without [column] and a bar
    chart without [x] get [Column 'None' not found in the dataset.]; a
    scatter plot or line chart gets [Columns ... not found in the
    dataset.] with ['None'] for each of [x] and [y] that is absent, and
    with the name of the other when it is no column either.  Nothing is
    changed. *)
Theorem missing_parameter_reported_as_column_none w df d action t :
  frames w !! df = Some d ->
  value_lower (dict_get "type" action (VStr "")) = Ret t ->
  (t = "histogram" -> dict_lookup "column" action = None ->
   prepare_data_for_visualization df action w
   = (w, Ret (None, Some "Column 'None' not found in the dataset.")))
  /\ (t = "bar" -> dict_lookup "x" action = None ->
      prepare_data_for_visualization df action w
      = (w, Ret (None, Some "Column 'None' not found in the dataset.")))
  /\ (t = "scatter" \/ t = "line" ->
      dict_lookup "x" action = None -> dict_lookup "y" action = None ->
      prepare_data_for_visualization df action w
      = (w, Ret (None, Some "Columns 'None' and 'None' not found in the dataset.")))
  /\ (forall x, t = "scatter" \/ t = "line" ->
      dict_lookup "x" action = Some (VStr x) -> dict_lookup "y" action = None ->
      prepare_data_for_visualization df action w
      = (w, Ret (None,
                 Some (if has_column d x
                       then "Columns 'None' not found in the dataset."
                       else "Columns '" +:+ x
                              +:+ "' and 'None' not found in the dataset.")))).
Proof.
  intros Hd Ht.
  assert (Hnone : contains VNone df w = (w, Ret false)).
  { by rewrite (contains_eval _ _ _ _ Hd). }
  assert (Hstr : forall x, contains (VStr x) df w = (w, Ret (has_column d x))).
  { intros x. by rewrite (contains_eval _ _ _ _ Hd). }
  split; [|split; [|split]].
  - intros -> Hc. apply (prepare_runs _ _ _ _ _ Ht).
    cbn [prepare_body String.eqb Ascii.eqb Bool.eqb]. unfold prepare_histogram, dict_get.
    rewrite Hc. by rewrite (bind_ret _ _ _ _ _ Hnone).
  - intros -> Hx. apply (prepare_runs _ _ _ _ _ Ht).
    cbn [prepare_body String.eqb Ascii.eqb Bool.eqb]. unfold prepare_bar, dict_get.
    rewrite Hx. by rewrite (bind_ret _ _ _ _ _ Hnone).
  - intros Hty Hx Hy. apply (prepare_runs _ _ _ _ _ Ht).
    rewrite (prepare_two_missing t action df w false false Hty);
      unfold dict_get; rewrite ?Hx, ?Hy; done.
  - intros x Hty Hx Hy. apply (prepare_runs _ _ _ _ _ Ht).
    rewrite (prepare_two_missing t action df w (has_column d x) false Hty);
      unfold dict_get; rewrite ?Hx, ?Hy; try done.
    + unfold columns_not_found. cbn [py_str].
      destruct (has_column d x); cbn [negb List.filter];
        rewrite ?append_cons, ?append_nil; cbn [String.eqb negb List.filter String.concat];
        repeat (rewrite ?append_cons, ?append_nil, ?append_assoc); reflexivity.
    + by destruct (has_column d x).
Qed.
End MissingParameters.

(** ** A chart of columns that are there *)

Section ChartPath.
Context `{Python} `{Pandas} `{!Plotly} `{Streamlit}.

(** The libraries do not fail. *)
Hypothesis numeric_total : forall s, exists s', to_numeric_coerce s = Ret s'.
Hypothesis datetime_total : forall s, exists s', to_datetime_coerce s = Ret s'.
Hypothesis px_total : forall call, exists fig, px call = Ret fig.
Hypothesis sort_total : forall df by_, exists df', sort_values df by_ = Ret df'.

Lemma missing_columns_none d names :
  Forall (fun c => has_column d c = true) names -> missing_columns d names = [].
Proof.
  induction 1 as [|c names Hc _ IH]; [done|].
  unfold missing_columns. cbn [List.filter]. rewrite Hc. exact IH.
Qed.

(** The preparer on an action whose columns are all there. *)
Lemma prepare_succeeds w l d action t names :
  frames w !! l = Some d ->
  value_lower (dict_get "type" action (VStr "")) = Ret t ->
  t ∈ chart_types ->
  referenced t action = VStr <$> names ->
  Forall (fun c => has_column d c = true) names ->
  exists w', prepare_data_for_visualization l action w = (w', Ret (Some l, None)).
Proof.
  intros Hd Ht Hin Hr Hall.
  pose proof (missing_columns_none d names Hall) as Hm.
  assert (Hrun : exists w', prepare_body t action l w
                   = (w', Ret (outcome l t (missing_columns d names)))).
  { unfold chart_types in Hin.
    repeat (apply elem_of_cons in Hin as [->|Hin]); [| | | |by apply elem_of_nil in Hin].
    - unfold referenced in Hr. simpl in Hr.
      destruct names as [|c [|]]; try done. injection Hr as Hc.
      destruct (prepare_histogram_strings numeric_total w l d action c Hd Hc) as (w' & ? & _).
      by exists w'.
    - destruct (prepare_bar_strings numeric_total w l d action names Hd Hr) as (w' & ? & _).
      by exists w'.
    - destruct (prepare_scatter_strings numeric_total w l d action names Hd Hr)
        as (w' & ? & _). by exists w'.
    - destruct (prepare_line_strings numeric_total datetime_total w l d action names Hd Hr)
        as (w' & ? & _). by exists w'. }
  destruct Hrun as (w' & Hrun). exists w'.
  unfold prepare_data_for_visualization, mbind, M_bind, lift, catch.
  rewrite Ht, Hrun, Hm. done.
Qed.

Lemma get_column_has d c :
  has_column d c = true -> exists s, get_column (VStr c) d = Ret s.
Proof.
  intros Hc. destruct (has_column_lookup _ _ Hc) as [s Hs]. exists s.
  cbn [get_column]. by rewrite Hs.
Qed.

(** The chart producer on an action whose columns are all there. *)
Lemma generate_visualization_succeeds d action description t names :
  value_lower (dict_get "type" action (VStr "")) = Ret t ->
  t ∈ chart_types ->
  referenced t action = VStr <$> names ->
  Forall (fun c => has_column d c = true) names ->
  exists fig, generate_visualization d action description = Ret (Some fig, None).
Proof.
  intros Ht Hin Hr Hall. unfold generate_visualization. rewrite Ht. cbn [mbind py_bind].
  unfold chart_types in Hin.
  repeat (apply elem_of_cons in Hin as [->|Hin]); [| | | |by apply elem_of_nil in Hin].
  - unfold referenced in Hr. simpl in Hr.
    destruct names as [|c [|]]; try done. injection Hr as Hc.
    cbn [visualization_body String.eqb Ascii.eqb Bool.eqb]. rewrite Hc.
    cbn [value_capitalize mbind py_bind].
    destruct (px_total (MkChart Histogram d (VStr c) None
                          ("Histogram of " +:+ py_str (VStr c))
                          [(VStr c, capitalize c)] template)) as [fig Hfig].
    exists fig. by rewrite Hfig.
  - unfold referenced in Hr. simpl in Hr.
    destruct names as [|cx rest]; [done|]. injection Hr as Hx Hy.
    apply Forall_cons in Hall as [Hhx Hrest].
    cbn [visualization_body String.eqb Ascii.eqb Bool.eqb]. rewrite Hx.
    destruct (truthy (dict_get "y" action VNone)) eqn:Hty.
    + destruct rest as [|cy [|]]; try done. injection Hy as Hy. rewrite Hy.
      unfold axis_labels. cbn [value_capitalize mbind py_bind].
      destruct (px_total (MkChart Bar d (VStr cx) (Some (VStr cy))
                            ("Bar Chart of " +:+ py_str (VStr cx) +:+ " vs "
                               +:+ py_str (VStr cy))
                            [(VStr cx, capitalize cx); (VStr cy, capitalize cy)]
                            template)) as [fig Hfig].
      exists fig. by rewrite Hfig.
    + destruct (get_column_has d cx Hhx) as [s Hs]. rewrite Hs.
      cbn [value_capitalize mbind py_bind].
      destruct (px_total (MkChart Bar (value_counts_frame s (VStr cx)) (VStr cx)
                            (Some (VStr "count"))
                            ("Count of " +:+ py_str (VStr cx))
                            [(VStr cx, capitalize cx); (VStr "count", "Count")]
                            template)) as [fig Hfig].
      exists fig. by rewrite Hfig.
  - unfold referenced in Hr. simpl in Hr.
    destruct names as [|cx [|cy [|]]]; try done. injection Hr as Hx Hy.
    cbn [visualization_body String.eqb Ascii.eqb Bool.eqb]. rewrite Hx, Hy.
    unfold axis_labels. cbn [value_capitalize mbind py_bind].
    destruct (px_total (MkChart Scatter d (VStr cx) (Some (VStr cy))
                          ("Scatter Plot of " +:+ py_str (VStr cx) +:+ " vs "
                             +:+ py_str (VStr cy))
                          [(VStr cx, capitalize cx); (VStr cy, capitalize cy)]
                          template)) as [fig Hfig].
    exists fig. by rewrite Hfig.
  - unfold referenced in Hr. simpl in Hr.
    destruct names as [|cx [|cy [|]]]; try done. injection Hr as Hx Hy.
    apply Forall_cons in Hall as [Hhx _].
    cbn [visualization_body String.eqb Ascii.eqb Bool.eqb]. rewrite Hx, Hy.
    destruct (get_column_has d cx Hhx) as [s Hs]. rewrite Hs. cbn [mbind py_bind].
    assert (Hsort : exists df_sorted,
               (if is_datetime64_dtype (s_dtype s) then sort_values d (VStr cx) else Ret d)
               = Ret df_sorted).
    { destruct (is_datetime64_dtype (s_dtype s)); [apply sort_total|by eexists]. }
    destruct Hsort as [df_sorted Hsort]. rewrite Hsort. cbn [mbind py_bind].
    unfold axis_labels. cbn [value_capitalize mbind py_bind].
    destruct (px_total (MkChart Line df_sorted (VStr cx) (Some (VStr cy))
                          ("Line Chart of " +:+ py_str (VStr cy) +:+ " "
                             +:+ (if is_datetime64_dtype (s_dtype s) then "over" else "vs")
                             +:+ " " +:+ py_str (VStr cx))
                          [(VStr cx, capitalize cx); (VStr cy, capitalize cy)]
                          template)) as [fig Hfig].
    exists fig. by rewrite Hfig.
Qed.

(** X19: When the libraries do not fail, the chart path renders every action
    of type histogram, bar, scatter or line (in any casing) whose columns
    are columns of the dataset: it puts the chart, and nothing else, on
    the page, and changes no frame but the one it is given, which keeps
    its labels. *)
Theorem chart_action_on_existing_columns_is_rendered
        w l d action description t names :
  frames w !! l = Some d ->
  value_lower (dict_get "type" action (VStr "")) = Ret t ->
  t ∈ chart_types ->
  referenced t action = VStr <$> names ->
  Forall (fun c => has_column d c = true) names ->
  exists w' fig d',
    run_chart l action description w = (w', Ret ())
    /\ page w' = page w ++ [RenderVisualization (Some fig) description]
    /\ (forall l', l' <> l -> frames w' !! l' = frames w !! l')
    /\ frames w' !! l = Some d' /\ columns d' = columns d.
Proof.
  intros Hd Ht Hin Hr Hall.
  destruct (prepare_succeeds w l d action t names Hd Ht Hin Hr Hall) as [w1 Hprep].
  destruct (shape_prepare l action w w1 _ Hprep) as [(Hpage & Hother & Hframe) _].
  rewrite Hd in Hframe. destruct Hframe as (d' & Hd' & Hcols & _).
  assert (Hall' : Forall (fun c => has_column d' c = true) names).
  { eapply Forall_impl; [exact Hall|]. intros c Hc. unfold has_column. by rewrite Hcols. }
  destruct (generate_visualization_succeeds d' action description t names Ht Hin Hr Hall')
    as [fig Hfig].
  exists (with_page w1 [RenderVisualization (Some fig) description]), fig, d'.
  split; [|split; [by cbn; rewrite Hpage|split; [done|done]]].
  unfold run_chart. rewrite (bind_ret _ _ _ _ _ Hprep). cbv beta iota. cbn [error_set].
  unfold mbind, M_bind. rewrite (read_eval _ _ _ Hd'). unfold lift. rewrite Hfig. done.
Qed.
End ChartPath.

(** ** The manual builder from the choice to the page *)

Section ManualPath.
Context `{Python} `{Pandas} `{!Plotly} `{Streamlit}.

Lemma copy_eval w df d :
  frames w !! df = Some d ->
  copy df w = (MkWorld (<[fresh (dom (frames w)) := d]> (frames w)) (page w),
               Ret (fresh (dom (frames w)))).
Proof. intros Hd. unfold copy. by rewrite (bind_ret _ _ _ _ _ (read_eval _ _ _ Hd)). Qed.

Lemma fresh_other w df d : frames w !! df = Some d -> fresh (dom (frames w)) <> df.
Proof.
  intros Hd E. assert (Hin : fresh (dom (frames w)) ∈ dom (frames w)).
  { rewrite E. by apply elem_of_dom. }
  by apply is_fresh in Hin.
Qed.

(** The summary branch on columns given by name never fails. *)
Lemma manual_summary w w1 df d a description names :
  frames w1 !! df = Some d ->
  create_action_from_ui df w = (w1, Ret (VDict a, description)) ->
  a <> [] -> route_of a = Ret ToSummary ->
  dict_get "columns" a (columns_tolist d) = VList (VStr <$> names) ->
  exists w' rows,
    manual df w = (w', Ret ())
    /\ page w' = page w1 ++ [RenderSummary (Some rows) description]
    /\ frames w' !! df = Some d.
Proof.
  intros Hd Hbuild Ha Hroute Hcols.
  unfold manual. rewrite (bind_ret _ _ _ _ _ Hbuild). cbn [fst snd truthy].
  destruct a as [|kv a']; [done|]. cbn [negb].
  rewrite (bind_ret _ _ _ _ _ (copy_eval _ _ _ Hd)).
  set (l := fresh (dom (frames w1))).
  set (w2 := MkWorld (<[l := d]> (frames w1)) (page w1)).
  assert (Hl : frames w2 !! l = Some d) by apply lookup_insert_eq.
  cbn [dispatch_value]. unfold dispatch. rewrite Hroute.
  change (lift (Ret ToSummary) ≫= ?k) with (k ToSummary). cbv beta iota.
  unfold run_summary. rewrite (bind_ret _ _ _ _ _ (read_eval _ _ _ Hl)).
  unfold generate_summary_statistics. rewrite Hcols. cbn [iterate mbind py_bind].
  rewrite summary_loop_strings. cbn [try_except error_set].
  eexists _, _. split; [reflexivity|]. cbn [page frames w2].
  split; [done|]. rewrite lookup_insert_ne; [done|]. by apply (fresh_other _ _ d).
Qed.

Hypothesis numeric_total : forall s, exists s', to_numeric_coerce s = Ret s'.
Hypothesis datetime_total : forall s, exists s', to_datetime_coerce s = Ret s'.
Hypothesis px_total : forall call, exists fig, px call = Ret fig.
Hypothesis sort_total : forall df by_, exists df', sort_values df by_ = Ret df'.

(** The chart branch on columns that are there. *)
Lemma manual_chart w w1 df d a description t names :
  frames w1 !! df = Some d ->
  create_action_from_ui df w = (w1, Ret (VDict a, description)) ->
  a <> [] -> route_of a = Ret ToChart ->
  value_lower (dict_get "type" a (VStr "")) = Ret t ->
  t ∈ chart_types ->
  referenced t a = VStr <$> names ->
  Forall (fun c => has_column d c = true) names ->
  exists w' fig,
    manual df w = (w', Ret ())
    /\ page w' = page w1 ++ [RenderVisualization (Some fig) description]
    /\ frames w' !! df = Some d.
Proof.
  intros Hd Hbuild Ha Hroute Ht Hin Hr Hall.
  unfold manual. rewrite (bind_ret _ _ _ _ _ Hbuild). cbn [fst snd truthy].
  destruct a as [|kv a']; [done|]. cbn [negb]. set (a := kv :: a') in *.
  rewrite (bind_ret _ _ _ _ _ (copy_eval _ _ _ Hd)).
  set (l := fresh (dom (frames w1))).
  set (w2 := MkWorld (<[l := d]> (frames w1)) (page w1)).
  assert (Hl : frames w2 !! l = Some d) by apply lookup_insert_eq.
  assert (Hne : df <> l).
  { intros E. by apply (fresh_other w1 df d). }
  cbn [dispatch_value]. unfold dispatch. rewrite Hroute.
  change (lift (Ret ToChart) ≫= ?k) with (k ToChart). cbv beta iota.
  destruct (prepare_succeeds numeric_total datetime_total w2 l d a t names Hl Ht Hin Hr Hall)
    as [w3 Hprep].
  destruct (shape_prepare l a w2 w3 _ Hprep) as [(Hpage & Hother & Hframe) _].
  rewrite Hl in Hframe. destruct Hframe as (d' & Hd' & Hcols & _).
  assert (Hall' : Forall (fun c => has_column d' c = true) names).
  { eapply Forall_impl; [exact Hall|]. intros c Hc. unfold has_column. by rewrite Hcols. }
  destruct (generate_visualization_succeeds px_total sort_total d' a description t names
              Ht Hin Hr Hall') as [fig Hfig].
  exists (with_page w3 [RenderVisualization (Some fig) description]), fig.
  split; [|split].
  - unfold run_chart. rewrite (bind_ret _ _ _ _ _ Hprep). cbv beta iota. cbn [error_set].
    unfold mbind, M_bind. rewrite (read_eval _ _ _ Hd'). unfold lift. rewrite Hfig. done.
  - cbn. by rewrite Hpage.
  - cbn [with_page frames]. rewrite (Hother df Hne). cbn [frames w2].
    by rewrite lookup_insert_ne.
Qed.

(** The user picks an option of the box they are shown. *)
Hypothesis selectbox_picks : forall label options,
  label <> "Visualization Type" -> options <> [] ->
  exists o, o ∈ options /\ selectbox label options = VStr o.

(** X20: In the manual builder, on a dataset that has columns with no label
    twice and with libraries that do not fail, each of the five types
    ends well: the page gets the heading of the builder and then one
    chart, one summary table, or (for a scatter plot or line chart of a
    dataset with fewer than two numeric columns) one warning; never an
    error.  The dataset of the session is left as it was. *)
Theorem manual_builder_ends_in_chart_summary_or_warning w df d viz_type :
  frames w !! df = Some d -> columns d <> [] -> NoDup (columns d) ->
  selectbox "Visualization Type" viz_types = VStr viz_type ->
  viz_type ∈ viz_types ->
  exists w' e,
    manual df w = (w', Ret ())
    /\ page w' = page w ++ [StMarkdown "### Select Visualization Type"; e]
    /\ frames w' !! df = Some d
    /\ ((exists fig description, e = RenderVisualization (Some fig) description
                                 /\ viz_type <> "summarize")
        \/ (exists rows description, e = RenderSummary (Some rows) description
                                     /\ viz_type = "summarize")
        \/ (exists message, e = StWarning message
                            /\ (viz_type = "scatter" \/ viz_type = "line")
                            /\ length (numeric_columns d) < 2)).
Proof.
  intros Hd Hne Hnd Hviz Hin.
  set (w1 := MkWorld (frames w) (page w ++ [StMarkdown "### Select Visualization Type"])).
  assert (Hd1 : frames w1 !! df = Some d) by done.
  assert (Hbuilder : create_action_from_ui df w
            = (let viz_type := VStr viz_type in
               let numeric_cols := numeric_columns d in
               let all_cols := columns d in
               let action := [("type", viz_type)] in
               if eq_str viz_type "histogram" then
                 let column :=
                   match numeric_cols with
                   | _ :: _ => selectbox "Select Column" numeric_cols
                   | [] => selectbox "Select Column" all_cols
                   end in
                 mret (VDict (dict_set "column" column action),
                       VStr ("Distribution of " +:+ py_str column))
               else if eq_str viz_type "bar" then
                 let x := selectbox "Select X (Category) Column" all_cols in
                 let action := dict_set "x" x action in
                 let use_y := checkbox "Use Y Value (instead of count)" false in
                 if use_y && match numeric_cols with [] => false | _ => true end then
                   let y := selectbox "Select Y (Value) Column" numeric_cols in
                   mret (VDict (dict_set "y" y action),
                         VStr ("Bar chart showing " +:+ py_str y +:+ " by " +:+ py_str x))
                 else
                   mret (VDict action, VStr ("Bar chart showing count of " +:+ py_str x))
               else if eq_str viz_type "scatter" then
                 if (2 <=? length numeric_cols)%nat then
                   let x := selectbox "Select X Column" numeric_cols in
                   let remaining_cols :=
                     List.filter (fun col => negb (eq_str x col)) numeric_cols in
                   let y := selectbox "Select Y Column" remaining_cols in
                   mret (VDict (dict_set "y" y (dict_set "x" x action)),
                         VStr ("Scatter plot showing relationship between "
                                 +:+ py_str x +:+ " and " +:+ py_str y))
                 else
                   _ ← show (StWarning "You need at least 2 numeric columns for a scatter plot");
                   mret (VNone, VNone)
               else if eq_str viz_type "line" then
                 let time_cols := detect_time_columns d in
                 let x_options := match time_cols with [] => all_cols | _ => time_cols end in
                 let x := selectbox "Select X (Time) Column" x_options in
                 match numeric_cols with
                 | _ :: _ =>
                     let y := selectbox "Select Y (Value) Column" numeric_cols in
                     mret (VDict (dict_set "y" y (dict_set "x" x action)),
                           VStr ("Line chart showing " +:+ py_str y +:+ " over "
                                   +:+ py_str x))
                 | [] =>
                     _ ← show (StWarning "You need at least 1 numeric column for the Y axis");
                     mret (VNone, VNone)
                 end
               else if eq_str viz_type "summarize" then
                 let use_all_cols := checkbox "Summarize all columns" true in
                 if negb use_all_cols then
                   let selected_cols :=
                     multiselect "Select columns to summarize" all_cols
                                 (take (Nat.min 5 (length all_cols)) all_cols) in
                   mret (VDict (dict_set "columns" (str_list selected_cols) action),
                         VStr ("Summary statistics for columns: "
                                 +:+ String.concat ", " selected_cols))
                 else
                   mret (VDict (dict_set "columns" (str_list all_cols) action),
                         VStr "Summary statistics for all columns")
               else mret (VDict action, VStr "")) w1).
  { unfold create_action_from_ui. unfold mbind at 1, M_bind at 1, show at 1.
    cbv beta iota. rewrite Hviz. fold w1.
    by rewrite (bind_ret _ _ _ _ _ (read_eval _ _ _ Hd1)). }
  cbv zeta in Hbuilder.
  assert (Hpick : forall label options,
             label <> "Visualization Type" -> options <> [] ->
             (forall o, o ∈ options -> o ∈ columns d) ->
             exists name, selectbox label options = VStr name
                          /\ has_column d name = true).
  { intros label options Hl Ho Hsub.
    destruct (selectbox_picks label options Hl Ho) as (o & Hin' & E).
    exists o. split; [done|]. by apply has_column_elem, Hsub. }
  assert (Hnum : forall o, o ∈ numeric_columns d -> o ∈ columns d).
  { intros o. apply numeric_columns_elem. }
  unfold viz_types in Hin.
  repeat (apply elem_of_cons in Hin as [->|Hin]); [| | | | |by apply elem_of_nil in Hin];
    cbn [eq_str String.eqb Ascii.eqb Bool.eqb] in Hbuilder.
  - (* histogram *)
    assert (Hcol : exists name,
               match numeric_columns d with
               | [] => selectbox "Select Column" (columns d)
               | _ :: _ => selectbox "Select Column" (numeric_columns d)
               end = VStr name /\ has_column d name = true).
    { destruct (numeric_columns d) eqn:En.
      - by apply Hpick.
      - by apply Hpick. }
    destruct Hcol as (name & Hname & Hhas). rewrite Hname in Hbuilder.
    destruct (manual_chart w w1 df d _ _ "histogram" [name] Hd1 Hbuilder)
      as (w' & fig & Hrun & Hpage & Hframe);
      [done|done|done|unfold chart_types; rewrite !elem_of_cons; tauto|done|by constructor|].
    exists w', (RenderVisualization (Some fig) (VStr ("Distribution of " +:+ name))).
    split; [exact Hrun|]. split; [rewrite Hpage; cbn; by rewrite <- app_assoc|].
    split; [done|]. left. by eexists _, _.
  - (* bar *)
    destruct (Hpick "Select X (Category) Column" (columns d)) as (x & Hx & Hhx);
      [done|done|done|].
    rewrite !Hx in Hbuilder.
    destruct (checkbox "Use Y Value (instead of count)" false
              && match numeric_columns d with [] => false | _ => true end) eqn:Ey.
    + destruct (Hpick "Select Y (Value) Column" (numeric_columns d)) as (y & Hy & Hhy);
        [done| |done|].
      { apply andb_true_iff in Ey as [_ Ey]. by destruct (numeric_columns d). }
      rewrite !Hy in Hbuilder.
      destruct (String.eqb y "") eqn:Eblank.
      * destruct (manual_chart w w1 df d _ _ "bar" [x] Hd1 Hbuilder)
          as (w' & fig & Hrun & Hpage & Hframe);
          [done|done|done|unfold chart_types; rewrite !elem_of_cons; tauto| |by constructor|].
        { unfold referenced. cbn. by rewrite Eblank. }
        eexists w', _. split; [exact Hrun|].
        split; [rewrite Hpage; cbn; by rewrite <- app_assoc|].
        split; [done|]. left. by eexists _, _.
      * destruct (manual_chart w w1 df d _ _ "bar" [x; y] Hd1 Hbuilder)
          as (w' & fig & Hrun & Hpage & Hframe);
          [done|done|done|unfold chart_types; rewrite !elem_of_cons; tauto| |by repeat constructor|].
        { unfold referenced. cbn. by rewrite Eblank. }
        eexists w', _. split; [exact Hrun|].
        split; [rewrite Hpage; cbn; by rewrite <- app_assoc|].
        split; [done|]. left. by eexists _, _.
    + destruct (manual_chart w w1 df d _ _ "bar" [x] Hd1 Hbuilder)
        as (w' & fig & Hrun & Hpage & Hframe);
        [done|done|done|unfold chart_types; rewrite !elem_of_cons; tauto|done|by constructor|].
      eexists w', _. split; [exact Hrun|].
      split; [rewrite Hpage; cbn; by rewrite <- app_assoc|].
      split; [done|]. left. by eexists _, _.
  - (* scatter *)
    destruct (2 <=? length (numeric_columns d))%nat eqn:Elen.
    + apply Nat.leb_le in Elen.
      assert (Hn : numeric_columns d <> []).
      { intros E. rewrite E in Elen. simpl in Elen. lia. }
      assert (Hndn : NoDup (numeric_columns d)).
      { eapply sublist_NoDup; [exact Hnd|apply numeric_columns_sublist]. }
      destruct (Hpick "Select X Column" (numeric_columns d)) as (x & Hx & Hhx);
        [done|done|done|].
      rewrite !Hx in Hbuilder.
      destruct (Hpick "Select Y Column"
                  (List.filter (fun col => negb (eq_str (VStr x) col)) (numeric_columns d)))
        as (y & Hy & Hhy); [done|by apply other_label| |].
      { intros o Ho. by apply Hnum, (filter_elem _ _ _ Ho). }
      rewrite !Hy in Hbuilder.
      destruct (manual_chart w w1 df d _ _ "scatter" [x; y] Hd1 Hbuilder)
        as (w' & fig & Hrun & Hpage & Hframe);
        [done|done|done|unfold chart_types; rewrite !elem_of_cons; tauto|done|by repeat constructor|].
      eexists w', _. split; [exact Hrun|].
      split; [rewrite Hpage; cbn; by rewrite <- app_assoc|].
      split; [done|]. left. by eexists _, _.
    + apply Nat.leb_gt in Elen.
      eexists _, _. split.
      { unfold manual. unfold mbind at 1, M_bind at 1. rewrite Hbuilder.
        unfold mbind, M_bind, show, mret, M_ret. cbn. reflexivity. }
      cbn. split; [by rewrite <- app_assoc|]. split; [done|].
      right. right. eexists. split; [done|]. split; [by left|done].
  - (* line *)
    assert (Hcol : exists name,
               selectbox "Select X (Time) Column"
                 match detect_time_columns d with
                 | [] => columns d
                 | _ :: _ => detect_time_columns d
                 end = VStr name /\ has_column d name = true).
    { destruct (detect_time_columns d) eqn:Et.
      - by apply Hpick.
      - apply Hpick; [done|done|]. intros o Ho. apply detect_time_columns_elem.
        by rewrite Et. }
    destruct Hcol as (x & Hx & Hhx). rewrite !Hx in Hbuilder.
    destruct (numeric_columns d) as [|c cs] eqn:En.
    + eexists _, _. split.
      { unfold manual. unfold mbind at 1, M_bind at 1. rewrite Hbuilder.
        unfold mbind, M_bind, show, mret, M_ret. cbn. reflexivity. }
      cbn. split; [by rewrite <- app_assoc|]. split; [done|].
      right. right. eexists. split; [done|]. split; [by right|cbn; lia].
    + destruct (Hpick "Select Y (Value) Column" (c :: cs)) as (y & Hy & Hhy);
        [done|done|exact Hnum|].
      rewrite !Hy in Hbuilder.
      destruct (manual_chart w w1 df d _ _ "line" [x; y] Hd1 Hbuilder)
        as (w' & fig & Hrun & Hpage & Hframe);
        [done|done|done|unfold chart_types; rewrite !elem_of_cons; tauto|done|by repeat constructor|].
      eexists w', _. split; [exact Hrun|].
      split; [rewrite Hpage; cbn; by rewrite <- app_assoc|].
      split; [done|]. left. by eexists _, _.
  - (* summarize *)
    destruct (negb (checkbox "Summarize all columns" true)).
    + destruct (manual_summary w w1 df d _ _
                  (multiselect "Select columns to summarize" (columns d)
                     (take (Nat.min 5 (length (columns d))) (columns d)))
                  Hd1 Hbuilder)
        as (w' & rows & Hrun & Hpage & Hframe); [done|done|reflexivity|].
      eexists w', _. split; [exact Hrun|].
      split; [rewrite Hpage; cbn; by rewrite <- app_assoc|].
      split; [done|]. right. left. by eexists _, _.
    + destruct (manual_summary w w1 df d _ _ (columns d) Hd1 Hbuilder)
        as (w' & rows & Hrun & Hpage & Hframe); [done|done|reflexivity|].
      eexists w', _. split; [exact Hrun|].
      split; [rewrite Hpage; cbn; by rewrite <- app_assoc|].
      split; [done|]. right. left. by eexists _, _.
Qed.
(** X21: The two axes of a scatter plot from the manual builder are two
    different numeric columns: the box for [y] offers the numeric columns
    other than the one picked for [x]. *)
Theorem manual_scatter_axes_differ w df d :
  frames w !! df = Some d -> NoDup (columns d) ->
  selectbox "Visualization Type" viz_types = VStr "scatter" ->
  2 <= length (numeric_columns d) ->
  exists x y,
    create_action_from_ui df w
    = (with_page w [StMarkdown "### Select Visualization Type"],
       Ret (VDict [("type", VStr "scatter"); ("x", VStr x); ("y", VStr y)],
            VStr ("Scatter plot showing relationship between " +:+ x
                    +:+ " and " +:+ y)))
    /\ x <> y /\ x ∈ numeric_columns d /\ y ∈ numeric_columns d.
Proof.
  intros Hd Hnd Hviz Hlen.
  assert (Hn : numeric_columns d <> []).
  { intros E. rewrite E in Hlen. simpl in Hlen. lia. }
  assert (Hndn : NoDup (numeric_columns d)).
  { eapply sublist_NoDup; [exact Hnd|apply numeric_columns_sublist]. }
  destruct (selectbox_picks "Select X Column" (numeric_columns d)) as (x & Hx & Ex);
    [done|done|].
  destruct (selectbox_picks "Select Y Column"
              (List.filter (fun col => negb (eq_str (VStr x) col)) (numeric_columns d)))
    as (y & Hy & Ey); [done|by apply other_label|].
  exists x, y. split; [|split; [|split]].
  - unfold create_action_from_ui. unfold mbind at 1, M_bind at 1, show at 1.
    cbv beta iota. rewrite Hviz.
    assert (Hd1 : frames (MkWorld (frames w)
                            (page w ++ [StMarkdown "### Select Visualization Type"]))
                  !! df = Some d) by done.
    rewrite (bind_ret _ _ _ _ _ (read_eval _ _ _ Hd1)).
    cbn [eq_str String.eqb Ascii.eqb Bool.eqb].
    apply Nat.leb_le in Hlen. rewrite Hlen. rewrite !Ex, !Ey. done.
  - apply list_elem_of_In, filter_In in Hy as [_ Hy]. cbn in Hy.
    intros ->. by rewrite String.eqb_refl in Hy.
  - done.
  - by apply (filter_elem _ _ _ Hy).
Qed.
End ManualPath.

(** * The theorems on a concrete session *)

Import Sample.

(** ** The stand-in libraries obey the laws the theorems ask for *)




Lemma sample_numeric_total (s : Series) : exists s', to_numeric_coerce s = Ret s'.
Proof. by eexists. Qed.

Lemma sample_datetime_total (s : Series) : exists s', to_datetime_coerce s = Ret s'.
Proof. by eexists. Qed.

Lemma people_ok : frame_ok people.
Proof.
  split; [by repeat constructor|].
  apply (bool_decide_unpack _). by vm_compute.
Qed.


(** ** The theorems at the example session *)




Lemma mixed_case_summarize_misses_summary_producer_witness :
  parse_llm_response (Some mixed_case_summarize)
  = (VDict [("type", VStr "Summarize")],
     dict_get "description"
       [("action", VDict [("type", VStr "Summarize")]); ("description", VStr "ages")]
       (VStr "No description provided."),
     dict_get "filter" [("type", VStr "Summarize")] VNone, None)
  /\ dict_get "type" [("type", VStr "Summarize")] (VStr "") = VStr "Summarize"
  /\ route_of [("type", VStr "Summarize")] = Ret ToChart
  /\ exists message,
       dispatch 0 [("type", VStr "Summarize")] (VStr "ages") (session people)
       = (with_page (session people) [StError message], Ret ()).
Proof.
  apply (mixed_case_summarize_misses_summary_producer mixed_case_summarize
           [("action", VDict [("type", VStr "Summarize")]); ("description", VStr "ages")]
           [("type", VStr "Summarize")] "Summarize" (VStr "ages") (session people) 0 people).
  - by vm_compute.
  - by vm_compute.
  - done.
  - reflexivity.
  - reflexivity.
  - reflexivity.
  - done.
  - reflexivity.
  - reflexivity.
Defined.

Lemma invalid_operator_rejected_before_filtering_witness :
  (exists message,
     message <> ""
     /\ parse_llm_response (Some not_equal_filter) = parse_failure message
     /\ forall df w,
          @answer python data pandas plotly scatter_user df not_equal_filter w
          = @fallback python data pandas plotly scatter_user df message w)
  /\ (forall t pre c post op,
        dict_lookup "type"
          [("type", VStr "summarize");
           ("filter", VList [VDict [("column", VStr "age"); ("value", VInt 18);
                                    ("operator", VStr "!=")]])]
        = Some (VStr t) ->
        [VDict [("column", VStr "age"); ("value", VInt 18); ("operator", VStr "!=")]]
        = pre ++ VDict c :: post ->
        check_conditions pre = None ->
        dict_contains "column" c = true ->
        dict_contains "value" c = true ->
        dict_lookup "operator" c = Some op ->
        operator_listed op = false ->
        parse_llm_response (Some not_equal_filter)
        = parse_failure ("Invalid filter operator: " +:+ py_str op))
  /\ (forall c rest,
        dict_lookup "operator" c = None ->
        check_conditions (VDict c :: rest)
        = check_conditions (with_default_operator c :: rest)
        /\ forall l,
             filter_loop (VDict c :: rest) l
             = filter_loop (with_default_operator c :: rest) l).
Proof.
  apply (@invalid_operator_rejected_before_filtering python data pandas plotly scatter_user
           not_equal_filter
           [("action",
             VDict [("type", VStr "summarize");
                    ("filter", VList [VDict [("column", VStr "age"); ("value", VInt 18);
                                             ("operator", VStr "!=")]])])]
           [("type", VStr "summarize");
            ("filter", VList [VDict [("column", VStr "age"); ("value", VInt 18);
                                     ("operator", VStr "!=")]])]
           [VDict [("column", VStr "age"); ("value", VInt 18); ("operator", VStr "!=")]]
           (VDict [("column", VStr "age"); ("value", VInt 18); ("operator", VStr "!=")])
           (VStr "!=")).
  - by vm_compute.
  - by vm_compute.
  - done.
  - reflexivity.
  - reflexivity.
  - set_solver.
  - eexists. split; [reflexivity|]. split; reflexivity.
Defined.

Lemma manual_builder_aborts_without_numeric_columns_witness :
  exists w' action description,
    @create_action_from_ui python data pandas plotly scatter_user 0 (session people)
    = (w', Ret (action, description))
    /\ frames w' = frames (session people)
    /\ (action = VNone <-> prerequisites_unmet "scatter" people)
    /\ (action = VNone ->
        description = VNone
        /\ exists message,
             page w' = page (session people)
                         ++ [StMarkdown "### Select Visualization Type"; StWarning message])
    /\ (action <> VNone ->
        exists a text,
          action = VDict a /\ description = VStr text
          /\ dict_lookup "type" a = Some (VStr "scatter")
          /\ required_present "scatter" a = true).
Proof.
  apply (@manual_builder_aborts_without_numeric_columns python data pandas plotly scatter_user
           (session people) 0 people "scatter").
  - reflexivity.
  - reflexivity.
  - unfold viz_types. set_solver.
Defined.

(** ** Inputs on which the program does not do what the specification
       says *)

(** The text has a fence labelled [json] that holds a valid object, after
    a pair of braces in the prose: decoding the contents of the fence
    first gives the object, [safe_json_parse] gives [None], and the
    parser reports that it could not parse.  On two objects side by
    side, the first balanced span decodes, and [safe_json_parse] gives
    [None]. *)
Lemma fence_after_braces_is_not_decoded :
  spec_safe_json_parse fence_after_braces
  = Ret (VDict [("action", VDict [("type", VStr "summarize")])])
  /\ safe_json_parse fence_after_braces = Ret VNone
  /\ parse_llm_response (Some fence_after_braces)
     = parse_failure "Could not parse LLM response as JSON."
  /\ spec_safe_json_parse two_objects = Ret (VDict [("a", VInt 1)])
  /\ safe_json_parse two_objects = Ret VNone.
Proof. repeat split; by vm_compute. Qed.



(** The histogram of the ages held as text: the frame that was passed in
    has its column replaced. *)
Lemma histogram_coerces_the_frame_passed_in :
  frames (session people_text) !! 0 = Some people_text
  /\ (prepare_data_for_visualization 0 histogram_age (session people_text)).2
     = Ret (Some 0, None)
  /\ frames (prepare_data_for_visualization 0 histogram_age (session people_text)).1 !! 0
     = Some people_coerced
  /\ people_coerced <> people_text.
Proof. repeat split; by vm_compute. Qed.

(** The only condition of the filter has the operator [!=] and neither a
    column nor a value: the parser reports the missing parameter, not the
    operator. *)
Lemma operator_not_named_when_column_missing :
  safe_json_parse operator_only_filter
  = Ret (VDict [("action",
                 VDict [("type", VStr "summarize");
                        ("filter", VList [VDict [("operator", VStr "!=")]])])])
  /\ bad_operator (VDict [("operator", VStr "!=")]) (VStr "!=")
  /\ parse_llm_response (Some operator_only_filter)
     = parse_failure "Filter condition missing 'column' or 'value' parameter.".
Proof.
  split; [by vm_compute|]. split; [|by vm_compute].
  eexists. split; [reflexivity|]. split; reflexivity.
Qed.

(** The dataset has a numeric column and no column that looks like
    times: the builder returns a line chart over the first column. *)
Lemma line_without_time_column_builds_action :
  detect_time_columns people = []
  /\ (@create_action_from_ui python data pandas plotly (user "line") 0 (session people)).2
     = Ret (VDict [("type", VStr "line"); ("x", VStr "name"); ("y", VStr "age")],
            VStr "Line chart showing age over name").
Proof. split; by vm_compute. Qed.

(** ** The further theorems on the example session *)

Lemma sample_selectbox_picks viz_type label options :
  label <> "Visualization Type" -> options <> [] ->
  exists o, o ∈ options /\ @selectbox (user viz_type) label options = VStr o.
Proof.
  intros Hl Hne. cbn. destruct (String.eqb_spec label "Visualization Type"); [done|].
  destruct options as [|o options]; [done|]. exists o. split; [by left|done].
Qed.

Lemma sample_multiselect_picks viz_type label options default o :
  (forall x, x ∈ default -> x ∈ options) ->
  o ∈ @multiselect (user viz_type) label options default -> o ∈ options.
Proof. intros Hsub Ho. by apply Hsub. Qed.

Lemma sample_px_total (call : chart_call) : exists fig, px call = Ret fig.
Proof. by eexists. Qed.

Lemma sample_sort_total (df : DataFrame) by_ : exists df', sort_values df by_ = Ret df'.
Proof. by eexists. Qed.

Lemma people_NoDup : NoDup (columns people).
Proof. apply people_ok. Qed.

Lemma fenced_response_decodes_contents_witness :
  let text := "Here it is: " +:+ "```json" +:+ " " +:+ summarize_response +:+ " "
                +:+ "```" +:+ " Hope this helps." in
  safe_json_parse text = loads_or summarize_response (brace_fallback text)
  /\ forall v, json_loads summarize_response = Ret v -> safe_json_parse text = Ret v.
Proof.
  apply (fenced_response_decodes_contents "Here it is: " " " summarize_response " "
           " Hope this helps."); reflexivity.
Defined.

Lemma bare_object_decoded_whole_witness :
  safe_json_parse ("Sure: " +:+ "{" +:+ json_text "'action': {'type': 'summarize'}"
                     +:+ "}" +:+ " Done.")
  = loads_or ("{" +:+ json_text "'action': {'type': 'summarize'}" +:+ "}") (Ret VNone).
Proof.
  apply (bare_object_decoded_whole "Sure: " (json_text "'action': {'type': 'summarize'}")
           " Done."); reflexivity.
Defined.

Lemma no_structure_could_not_parse_witness :
  attempts "I cannot help with that." = []
  /\ safe_json_parse "I cannot help with that." = Ret VNone
  /\ parse_llm_response (Some "I cannot help with that.")
     = parse_failure "Could not parse LLM response as JSON.".
Proof.
  apply (no_structure_could_not_parse "I cannot help with that."); [done| |]; reflexivity.
Defined.

Lemma parser_reports_its_exceptions_witness :
  (forall v, safe_json_parse fenced_array = Ret v -> truthy v = true ->
     (forall kvs, v <> VDict kvs) ->
     parse_llm_response (Some fenced_array)
     = parse_failure ("Error parsing LLM response: '" +:+ type_name v
                        +:+ "' object has no attribute 'get'"))
  /\ (forall parsed a ty,
        safe_json_parse fenced_array = Ret (VDict parsed) -> parsed <> [] ->
        dict_get "action" parsed (VDict []) = VDict a ->
        dict_lookup "type" a = Some ty -> (forall s, ty <> VStr s) ->
        parse_llm_response (Some fenced_array)
        = parse_failure ("Error parsing LLM response: '" +:+ type_name ty
                           +:+ "' object has no attribute 'lower'"))
  /\ (forall e, safe_json_parse fenced_array = Raise e ->
        parse_llm_response (Some fenced_array)
        = parse_failure ("Error parsing LLM response: " +:+ exn_str e)).
Proof. apply (parser_reports_its_exceptions fenced_array). done. Defined.

Lemma accepted_response_never_renders_chart_witness :
  exists events,
    page (@main_loaded python data pandas plotly scatter_user 0 "ollama" "summarize it"
            (Some summarize_response) (session people)).1
    = page (session people) ++ events
    /\ Forall no_chart events.
Proof.
  apply (@accepted_response_never_renders_chart python data pandas plotly scatter_user
           0 "ollama" "summarize it" summarize_response (session people) _
           (@main_loaded python data pandas plotly scatter_user 0 "ollama" "summarize it"
              (Some summarize_response) (session people)).2).
  - done.
  - reflexivity.
  - apply surjective_pairing.
Defined.


Lemma prepare_keeps_shape_witness :
  page (prepare_data_for_visualization 0 histogram_age (session people_text)).1
  = page (session people_text)
  /\ (forall l, l <> 0 ->
        frames (prepare_data_for_visualization 0 histogram_age (session people_text)).1 !! l
        = frames (session people_text) !! l)
  /\ exists d',
       frames (prepare_data_for_visualization 0 histogram_age (session people_text)).1 !! 0
       = Some d'
       /\ columns d' = columns people_text /\ df_len d' = df_len people_text
       /\ forall c, VStr c ∉ named histogram_age ->
            lookup_column c (df_data d') = lookup_column c (df_data people_text).
Proof.
  apply (prepare_keeps_shape (session people_text) 0 people_text histogram_age _
           (prepare_data_for_visualization 0 histogram_age (session people_text)).2).
  - reflexivity.
  - apply surjective_pairing.
Defined.


Lemma builder_names_existing_columns_witness :
  exists w' action description,
    @create_action_from_ui python data pandas plotly (user "line") 0 (session people)
    = (w', Ret (action, description))
    /\ forall a, action = VDict a ->
         (forall k v, k ∈ ["column"; "x"; "y"] -> dict_lookup k a = Some v ->
                      labels_of people v)
         /\ (forall v, dict_lookup "columns" a = Some v ->
               exists names, v = VList (VStr <$> names)
                             /\ Forall (fun c => has_column people c = true) names).
Proof.
  apply (@builder_names_existing_columns python data pandas plotly (user "line")
           (sample_selectbox_picks "line") (sample_multiselect_picks "line")
           (session people) 0 people "line").
  - reflexivity.
  - done.
  - exact people_NoDup.
  - reflexivity.
Defined.

Lemma summary_of_whole_dataset_witness :
  generate_summary_statistics people [("type", VStr "summarize")]
  = (Some (all_rows people), None)
  /\ length (all_rows people) = length (columns people).
Proof.
  apply (summary_of_whole_dataset people [("type", VStr "summarize")]).
  - exact people_NoDup.
  - by left.
Defined.

Lemma manual_summary_of_whole_dataset_witness :
  exists w',
    @manual python data pandas plotly summarize_user 0 (session people) = (w', Ret ())
    /\ page w' = page (session people)
                 ++ [StMarkdown "### Select Visualization Type";
                     RenderSummary (Some (all_rows people))
                                   (VStr "Summary statistics for all columns")]
    /\ frames w' !! 0 = Some people.
Proof.
  apply (@manual_summary_of_whole_dataset python data pandas plotly summarize_user
           (session people) 0 people).
  - reflexivity.
  - exact people_NoDup.
  - reflexivity.
  - reflexivity.
Defined.

Lemma falsy_response_falls_back_to_manual_witness :
  @main_query python data pandas plotly scatter_user sample_remote
    0 "the prompt" "ollama" (VStr "llama3") (VStr "http://localhost:11434") VNone
    "histogram of age" (session people)
  = @no_response python data pandas plotly scatter_user 0 (session people).
Proof.
  apply (@falsy_response_falls_back_to_manual python data pandas plotly scatter_user
           sample_remote 0 "the prompt" "ollama" (VStr "llama3")
           (VStr "http://localhost:11434") VNone "histogram of age"
           (session people) (session people) (VStr "")).
  - done.
  - reflexivity.
  - reflexivity.
Defined.

Lemma query_in_manual_mode_reports_two_errors_witness :
  @main_query python data pandas plotly scatter_user sample_remote
    0 "the prompt" "manual" (VStr "llama3") (VStr "http://localhost:11434") VNone
    "histogram of age" (session people)
  = @manual python data pandas plotly scatter_user 0
      (with_page (session people)
         [StError ("Unknown LLM provider: " +:+ "manual");
          StError "Could not connect to LLM. Falling back to manual mode.";
          StMarkdown "### Manual Visualization Builder"]).
Proof.
  apply (@query_in_manual_mode_reports_two_errors python data pandas plotly scatter_user
           sample_remote 0 "the prompt" "manual" (VStr "llama3")
           (VStr "http://localhost:11434") VNone "histogram of age" (session people));
    done.
Defined.

Lemma missing_parameter_reported_as_column_none_witness :
  ("scatter" = "histogram" -> dict_lookup "column" scatter_without_y = None ->
   prepare_data_for_visualization 0 scatter_without_y (session people)
   = (session people, Ret (None, Some "Column 'None' not found in the dataset.")))
  /\ ("scatter" = "bar" -> dict_lookup "x" scatter_without_y = None ->
      prepare_data_for_visualization 0 scatter_without_y (session people)
      = (session people, Ret (None, Some "Column 'None' not found in the dataset.")))
  /\ ("scatter" = "scatter" \/ "scatter" = "line" ->
      dict_lookup "x" scatter_without_y = None ->
      dict_lookup "y" scatter_without_y = None ->
      prepare_data_for_visualization 0 scatter_without_y (session people)
      = (session people,
         Ret (None, Some "Columns 'None' and 'None' not found in the dataset.")))
  /\ (forall x, "scatter" = "scatter" \/ "scatter" = "line" ->
      dict_lookup "x" scatter_without_y = Some (VStr x) ->
      dict_lookup "y" scatter_without_y = None ->
      prepare_data_for_visualization 0 scatter_without_y (session people)
      = (session people,
         Ret (None,
              Some (if has_column people x
                    then "Columns 'None' not found in the dataset."
                    else "Columns '" +:+ x
                           +:+ "' and 'None' not found in the dataset.")))).
Proof.
  apply (missing_parameter_reported_as_column_none (session people) 0 people
           scatter_without_y "scatter"); reflexivity.
Defined.

Lemma chart_action_on_existing_columns_is_rendered_witness :
  exists w' fig d',
    run_chart 0 histogram_age (VStr "Ages") (session people) = (w', Ret ())
    /\ page w' = page (session people) ++ [RenderVisualization (Some fig) (VStr "Ages")]
    /\ (forall l', l' <> 0 -> frames w' !! l' = frames (session people) !! l')
    /\ frames w' !! 0 = Some d' /\ columns d' = columns people.
Proof.
  apply (@chart_action_on_existing_columns_is_rendered python data pandas plotly
           sample_numeric_total sample_datetime_total sample_px_total sample_sort_total
           (session people) 0 people histogram_age (VStr "Ages") "histogram" ["age"]).
  - reflexivity.
  - reflexivity.
  - unfold chart_types. rewrite !elem_of_cons. by left.
  - reflexivity.
  - by repeat constructor.
Defined.

Lemma manual_builder_ends_in_chart_summary_or_warning_witness :
  exists w' e,
    @manual python data pandas plotly (user "line") 0 (session people) = (w', Ret ())
    /\ page w' = page (session people) ++ [StMarkdown "### Select Visualization Type"; e]
    /\ frames w' !! 0 = Some people
    /\ ((exists fig description, e = RenderVisualization (Some fig) description
                                 /\ "line" <> "summarize")
        \/ (exists rows description, e = RenderSummary (Some rows) description
                                     /\ "line" = "summarize")
        \/ (exists message, e = StWarning message
                            /\ ("line" = "scatter" \/ "line" = "line")
                            /\ length (numeric_columns people) < 2)).
Proof.
  apply (@manual_builder_ends_in_chart_summary_or_warning python data pandas plotly
           (user "line") sample_numeric_total sample_datetime_total sample_px_total
           sample_sort_total (sample_selectbox_picks "line") (session people) 0 people
           "line").
  - reflexivity.
  - done.
  - exact people_NoDup.
  - reflexivity.
  - unfold viz_types. rewrite !elem_of_cons. tauto.
Defined.

Lemma manual_scatter_axes_differ_witness :
  exists x y,
    @create_action_from_ui python data pandas plotly scatter_user 0 (session measures)
    = (with_page (session measures) [StMarkdown "### Select Visualization Type"],
       Ret (VDict [("type", VStr "scatter"); ("x", VStr x); ("y", VStr y)],
            VStr ("Scatter plot showing relationship between " +:+ x
                    +:+ " and " +:+ y)))
    /\ x <> y /\ x ∈ numeric_columns measures /\ y ∈ numeric_columns measures.
Proof.
  apply (@manual_scatter_axes_differ python data pandas plotly scatter_user
           (sample_selectbox_picks "scatter") (session measures) 0 measures).
  - reflexivity.
  - unfold measures. cbn. repeat constructor; rewrite ?elem_of_cons, ?elem_of_nil;
      intros Hx; by repeat destruct Hx as [Hx|Hx].
  - reflexivity.
  - cbn. lia.
Defined.

